(** * docs-agent-v3: a shallow embedding of the coordinator, the local
      analyzer, the module/dependency resolver and the phase pipeline.

    Python objects are modelled as follows.
    - [str] is [string] (the development covers text whose characters fit in
      one byte; character classes follow Python's tables on the ASCII range).
    - [list] is [list]; a [dict] whose iteration order matters is an
      association list kept in insertion order.
    - an operation that can raise returns [Res], the error monad below.
    - console and log rendering (rich) is treated as a no-op.
*)

From Stdlib Require Import String Ascii List Bool Arith ZArith Lia.
From Stdlib Require Import DecimalString.
Import ListNotations.

Open Scope string_scope.
Open Scope list_scope.
Open Scope nat_scope.

(* ------------------------------------------------------------------ *)
(** ** Exceptions and the error monad *)

Inductive PyExc : Type :=
| IndexError
| TypeError (msg : string)
| ValueError (msg : string)
| ValidationError (field : string)
| RuntimeError (msg : string).

Inductive Res (A : Type) : Type :=
| Ok (a : A)
| Raise (e : PyExc).
Arguments Ok {A} a.
Arguments Raise {A} e.

Definition bind {A B} (m : Res A) (k : A -> Res B) : Res B :=
  match m with
  | Ok a => k a
  | Raise e => Raise e
  end.

Notation "x <- m ;; k" := (bind m (fun x => k))
  (at level 61, m at next level, right associativity).

(** [for x in xs: st = body st x], stopping at the first exception. *)
Fixpoint for_each {A S} (xs : list A) (body : S -> A -> Res S) (st : S) : Res S :=
  match xs with
  | [] => Ok st
  | x :: rest => st' <- body st x ;; for_each rest body st'
  end.

(** [str(e)] *)
Definition str_exc (e : PyExc) : string :=
  match e with
  | IndexError => "list index out of range"
  | TypeError m => m
  | ValueError m => m
  | ValidationError f => "validation error for " ++ f
  | RuntimeError m => m
  end.

(* ------------------------------------------------------------------ *)
(** ** Python string operations *)

Module PyStr.

Definition newline : ascii := "010"%char.

(** [s.startswith(p)] *)
Definition startswith (s p : string) : bool := String.prefix p s.

(** [s.endswith(suf)]: some tail of [s] is [suf]. *)
Fixpoint endswith (s suf : string) : bool :=
  if String.eqb s suf then true
  else match s with
       | EmptyString => false
       | String _ t => endswith t suf
       end.

(** [needle in hay] *)
Fixpoint contains (needle hay : string) : bool :=
  if String.prefix needle hay then true
  else match hay with
       | EmptyString => false
       | String _ t => contains needle t
       end.

(** [s.replace(old, new)] for a one-character [old]. *)
Fixpoint replace (old : ascii) (new : string) (s : string) : string :=
  match s with
  | EmptyString => EmptyString
  | String c t =>
      if Ascii.eqb c old then new ++ replace old new t
      else String c (replace old new t)
  end.

(** [s.rfind(c)]: the index of the last [c], or -1. *)
Fixpoint rfind_from (c : ascii) (s : string) (i last : Z) : Z :=
  match s with
  | EmptyString => last
  | String a t => rfind_from c t (i + 1)%Z (if Ascii.eqb a c then i else last)
  end.
Definition rfind (c : ascii) (s : string) : Z := rfind_from c s 0%Z (-1)%Z.

(** [s[i:]] and [s[:i]] for [i >= 0]. *)
Fixpoint drop (n : nat) (s : string) : string :=
  match n, s with
  | O, _ => s
  | S _, EmptyString => EmptyString
  | S n', String _ t => drop n' t
  end.
Definition slice_from (i : Z) (s : string) : string := drop (Z.to_nat i) s.
Definition slice_to (i : Z) (s : string) : string := substring 0 (Z.to_nat i) s.

(** [s == c * len(s)] *)
Fixpoint all_char (c : ascii) (s : string) : bool :=
  match s with
  | EmptyString => true
  | String a t => Ascii.eqb a c && all_char c t
  end.

(** [s.rstrip(c)] for a one-character argument. *)
Fixpoint rstrip_char (c : ascii) (s : string) : string :=
  match s with
  | EmptyString => EmptyString
  | String a t =>
      match rstrip_char c t with
      | EmptyString => if Ascii.eqb a c then EmptyString else String a EmptyString
      | r => String a r
      end
  end.

(** [s.split(c)] for a one-character separator: never the empty list. *)
Fixpoint split (c : ascii) (s : string) : list string :=
  match s with
  | EmptyString => [EmptyString]
  | String a t =>
      if Ascii.eqb a c then EmptyString :: split c t
      else match split c t with
           | [] => [String a EmptyString]
           | w :: ws => String a w :: ws
           end
  end.

(** [str.isspace] on one character (ASCII range): TAB..CR, FS..US, SPACE. *)
Definition is_space (c : ascii) : bool :=
  let n := nat_of_ascii c in
  (((9 <=? n) && (n <=? 13)) || ((28 <=? n) && (n <=? 32)))%nat.

Fixpoint lstrip (s : string) : string :=
  match s with
  | EmptyString => EmptyString
  | String a t => if is_space a then lstrip t else s
  end.

Fixpoint rstrip (s : string) : string :=
  match s with
  | EmptyString => EmptyString
  | String a t =>
      match rstrip t with
      | EmptyString => if is_space a then EmptyString else String a EmptyString
      | r => String a r
      end
  end.

(** [s.strip()] *)
Definition strip (s : string) : string := rstrip (lstrip s).

(** [s.lower()] on the ASCII range. *)
Definition lower_char (c : ascii) : ascii :=
  let n := nat_of_ascii c in
  if ((65 <=? n) && (n <=? 90))%nat then ascii_of_nat (n + 32) else c.
Fixpoint lower (s : string) : string :=
  match s with
  | EmptyString => EmptyString
  | String a t => String (lower_char a) (lower t)
  end.

(** [s.count(c)] for a one-character argument. *)
Fixpoint count (c : ascii) (s : string) : nat :=
  match s with
  | EmptyString => 0
  | String a t => (if Ascii.eqb a c then 1 else 0) + count c t
  end.

(** [str(n)] for a non-negative integer. *)
Definition of_nat (n : nat) : string := NilZero.string_of_uint (Nat.to_uint n).

(** [bool(s)] *)
Definition truthy (s : string) : bool := negb (String.eqb s "").

End PyStr.

(** ** [os.path] (posixpath) *)

Module OsPath.
Import PyStr.

Definition sep : ascii := "/"%char.
Definition extsep : ascii := "."%char.

(** [posixpath.dirname] *)
Definition dirname (p : string) : string :=
  let i := (rfind sep p + 1)%Z in
  let head := slice_to i p in
  if truthy head && negb (all_char sep head) then rstrip_char sep head else head.

(** [posixpath.basename] *)
Definition basename (p : string) : string :=
  let i := (rfind sep p + 1)%Z in
  slice_from i p.

(** The [while filenameIndex < dotIndex] loop of [genericpath._splitext]:
    [true] when some character of [p[filenameIndex:dotIndex]] is not a dot. *)
Fixpoint has_non_dot (s : string) (n : nat) : bool :=
  match n, s with
  | O, _ => false
  | S _, EmptyString => true
  | S n', String a t => if Ascii.eqb a extsep then has_non_dot t n' else true
  end.

(** [posixpath.splitext] *)
Definition splitext (p : string) : string * string :=
  let sepIndex := rfind sep p in
  let dotIndex := rfind extsep p in
  if (sepIndex <? dotIndex)%Z then
    let filenameIndex := (sepIndex + 1)%Z in
    if has_non_dot (slice_from filenameIndex p) (Z.to_nat (dotIndex - filenameIndex))
    then (slice_to dotIndex p, slice_from dotIndex p)
    else (p, EmptyString)
  else (p, EmptyString).

End OsPath.


(* ------------------------------------------------------------------ *)
(** ** Handoff documents (models/handoff.py) *)

Module FunctionInfo.
Record t : Type := mk {
  name : string;
  line_number : nat;
  parameters : list string;
  return_type : option string;
  docstring : option string;
  description : string;
  complexity : string;
  calls : list string
}.
End FunctionInfo.

Module ClassInfo.
Record t : Type := mk {
  name : string;
  line_number : nat;
  base_classes : list string;
  docstring : option string;
  description : string;
  methods : list FunctionInfo.t;
  attributes : list string
}.
End ClassInfo.

Module ImportInfo.
Record t : Type := mk {
  module : string;
  names : list string;
  is_relative : bool;
  is_external : bool
}.
End ImportInfo.

Module FileAnalysisHandoff.
Record t : Type := mk {
  path : string;
  language : string;
  purpose : string;
  imports : list ImportInfo.t;
  exports : list string;
  classes : list ClassInfo.t;
  functions : list FunctionInfo.t;
  constants : list string;
  key_insights : list string;
  dependencies : list string;
  complexity_score : Z;
  raw_summary : string
}.

(** The pydantic constructor: [complexity_score: int = Field(ge=1, le=10)]. *)
Definition create (path language purpose : string) (imports : list ImportInfo.t)
    (exports : list string) (classes : list ClassInfo.t)
    (functions : list FunctionInfo.t) (constants key_insights dependencies : list string)
    (complexity_score : Z) (raw_summary : string) : Res t :=
  if ((1 <=? complexity_score) && (complexity_score <=? 10))%Z
  then Ok (mk path language purpose imports exports classes functions constants
              key_insights dependencies complexity_score raw_summary)
  else Raise (ValidationError "complexity_score").
End FileAnalysisHandoff.

Module ModuleInfo.
Record t : Type := mk {
  name : string;
  path : string;
  files : list string;
  purpose : string;
  public_api : list string;
  internal_components : list string
}.
End ModuleInfo.

Module DependencyEdge.
Record t : Type := mk {
  source : string;
  target : string;
  relationship_type : string;
  strength : string
}.
End DependencyEdge.

Module CodeExample.
Record t : Type := mk {
  title : string;
  description : string;
  code : string;
  language : string;
  file_references : list string;
  prerequisites : list string
}.
End CodeExample.

(* ------------------------------------------------------------------ *)
(** ** Insertion-ordered dictionaries with string keys *)

Module Dict.
Definition t (V : Type) : Type := list (string * V).

Fixpoint get {V} (k : string) (d : t V) : option V :=
  match d with
  | [] => None
  | (k', v) :: rest => if String.eqb k' k then Some v else get k rest
  end.

(** [d[k] = v]: a present key keeps its position, a new key goes last. *)
Fixpoint set {V} (k : string) (v : V) (d : t V) : t V :=
  match d with
  | [] => [(k, v)]
  | (k', v') :: rest =>
      if String.eqb k' k then (k', v) :: rest else (k', v') :: set k v rest
  end.

Definition keys {V} (d : t V) : list string := map fst d.
Definition mem {V} (k : string) (d : t V) : bool :=
  match get k d with Some _ => true | None => false end.
End Dict.

(* ------------------------------------------------------------------ *)
(** ** doc_agents/module_analyzer.py *)

Module ModuleAnalyzer.
Import PyStr.
Module FA := FileAnalysisHandoff.

(** *** identify_modules *)

(** Lines 113-121: group the analyses by [os.path.dirname]. *)
Definition dir_of (analysis : FA.t) : string :=
  let dir_path := OsPath.dirname (FA.path analysis) in
  if negb (truthy dir_path) then "." else dir_path.

Definition group_step (dir_files : Dict.t (list FA.t)) (analysis : FA.t)
  : Dict.t (list FA.t) :=
  let dir_path := dir_of analysis in
  let dir_files := if negb (Dict.mem dir_path dir_files)
                   then Dict.set dir_path [] dir_files else dir_files in
  match Dict.get dir_path dir_files with
  | Some l => Dict.set dir_path (l ++ [analysis]) dir_files
  | None => dir_files
  end.

Definition group_by_dir (file_analyses : list FA.t) : Dict.t (list FA.t) :=
  fold_left group_step file_analyses [].

(** [collections.Counter(xs)]: counts, keys in first-occurrence order. *)
Definition Counter (xs : list string) : Dict.t nat :=
  fold_left (fun d x => match Dict.get x d with
                        | Some n => Dict.set x (S n) d
                        | None => Dict.set x 1 d
                        end) xs [].

(** [max(items, key=itemgetter(1))]: the first item of maximal count. *)
Fixpoint max_item (best : string * nat) (items : list (string * nat)) : string * nat :=
  match items with
  | [] => best
  | it :: rest => max_item (if snd best <? snd it then it else best) rest
  end.

(** [c.most_common(1)] *)
Definition most_common_1 (c : Dict.t nat) : list (string * nat) :=
  match c with
  | [] => []
  | it :: rest => [max_item it rest]
  end.

(** [xs[0]] *)
Definition index0 {A} (xs : list A) : Res A :=
  match xs with
  | [] => Raise IndexError
  | x :: _ => Ok x
  end.

(** Lines 140-145: the export loops of one group. *)
Definition collect_exports (files : list FA.t) : list string * list string :=
  fold_left (fun acc f =>
    fold_left (fun acc export =>
      let '(public_api, internal_components) := acc in
      if negb (startswith export "_")
      then (public_api ++ [FA.path f ++ ":" ++ export]%string, internal_components)
      else (public_api, internal_components ++ [FA.path f ++ ":" ++ export]%string))
      (FA.exports f) acc) files ([], []).

(** Lines 126-163: the body of the loop over [dir_files.items()]. *)
Definition module_step (modules : list ModuleInfo.t)
    (item : string * list FA.t) : Res (list ModuleInfo.t) :=
  let '(dir_path, files) := item in
  if String.eqb dir_path "." && (List.length files <? 3) then Ok modules  (* continue *)
  else
    let module_name :=
      if String.eqb dir_path "." then "root"
      else replace "\"%char "." (replace "/"%char "." dir_path) in
    let '(public_api, internal_components) := collect_exports files in
    let purposes :=
      map FA.purpose
          (filter (fun f => truthy (FA.purpose f)
                            && negb (String.eqb (FA.purpose f) "Unknown")) files) in
    purpose <- (match purposes with
                | _ :: _ =>
                    top <- index0 (most_common_1 (Counter purposes)) ;;
                    Ok (fst top)
                | [] =>
                    Ok ("Module containing " ++ of_nat (List.length files) ++ " files")%string
                end) ;;
    Ok (modules ++ [ModuleInfo.mk module_name dir_path (map FA.path files) purpose
                      (firstn 20 public_api) (firstn 10 internal_components)]).

Definition identify_modules (file_analyses : list FA.t) (repository_path : string)
  : Res (list ModuleInfo.t) :=
  let dir_files := group_by_dir file_analyses in
  for_each dir_files module_step [].

(** *** build_dependency_graph *)

(** Lines 183-185. *)
Definition build_file_exports (file_analyses : list FA.t) : Dict.t (list string) :=
  fold_left (fun d analysis =>
               Dict.set (FA.path analysis) (nodup string_dec (FA.exports analysis)) d)
            file_analyses [].

(** Lines 196-206: the scan over [file_exports.keys()], left at the first hit. *)
Fixpoint scan_import_target (source target_module : string) (keys : list string)
    (edges : list DependencyEdge.t) : list DependencyEdge.t :=
  match keys with
  | [] => edges
  | other_path :: rest =>
      let other_base := fst (OsPath.splitext other_path) in
      if endswith other_base target_module || contains target_module other_base
      then edges ++ [DependencyEdge.mk source other_path "imports" "normal"]  (* break *)
      else scan_import_target source target_module rest edges
  end.

(** Lines 189-206. *)
Definition import_step (file_exports : Dict.t (list string)) (analysis : FA.t)
    (edges : list DependencyEdge.t) (imp : ImportInfo.t) : list DependencyEdge.t :=
  if ImportInfo.is_relative imp || negb (ImportInfo.is_external imp) then
    let target_module := replace "."%char "/" (ImportInfo.module imp) in
    scan_import_target (FA.path analysis) target_module (Dict.keys file_exports) edges
  else edges.

(** Lines 212-221. *)
Definition base_step (file_analyses : list FA.t) (analysis : FA.t)
    (edges : list DependencyEdge.t) (base : string) : list DependencyEdge.t :=
  fold_left (fun edges other =>
    if negb (String.eqb (FA.path other) (FA.path analysis)) then
      fold_left (fun edges other_cls =>
        if String.eqb (ClassInfo.name other_cls) base
        then edges ++ [DependencyEdge.mk (FA.path analysis) (FA.path other)
                                         "extends" "strong"]
        else edges) (FA.classes other) edges
    else edges) file_analyses edges.

(** Lines 188-221: the body of the outer loop. *)
Definition analysis_step (file_analyses : list FA.t)
    (file_exports : Dict.t (list string))
    (edges : list DependencyEdge.t) (analysis : FA.t) : list DependencyEdge.t :=
  let edges := fold_left (import_step file_exports analysis) (FA.imports analysis) edges in
  fold_left (fun edges cls =>
               fold_left (base_step file_analyses analysis) (ClassInfo.base_classes cls) edges)
            (FA.classes analysis) edges.

Definition build_dependency_graph (file_analyses : list FA.t) : list DependencyEdge.t :=
  let file_exports := build_file_exports file_analyses in
  fold_left (analysis_step file_analyses file_exports) file_analyses [].

End ModuleAnalyzer.

(** *** The resolution rules of the specification, stated with [find] and
        [filter]; compared with the loops above in [build_dependency_graph_refines]. *)

Module EdgeRules.
Import PyStr.
Module FA := FileAnalysisHandoff.

(** An import is local when it is relative or not external. *)
Definition is_local (imp : ImportInfo.t) : bool :=
  ImportInfo.is_relative imp || negb (ImportInfo.is_external imp).

(** The normalized module reference. *)
Definition normalized (imp : ImportInfo.t) : string :=
  replace "."%char "/" (ImportInfo.module imp).

(** Suffix-or-substring match against the extension-stripped path. *)
Definition resolves (target_module other_path : string) : bool :=
  let other_base := fst (OsPath.splitext other_path) in
  endswith other_base target_module || contains target_module other_base.

Definition imports_edge (source target : string) : DependencyEdge.t :=
  DependencyEdge.mk source target "imports" "normal".

Definition extends_edge (source target : string) : DependencyEdge.t :=
  DependencyEdge.mk source target "extends" "strong".

(** At most one edge per import: to the first path, in the order of the
    input, that matches. *)
Definition import_edges (files : list FA.t) (a : FA.t) (imp : ImportInfo.t)
  : list DependencyEdge.t :=
  if is_local imp then
    match find (resolves (normalized imp)) (map FA.path files) with
    | Some p => [imports_edge (FA.path a) p]
    | None => []
    end
  else [].

(** The classes of [other] named [base]. *)
Definition matching_classes (base : string) (other : FA.t) : list ClassInfo.t :=
  filter (fun c => String.eqb (ClassInfo.name c) base) (FA.classes other).

(** The files other than [a]. *)
Definition others (files : list FA.t) (a : FA.t) : list FA.t :=
  filter (fun other => negb (String.eqb (FA.path other) (FA.path a))) files.

(** One edge per matching class of every other file. *)
Definition extends_edges (files : list FA.t) (a : FA.t) (base : string)
  : list DependencyEdge.t :=
  flat_map (fun other =>
              map (fun _ => extends_edge (FA.path a) (FA.path other))
                  (matching_classes base other))
           (others files a).

Definition file_edges (files : list FA.t) (a : FA.t) : list DependencyEdge.t :=
  flat_map (import_edges files a) (FA.imports a)
  ++ flat_map (fun cls => flat_map (extends_edges files a) (ClassInfo.base_classes cls))
              (FA.classes a).

Definition edges (files : list FA.t) : list DependencyEdge.t :=
  flat_map (file_edges files) files.

(** The members of directory [d], and the modules located at [d]. *)
Definition members (files : list FA.t) (d : string) : list FA.t :=
  filter (fun f => String.eqb (ModuleAnalyzer.dir_of f) d) files.

Definition modules_at (d : string) (modules : list ModuleInfo.t) : list ModuleInfo.t :=
  filter (fun m => String.eqb (ModuleInfo.path m) d) modules.

End EdgeRules.

(* ------------------------------------------------------------------ *)
(** ** doc_agents/subagent_coordinator.py

    The event loop is cooperative: a coroutine runs alone from one
    suspension point to the next.  A child of [asyncio.gather] suspends in
    two places only, at [async with self.semaphore] when no permit is free
    and at [await Runner.run(...)].  The model has one event per resumption
    and lets a schedule choose, at every turn, which ready child runs.
    A failure is an [Exception]; cancellation of the whole call is outside
    the model. *)

Module Coordinator.

(** [result.final_output], declared [Any]. *)
Inductive PyVal : Type :=
| PyNone
| PyText (s : string)
| PyObject (id : nat).

Record SubagentTask : Type := mkTask {
  name : string;
  prompt : string;
  model : string;
  api_key : string;
  max_tokens : Z
}.

Record SubagentResult : Type := mkResult {
  task_name : string;
  success : bool;
  output : PyVal;
  error : option string
}.

(** What building the agent and awaiting [Runner.run] come to. *)
Inductive Outcome : Type :=
| Returned (final_output : PyVal)
| Raised (e : PyExc).

Record SubagentCoordinator : Type := mkCoordinator {
  max_concurrent : Z;
  semaphore : Z          (* the value of [asyncio.Semaphore(max_concurrent)] *)
}.

(** [__init__]; [asyncio.Semaphore] refuses a negative value. *)
Definition init (max_concurrent : Z) : Res SubagentCoordinator :=
  if (max_concurrent <? 0)%Z
  then Raise (ValueError "Semaphore initial value must be >= 0")
  else Ok (mkCoordinator max_concurrent max_concurrent).

(** Lines 84-119: the [try]/[except] of [run_task], given what the awaited
    call came to. *)
Definition run_task_body (task : SubagentTask) (awaited : Outcome) : SubagentResult :=
  match awaited with
  | Returned final_output => mkResult (name task) true final_output None
  | Raised e => mkResult (name task) false PyNone (Some (str_exc e))
  end.

(** Where a child [run_with_progress(task)] stands. *)
Inductive Phase : Type :=
| Pending                               (* created, not yet run *)
| Waiting                               (* suspended in [semaphore.acquire] *)
| Running                               (* holds a permit, awaits the provider *)
| Done (r : Res SubagentResult).        (* returned, or raised *)

Record State : Type := mkState {
  sem : Z;
  phases : list Phase;
  completed : nat
}.

Inductive Event : Type :=
| Enter (i : nat)      (* child [i] runs up to its next suspension *)
| Finish (i : nat).    (* the provider call of child [i] is over *)

Fixpoint set_nth {A} (i : nat) (x : A) (l : list A) : list A :=
  match l, i with
  | [], _ => []
  | _ :: t, O => x :: t
  | h :: t, S i' => h :: set_nth i' x t
  end.

Definition is_running (p : Phase) : bool :=
  match p with Running => true | _ => false end.

Definition is_done (p : Phase) : bool :=
  match p with Done _ => true | _ => false end.

(** The number of [run_task] bodies past the semaphore. *)
Definition in_flight (s : State) : nat := List.length (filter is_running (phases s)).

Section Batch.
(** The outcome of the provider for the [i]-th task of the batch. *)
Variable provider : nat -> SubagentTask -> Outcome.
(** [progress_callback(completed, total)]: [Some e] when it raises. *)
Variable progress_callback : option (nat -> nat -> option PyExc).
Variable tasks : list SubagentTask.

(** Lines 139-145 after the [await]: count, report, return. *)
Definition after_task (completed : nat) (result : SubagentResult) : Res SubagentResult :=
  match progress_callback with
  | Some callback =>
      match callback completed (List.length tasks) with
      | Some e => Raise e
      | None => Ok result
      end
  | None => Ok result
  end.

Definition step (s : State) (ev : Event) : State :=
  match ev with
  | Enter i =>
      match nth_error (phases s) i with
      | Some Pending | Some Waiting =>
          if (0 <? sem s)%Z
          then mkState (sem s - 1) (set_nth i Running (phases s)) (completed s)
          else mkState (sem s) (set_nth i Waiting (phases s)) (completed s)
      | _ => s
      end
  | Finish i =>
      match nth_error (phases s) i, nth_error tasks i with
      | Some Running, Some task =>
          let result := run_task_body task (provider i task) in
          let completed := S (completed s) in
          mkState (sem s + 1)
                  (set_nth i (Done (after_task completed result)) (phases s))
                  completed
      | _, _ => s
      end
  end.

Definition initial (c : SubagentCoordinator) : State :=
  mkState (semaphore c) (map (fun _ => Pending) tasks) 0.

(** The events that move a child forward in state [s]. *)
Definition ready (s : State) (i : nat) : list Event :=
  match nth_error (phases s) i with
  | Some Pending => [Enter i]
  | Some Waiting => if (0 <? sem s)%Z then [Enter i] else []
  | Some Running => [Finish i]
  | _ => []
  end.

Definition enabled (s : State) : list Event :=
  flat_map (ready s) (seq 0 (List.length (phases s))).

(** The loop runs ready children, picked by [schedule], until none is
    left; [None] when children remain that can never be resumed. *)
Fixpoint event_loop (turns : nat) (schedule : list nat) (s : State) : option State :=
  match enabled s with
  | [] => if forallb is_done (phases s) then Some s else None
  | ev :: evs =>
      match turns with
      | O => None
      | S turns' =>
          let chosen := nth (hd 0 schedule mod List.length (ev :: evs)) (ev :: evs) ev in
          event_loop turns' (tl schedule) (step s chosen)
      end
  end.

Fixpoint collect (ps : list Phase) : option (list (Res SubagentResult)) :=
  match ps with
  | [] => Some []
  | Done r :: rest => option_map (cons r) (collect rest)
  | _ :: _ => None
  end.

(** [asyncio.gather] with [return_exceptions=True]: every child
    moves at most three times. *)
Definition gather (c : SubagentCoordinator) (schedule : list nat)
  : option (list (Res SubagentResult)) :=
  match event_loop (3 * List.length tasks) schedule (initial c) with
  | Some s => collect (phases s)
  | None => None
  end.

(** [tasks[i]] *)
Definition index {A} (l : list A) (i : nat) : Res A :=
  match nth_error l i with
  | Some x => Ok x
  | None => Raise IndexError
  end.

Fixpoint enumerate_from {A} (i : nat) (l : list A) : list (nat * A) :=
  match l with
  | [] => []
  | x :: rest => (i, x) :: enumerate_from (S i) rest
  end.

(** Lines 154-164. *)
Definition convert_step (final_results : list SubagentResult)
    (item : nat * Res SubagentResult) : Res (list SubagentResult) :=
  let '(i, result) := item in
  match result with
  | Raise e =>
      task <- index tasks i ;;
      Ok (final_results ++ [mkResult (name task) false PyNone (Some (str_exc e))])
  | Ok r => Ok (final_results ++ [r])
  end.

(** [run_parallel]: [None] when the call never returns. *)
Definition run_parallel (c : SubagentCoordinator) (schedule : list nat)
  : option (Res (list SubagentResult)) :=
  match gather c schedule with
  | Some results => Some (for_each (enumerate_from 0 results) convert_step [])
  | None => None
  end.

End Batch.

End Coordinator.

(* ------------------------------------------------------------------ *)
(** ** doc_agents/orchestrator.py *)

Module Orchestrator.
Module FA := FileAnalysisHandoff.

#[local] Unset Elimination Schemes.
Inductive DocumentationSection : Type :=
| Section_ (title content : string) (subsections : list DocumentationSection).
#[local] Set Elimination Schemes.

Record DiscoveryHandoff : Type := mkDiscovery {
  d_repository_path : string;
  total_files : nat;
  detected_languages : list string;
  detected_frameworks : list string;
  d_entry_points : list string;
  summary : string
}.

Record ModuleAnalysisHandoff : Type := mkModuleAnalysis {
  ma_modules : list ModuleInfo.t;
  dependency_graph : list DependencyEdge.t;
  architecture_patterns : list string;
  data_flow : list string;
  ma_entry_points : list string;
  key_relationships : list string;
  architectural_insights : list string
}.

Record FinalDocumentation : Type := mkFinal {
  repository_name : string;
  overview : string;
  architecture : DocumentationSection;
  modules : list DocumentationSection;
  api_reference : DocumentationSection;
  examples : list CodeExample.t;
  getting_started : DocumentationSection;
  configuration : option DocumentationSection
}.

(** [doc.examples = exs] *)
Definition set_examples (doc : FinalDocumentation) (exs : list CodeExample.t)
  : FinalDocumentation :=
  mkFinal (repository_name doc) (overview doc) (architecture doc) (modules doc)
          (api_reference doc) exs (getting_started doc) (configuration doc).

(** The phase functions and the file writers, which call the provider and
    the file system; [OUTPUT_DIR] comes from the environment. *)
Record Collaborators : Type := mkCollaborators {
  OUTPUT_DIR : string;
  run_discovery : string -> Res DiscoveryHandoff;
  run_file_analysis : DiscoveryHandoff -> Res (list FA.t);
  run_module_analysis : DiscoveryHandoff -> list FA.t -> Res ModuleAnalysisHandoff;
  (** the sections written by the provider or by the local fallbacks *)
  synthesize : DiscoveryHandoff -> list FA.t -> ModuleAnalysisHandoff
               -> Res FinalDocumentation;
  write_documentation_files : FinalDocumentation -> Res unit;
  generate_examples : ModuleAnalysisHandoff -> list FA.t -> string
                      -> Res (list CodeExample.t);
  write_examples_file : list CodeExample.t -> Res unit;
  generate_faqs : DiscoveryHandoff -> list FA.t -> ModuleAnalysisHandoff
                  -> Res (list string)
}.

(** [run_doc_synthesis] builds the document with [examples=[]]
    (doc_synthesizer.py, line 675). *)
Definition run_doc_synthesis (env : Collaborators) (discovery : DiscoveryHandoff)
    (file_analyses : list FA.t) (module_analysis : ModuleAnalysisHandoff)
  : Res FinalDocumentation :=
  doc <- synthesize env discovery file_analyses module_analysis ;;
  Ok (set_examples doc []).

Record DocumentationOrchestrator : Type := mkOrchestrator {
  repository_path : string;
  discovery : option DiscoveryHandoff;
  file_analyses : option (list FA.t);
  module_analysis : option ModuleAnalysisHandoff;
  documentation : option FinalDocumentation
}.

(** [__init__] *)
Definition init (repository_path : string) : DocumentationOrchestrator :=
  mkOrchestrator repository_path None None None None.

(** *** Methods: exceptions over the mutable object [self] *)

Definition M (A : Type) : Type :=
  DocumentationOrchestrator -> Res A * DocumentationOrchestrator.

Definition ret {A} (a : A) : M A := fun self => (Ok a, self).

Definition bindM {A B} (m : M A) (k : A -> M B) : M B :=
  fun self =>
    match m self with
    | (Ok a, self') => k a self'
    | (Raise e, self') => (Raise e, self')
    end.

(** A call that does not touch [self]. *)
Definition call {A} (r : Res A) : M A := fun self => (r, self).

Definition get : M DocumentationOrchestrator := fun self => (Ok self, self).
Definition put (self' : DocumentationOrchestrator) : M unit := fun _ => (Ok tt, self').

(** [try: body / except Exception as e: handler e] *)
Definition try_except {A} (body : M A) (handler : PyExc -> M A) : M A :=
  fun self =>
    match body self with
    | (Ok a, self') => (Ok a, self')
    | (Raise e, self') => handler e self'
    end.

Definition raise {A} (e : PyExc) : M A := fun self => (Raise e, self).

Notation "x <~ m ;; k" := (bindM m (fun x => k))
  (at level 61, m at next level, right associativity).
Notation "m ;;; k" := (bindM m (fun _ => k))
  (at level 61, right associativity).

(** An attribute of [self] that must not be [None]. *)
Definition attr {A} (field : DocumentationOrchestrator -> option A) (what : string) : M A :=
  self <~ get ;;
  match field self with
  | Some a => ret a
  | None => raise (RuntimeError ("'NoneType' object has no attribute: " ++ what))
  end.

(** [detected_languages[0] if detected_languages else "python"] *)
Definition primary_language (d : DiscoveryHandoff) : string :=
  match detected_languages d with
  | l :: _ => l
  | [] => "python"
  end.

Section Run.
Variable env : Collaborators.

(** Lines 100-114. *)
Definition phase_discovery : M unit :=
  try_except
    (self <~ get ;;
     d <~ call (run_discovery env (repository_path self)) ;;
     put (mkOrchestrator (repository_path self) (Some d) (file_analyses self)
                         (module_analysis self) (documentation self)))
    (fun e => raise e).

(** Lines 116-131. *)
Definition phase_file_analysis : M unit :=
  try_except
    (d <~ attr discovery "discovery" ;;
     fa <~ call (run_file_analysis env d) ;;
     self <~ get ;;
     put (mkOrchestrator (repository_path self) (discovery self) (Some fa)
                         (module_analysis self) (documentation self)))
    (fun e => raise e).

(** Lines 133-149. *)
Definition phase_module_analysis : M unit :=
  try_except
    (d <~ attr discovery "discovery" ;;
     fa <~ attr file_analyses "file_analyses" ;;
     ma <~ call (run_module_analysis env d fa) ;;
     self <~ get ;;
     put (mkOrchestrator (repository_path self) (discovery self) (file_analyses self)
                         (Some ma) (documentation self)))
    (fun e => raise e).

(** Lines 151-164. *)
Definition phase_synthesis : M unit :=
  try_except
    (d <~ attr discovery "discovery" ;;
     fa <~ attr file_analyses "file_analyses" ;;
     ma <~ attr module_analysis "module_analysis" ;;
     doc <~ call (run_doc_synthesis env d fa ma) ;;
     self <~ get ;;
     put (mkOrchestrator (repository_path self) (discovery self) (file_analyses self)
                         (module_analysis self) (Some doc)) ;;;
     call (write_documentation_files env doc))
    (fun e => raise e).

(** Lines 166-183: the handler prints and goes on. *)
Definition phase_examples : M unit :=
  try_except
    (d <~ attr discovery "discovery" ;;
     let primary_lang := primary_language d in
     ma <~ attr module_analysis "module_analysis" ;;
     fa <~ attr file_analyses "file_analyses" ;;
     examples <~ call (generate_examples env ma fa primary_lang) ;;
     doc <~ attr documentation "documentation" ;;
     self <~ get ;;
     put (mkOrchestrator (repository_path self) (discovery self) (file_analyses self)
                         (module_analysis self) (Some (set_examples doc examples))) ;;;
     call (write_examples_file env examples))
    (fun _ => ret tt).

(** Lines 185-197. *)
Definition phase_faq : M unit :=
  try_except
    (d <~ attr discovery "discovery" ;;
     fa <~ attr file_analyses "file_analyses" ;;
     ma <~ attr module_analysis "module_analysis" ;;
     faqs <~ call (generate_faqs env d fa ma) ;;
     ret tt)
    (fun _ => ret tt).

(** [run]: the summary reads [len(self.documentation.modules)]. *)
Definition run : M string :=
  phase_discovery ;;;
  phase_file_analysis ;;;
  phase_module_analysis ;;;
  phase_synthesis ;;;
  phase_examples ;;;
  phase_faq ;;;
  doc <~ attr documentation "documentation" ;;
  ret (OUTPUT_DIR env).

End Run.


End Orchestrator.

(* ------------------------------------------------------------------ *)
(** ** The part of Python's [re] that the analyzer uses

    Backtracking matching, leftmost and greedy, over the constructs of the
    analyzer's patterns: literals, one-character classes and their greedy
    [*] and [+], [^], sequence, alternation, the greedy optional group and
    capturing groups.  Every pattern of the analyzer needs at least one
    literal character, so none matches the empty string. *)

Module Re.

Inductive charset : Type :=
| Dot                                   (* [.]: any character but a newline *)
| Space                                 (* [\s] *)
| NonSpace                              (* [\S] *)
| Word                                  (* [\w] *)
| OneOf (cs : list ascii)               (* [[...]] *)
| NoneOf (cs : list ascii)              (* [[^...]] *)
| Ranges (rs : list (ascii * ascii)) (cs : list ascii).   (* [[A-Z0-9_]] *)

Inductive regex : Type :=
| Lit (s : string)
| One (c : charset)
| Star (c : charset)
| Plus (c : charset)
| Bol
| Seq (r1 r2 : regex)
| Alt (r1 r2 : regex)
| Opt (r : regex)
| Group (n : nat) (r : regex).

Definition mem_ascii (a : ascii) (cs : list ascii) : bool :=
  existsb (Ascii.eqb a) cs.

Definition in_range (a : ascii) (r : ascii * ascii) : bool :=
  (nat_of_ascii (fst r) <=? nat_of_ascii a) && (nat_of_ascii a <=? nat_of_ascii (snd r)).

Definition is_word (a : ascii) : bool :=
  existsb (in_range a) [("a"%char, "z"%char); ("A"%char, "Z"%char); ("0"%char, "9"%char)]
  || Ascii.eqb a "_"%char.

Definition in_class (c : charset) (a : ascii) : bool :=
  match c with
  | Dot => negb (Ascii.eqb a PyStr.newline)
  | Space => PyStr.is_space a
  | NonSpace => negb (PyStr.is_space a)
  | Word => is_word a
  | OneOf cs => mem_ascii a cs
  | NoneOf cs => negb (mem_ascii a cs)
  | Ranges rs cs => existsb (in_range a) rs || mem_ascii a cs
  end.

(** Where the matcher stands: [pos] characters read, [rest] to read, the
    character before [rest] and the groups captured so far. *)
Record cursor : Type := mkCursor {
  pos : nat;
  rest : string;
  prev : option ascii;
  groups : list (nat * string)
}.

Fixpoint lookup (n : nat) (gs : list (nat * string)) : option string :=
  match gs with
  | [] => None
  | (k, s) :: gs' => if k =? n then Some s else lookup n gs'
  end.

(** [^]: the start of the text or, under [re.MULTILINE], of a line. *)
Definition at_bol (multiline : bool) (c : cursor) : bool :=
  match prev c with
  | None => true
  | Some a => multiline && Ascii.eqb a PyStr.newline
  end.

Fixpoint eat (s : string) (c : cursor) : option cursor :=
  match s with
  | EmptyString => Some c
  | String a s' =>
      match rest c with
      | String b t =>
          if Ascii.eqb a b then eat s' (mkCursor (S (pos c)) t (Some b) (groups c))
          else None
      | EmptyString => None
      end
  end.

(** Greedy repetition of a class: the longest run first, then shorter ones. *)
Fixpoint many (cl : charset) (k : cursor -> option cursor)
    (p : nat) (r : string) (pv : option ascii) (gs : list (nat * string))
  : option cursor :=
  match r with
  | String a t =>
      if in_class cl a then
        match many cl k (S p) t (Some a) gs with
        | Some out => Some out
        | None => k (mkCursor p r pv gs)
        end
      else k (mkCursor p r pv gs)
  | EmptyString => k (mkCursor p r pv gs)
  end.

Fixpoint run (multiline : bool) (r : regex) (k : cursor -> option cursor) (c : cursor)
  : option cursor :=
  match r with
  | Lit s => match eat s c with Some c' => k c' | None => None end
  | One cl =>
      match rest c with
      | String a t =>
          if in_class cl a then k (mkCursor (S (pos c)) t (Some a) (groups c)) else None
      | EmptyString => None
      end
  | Star cl => many cl k (pos c) (rest c) (prev c) (groups c)
  | Plus cl =>
      match rest c with
      | String a t =>
          if in_class cl a then many cl k (S (pos c)) t (Some a) (groups c) else None
      | EmptyString => None
      end
  | Bol => if at_bol multiline c then k c else None
  | Seq r1 r2 => run multiline r1 (run multiline r2 k) c
  | Alt r1 r2 =>
      match run multiline r1 k c with
      | Some out => Some out
      | None => run multiline r2 k c
      end
  | Opt r1 =>
      match run multiline r1 k c with
      | Some out => Some out
      | None => k c
      end
  | Group n r1 =>
      run multiline r1
          (fun c' => k (mkCursor (pos c') (rest c') (prev c')
                                 ((n, substring 0 (pos c' - pos c) (rest c)) :: groups c')))
          c
  end.

(** A match object. *)
Record Match : Type := mkMatch {
  start : nat;
  stop : nat;
  captured : list (nat * string)
}.

(** [m.group(n)]: [None] for a group that took no part in the match. *)
Definition group (m : Match) (n : nat) : option string := lookup n (captured m).

(** One attempt, at the cursor. *)
Definition attempt (multiline : bool) (r : regex) (c : cursor) : option Match :=
  match run multiline r Some c with
  | Some c' => Some (mkMatch (pos c) (pos c') (groups c'))
  | None => None
  end.

(** [re.match(pattern, text)] *)
Definition match_ (r : regex) (text : string) : option Match :=
  attempt false r (mkCursor 0 text None []).

(** [pattern.finditer(text)]: attempts from left to right; after a match
    the scan resumes where the match stopped. *)
Fixpoint scan (multiline : bool) (r : regex) (text : string) (p : nat)
    (pv : option ascii) (skip : nat) : list Match :=
  match skip with
  | S skip' =>
      match text with
      | String a t => scan multiline r t (S p) (Some a) skip'
      | EmptyString => []
      end
  | O =>
      match attempt multiline r (mkCursor p text pv []) with
      | Some m =>
          m :: match text with
               | String a t => scan multiline r t (S p) (Some a) (stop m - start m - 1)
               | EmptyString => []
               end
      | None =>
          match text with
          | String a t => scan multiline r t (S p) (Some a) 0
          | EmptyString => []
          end
      end
  end.

Definition finditer (multiline : bool) (r : regex) (text : string) : list Match :=
  scan multiline r text 0 None 0.

(** Sequences of several parts. *)
Fixpoint seq_of (rs : list regex) : regex :=
  match rs with
  | [] => Lit ""
  | [r] => r
  | r :: rs' => Seq r (seq_of rs')
  end.

End Re.

(* ------------------------------------------------------------------ *)
(** ** doc_agents/file_analyzer.py: [analyze_file_locally] *)

Module FileAnalyzer.
Import PyStr Re.
Module FA := FileAnalysisHandoff.

Definition squote : ascii := "'"%char.
Definition dquote : ascii := "034"%char.
Definition spaces1 : regex := Plus Space.
Definition spaces0 : regex := Star Space.
Definition upper : ascii * ascii := ("A"%char, "Z"%char).
Definition digit : ascii * ascii := ("0"%char, "9"%char).

(** *** The patterns, by the line of the source that holds them *)

(** Line 140: an [import] statement at the start of the line. *)
Definition py_import : regex :=
  seq_of [Bol; Lit "import"; spaces1; Group 1 (Plus NonSpace)].

(** Line 150: a [from ... import ...] statement. *)
Definition py_from : regex :=
  seq_of [Bol; Lit "from"; spaces1; Group 1 (Plus NonSpace); spaces1;
          Lit "import"; spaces1; Group 2 (Plus Dot)].

(** Line 162: a class header with an optional list of bases. *)
Definition class_pattern : regex :=
  seq_of [Bol; Lit "class"; spaces1; Group 1 (Plus Word); spaces0;
          Opt (seq_of [Lit "("; Group 2 (Star (NoneOf [")"%char])); Lit ")"]);
          spaces0; Lit ":"].

(** Line 179: a [def], possibly [async], with an optional return type. *)
Definition func_pattern : regex :=
  seq_of [Bol; Opt (Seq (Lit "async") spaces1); Lit "def"; spaces1;
          Group 1 (Plus Word); spaces0;
          Lit "("; Group 2 (Star (NoneOf [")"%char])); Lit ")"; spaces0;
          Opt (seq_of [Lit "->"; spaces0; Group 3 (Plus NonSpace)]);
          spaces0; Lit ":"].

(** Line 203: an upper-case name of two characters or more, assigned. *)
Definition const_pattern : regex :=
  seq_of [Bol;
          Group 1 (Seq (One (Ranges [upper] []))
                       (Plus (Ranges [upper; digit] ["_"%char])));
          spaces0; Lit "="].

(** Line 209: an ES import, of a braced list or of a default name. *)
Definition import_pattern : regex :=
  seq_of [Lit "import"; spaces1;
          Alt (seq_of [Lit "{"; Group 1 (Plus (NoneOf ["}"%char])); Lit "}"])
              (Group 2 (Plus Word));
          spaces1; Lit "from"; spaces1;
          One (OneOf [squote; dquote]);
          Group 3 (Plus (NoneOf [squote; dquote]));
          One (OneOf [squote; dquote])].

(** Line 225. *)
Definition js_class_pattern : regex :=
  seq_of [Lit "class"; spaces1; Group 1 (Plus Word); spaces0;
          Opt (seq_of [Lit "extends"; spaces1; Group 2 (Plus Word)]);
          spaces0; Lit "{"].

(** Lines 239 and 240. *)
Definition func_patterns : list regex :=
  [ seq_of [Opt (Seq (Lit "export") spaces1); Opt (Seq (Lit "async") spaces1);
            Lit "function"; spaces1; Group 1 (Plus Word); spaces0;
            Lit "("; Group 2 (Star (NoneOf [")"%char])); Lit ")"];
    seq_of [Opt (Seq (Lit "export") spaces1); Lit "const"; spaces1;
            Group 1 (Plus Word); spaces0; Lit "="; spaces0;
            Opt (Seq (Lit "async") spaces1);
            Lit "("; Star (NoneOf [")"%char]); Lit ")"; spaces0; Lit "=>"] ].

(** Line 255. *)
Definition export_pattern : regex :=
  seq_of [Lit "export"; spaces1; Opt (Seq (Lit "default") spaces1);
          Alt (Lit "const") (Alt (Lit "let") (Alt (Lit "var")
            (Alt (Lit "function") (Alt (Lit "class") (Lit "async function")))));
          spaces1; Group 1 (Plus Word)].

(** *** The five lists that the function fills *)

Record Lists : Type := mkLists {
  imports : list ImportInfo.t;
  classes : list ClassInfo.t;
  functions : list FunctionInfo.t;
  exports : list string;
  constants : list string
}.

Definition add_import (l : Lists) (i : ImportInfo.t) : Lists :=
  mkLists (imports l ++ [i]) (classes l) (functions l) (exports l) (constants l).
Definition add_class (l : Lists) (c : ClassInfo.t) : Lists :=
  mkLists (imports l) (classes l ++ [c]) (functions l) (exports l) (constants l).
Definition add_function (l : Lists) (f : FunctionInfo.t) : Lists :=
  mkLists (imports l) (classes l) (functions l ++ [f]) (exports l) (constants l).
Definition add_export (l : Lists) (e : string) : Lists :=
  mkLists (imports l) (classes l) (functions l) (exports l ++ [e]) (constants l).
Definition add_constant (l : Lists) (c : string) : Lists :=
  mkLists (imports l) (classes l) (functions l) (exports l) (constants l ++ [c]).

(** A group used where a [str] is needed: [None] there raises. *)
Definition required (g : option string) : Res string :=
  match g with
  | Some s => Ok s
  | None => Raise (TypeError "NoneType where str is expected")
  end.

(** [g or ''] *)
Definition or_empty (g : option string) : string :=
  match g with
  | Some s => s
  | None => ""
  end.

(** [xs[0]] *)
Definition first {A} (xs : list A) : Res A :=
  match xs with
  | x :: _ => Ok x
  | [] => Raise IndexError
  end.

Fixpoint map_res {A B} (f : A -> Res B) (l : list A) : Res (list B) :=
  match l with
  | [] => Ok []
  | x :: rest => y <- f x ;; ys <- map_res f rest ;; Ok (y :: ys)
  end.

(** [content[:start].count(newline) + 1] *)
Definition line_of (content : string) (start : nat) : nat :=
  count newline (substring 0 start content) + 1.

(** The stripped, non-empty items of a comma-separated list. *)
Definition items (s : string) : list string :=
  filter (fun b => truthy (strip b)) (split ","%char s).

(** *** Python, lines 137-205 *)

Definition py_import_step (l : Lists) (line : string) : Res Lists :=
  l <- match match_ py_import line with
       | Some m =>
           module <- required (group m 1) ;;
           Ok (add_import l (ImportInfo.mk module [] false (negb (contains "." module))))
       | None => Ok l
       end ;;
  match match_ py_from line with
  | Some m =>
      module <- required (group m 1) ;;
      listed <- required (group m 2) ;;
      let names := map strip (split ","%char listed) in
      Ok (add_import l (ImportInfo.mk module names (startswith module ".")
                                      (negb (startswith module "."))))
  | None => Ok l
  end.

Definition py_class_step (content : string) (l : Lists) (m : Match) : Res Lists :=
  class_name <- required (group m 1) ;;
  let bases := map strip (items (or_empty (group m 2))) in
  let line_num := line_of content (start m) in
  Ok (add_export
        (add_class l (ClassInfo.mk class_name line_num bases None
                                   ("Class " ++ class_name) [] []))
        class_name).

Definition py_function_step (content : string) (l : Lists) (m : Match) : Res Lists :=
  params <- map_res (fun p => head <- first (split ":"%char (strip p)) ;; Ok (strip head))
                    (items (or_empty (group m 2))) ;;
  let return_type := group m 3 in
  let line_num := line_of content (start m) in
  let line_start := (rfind newline (substring 0 (start m) content) + 1)%Z in
  let indent := (Z.of_nat (start m) - line_start)%Z in
  if (indent =? 0)%Z then
    func_name <- required (group m 1) ;;
    let l := add_function l (FunctionInfo.mk func_name line_num params return_type None
                                             ("Function " ++ func_name) "low" []) in
    if negb (startswith func_name "_") then Ok (add_export l func_name) else Ok l
  else Ok l.

Definition py_constant_step (l : Lists) (m : Match) : Res Lists :=
  c <- required (group m 1) ;;
  Ok (add_constant l c).

Definition analyze_python (content : string) (lines : list string) (l : Lists) : Res Lists :=
  l <- for_each lines py_import_step l ;;
  l <- for_each (finditer true class_pattern content) (py_class_step content) l ;;
  l <- for_each (finditer true func_pattern content) (py_function_step content) l ;;
  for_each (finditer true const_pattern content) py_constant_step l.

(** *** JavaScript and TypeScript, lines 208-257 *)

Definition js_import_step (l : Lists) (m : Match) : Res Lists :=
  let names :=
    match group m 1 with
    | Some g1 =>
        if truthy g1 then map strip (split ","%char g1)
        else match group m 2 with
             | Some g2 => if truthy g2 then [g2] else []
             | None => []
             end
    | None =>
        match group m 2 with
        | Some g2 => if truthy g2 then [g2] else []
        | None => []
        end
    end in
  module <- required (group m 3) ;;
  Ok (add_import l (ImportInfo.mk module names (startswith module ".")
                                  (negb (startswith module ".")))).

Definition js_class_step (content : string) (l : Lists) (m : Match) : Res Lists :=
  let line_num := line_of content (start m) in
  class_name <- required (group m 1) ;;
  let bases := match group m 2 with
               | Some g2 => if truthy g2 then [g2] else []
               | None => []
               end in
  Ok (add_class l (ClassInfo.mk class_name line_num bases None
                                ("Class " ++ class_name) [] [])).

Definition js_function_step (content : string) (l : Lists) (m : Match) : Res Lists :=
  func_name <- required (group m 1) ;;
  let line_num := line_of content (start m) in
  Ok (add_function l (FunctionInfo.mk func_name line_num [] None None
                                      ("Function " ++ func_name) "low" [])).

Definition js_export_step (l : Lists) (m : Match) : Res Lists :=
  e <- required (group m 1) ;;
  Ok (add_export l e).

Definition analyze_js (content : string) (l : Lists) : Res Lists :=
  l <- for_each (finditer false import_pattern content) js_import_step l ;;
  l <- for_each (finditer false js_class_pattern content) (js_class_step content) l ;;
  l <- for_each func_patterns
         (fun l pattern =>
            for_each (finditer false pattern content) (js_function_step content) l) l ;;
  for_each (finditer false export_pattern content) js_export_step l.

(** *** Lines 259-306 *)

Definition bump (cond : bool) (score : Z) : Z :=
  if cond then (score + 1)%Z else score.

(** Lines 260-271. *)
Definition complexity (l : Lists) (lines : list string) : Z :=
  let score := 5%Z in
  let score := bump (5 <? List.length (classes l)) score in
  let score := bump (10 <? List.length (functions l)) score in
  let score := bump (15 <? List.length (imports l)) score in
  let score := bump (500 <? List.length lines) score in
  let score := if List.length lines <? 50 then (score - 1)%Z else score in
  Z.max 1 (Z.min 10 score).

(** Lines 274-291. *)
Definition infer_purpose (file_path : string) (l : Lists) : string :=
  let file_name := lower (OsPath.basename file_path) in
  if contains "test" file_name then "Test file"
  else if contains "config" file_name || contains "settings" file_name then "Configuration"
  else if contains "model" file_name then "Data models"
  else if contains "util" file_name || contains "helper" file_name then "Utility functions"
  else if contains "main" file_name || contains "app" file_name
          || contains "index" file_name then "Application entry point"
  else if contains "api" file_name || contains "route" file_name then "API endpoints"
  else match classes l, functions l with
       | _ :: _, _ => "Defines " ++ of_nat (List.length (classes l)) ++ " class(es)"
       | [], _ :: _ => "Defines " ++ of_nat (List.length (functions l)) ++ " function(s)"
       | [], [] => "Unknown"
       end.

(** Lines 136-257: the branch on the language. *)
Definition extract (content : string) (lines : list string) (language : option string)
    (l : Lists) : Res Lists :=
  match language with
  | Some lang =>
      if String.eqb lang "python" then analyze_python content lines l
      else if String.eqb lang "javascript" || String.eqb lang "typescript"
      then analyze_js content l
      else Ok l
  | None => Ok l
  end.

Definition analyze_file_locally (file_path content : string) (language : option string)
  : Res FA.t :=
  let l := mkLists [] [] [] [] [] in
  let lines := split newline content in
  l <- extract content lines language l ;;
  let complexity_score := complexity l lines in
  let purpose := infer_purpose file_path l in
  FA.create file_path
    (match language with
     | Some lang => if truthy lang then lang else "unknown"
     | None => "unknown"
     end)
    purpose (imports l) (exports l) (classes l) (functions l) (constants l) []
    (map ImportInfo.module (filter ImportInfo.is_external (imports l)))
    complexity_score
    ("File with " ++ of_nat (List.length (classes l)) ++ " classes and "
     ++ of_nat (List.length (functions l)) ++ " functions").

End FileAnalyzer.

(** *** The rules of the specification for the analyzer *)

Module AnalyzerRules.

(** Baseline 5; +1 for more than 5 classes, more than 10 functions, more
    than 15 imports, more than 500 lines; -1 for fewer than 50 lines;
    clamped into 1..10. *)
Definition score_rule (n_classes n_functions n_imports n_lines : nat) : Z :=
  (let raw := 5
              + (if (5 <? n_classes)%nat then 1 else 0)
              + (if (10 <? n_functions)%nat then 1 else 0)
              + (if (15 <? n_imports)%nat then 1 else 0)
              + (if (500 <? n_lines)%nat then 1 else 0)
              - (if (n_lines <? 50)%nat then 1 else 0) in
   Z.max 1 (Z.min 10 raw))%Z.

(** [len(content.split(newline))] *)
Definition line_count (content : string) : nat :=
  List.length (PyStr.split PyStr.newline content).

(** A name that does not start with an underscore. *)
Definition public (name : string) : bool := negb (PyStr.startswith name "_").

End AnalyzerRules.

(* ------------------------------------------------------------------ *)
(** ** More string and path operations *)

Module PyText.
Import PyStr.

(** [s.replace(old, new)] for any [old]: occurrences are taken from the left
    and do not overlap; an empty [old] matches before every character and at
    the end. *)
Fixpoint replace_from (old new : string) (s : string) (skip : nat) : string :=
  match s with
  | EmptyString => EmptyString
  | String c t =>
      match skip with
      | S k => replace_from old new t k
      | O =>
          if String.prefix old s
          then (new ++ replace_from old new t (String.length old - 1))%string
          else String c (replace_from old new t 0)
      end
  end.

Fixpoint intersperse (new : string) (s : string) : string :=
  match s with
  | EmptyString => new
  | String c t => (new ++ String c (intersperse new t))%string
  end.

Definition replace_str (old new s : string) : string :=
  match old with
  | EmptyString => intersperse new s
  | _ => replace_from old new s 0
  end.

Definition is_lower (c : ascii) : bool :=
  let n := nat_of_ascii c in (97 <=? n) && (n <=? 122).
Definition is_upper (c : ascii) : bool :=
  let n := nat_of_ascii c in (65 <=? n) && (n <=? 90).
Definition is_alpha (c : ascii) : bool := is_lower c || is_upper c.

Definition upper_char (c : ascii) : ascii :=
  if is_lower c then ascii_of_nat (nat_of_ascii c - 32) else c.

(** [s.title()]: a letter after a letter is lowered, any other letter is
    raised. *)
Fixpoint title_from (after_letter : bool) (s : string) : string :=
  match s with
  | EmptyString => EmptyString
  | String c t =>
      if is_alpha c
      then String (if after_letter then lower_char c else upper_char c) (title_from true t)
      else String c (title_from false t)
  end.
Definition title (s : string) : string := title_from false s.

(** [s.lstrip(chars)] *)
Fixpoint lstrip_chars (chars : list ascii) (s : string) : string :=
  match s with
  | EmptyString => EmptyString
  | String a t => if existsb (Ascii.eqb a) chars then lstrip_chars chars t else s
  end.

(** [s[:n]] for [n >= 0]. *)
Definition take (n : nat) (s : string) : string := substring 0 n s.

(** [bool(s)] for a list. *)
Definition nonempty {A} (l : list A) : bool :=
  match l with [] => false | _ :: _ => true end.

(** Iterating over a text file: the lines, each with its newline. *)
Fixpoint lines_keepends (s : string) : list string :=
  match s with
  | EmptyString => []
  | String c t =>
      if Ascii.eqb c newline then String c EmptyString :: lines_keepends t
      else match lines_keepends t with
           | [] => [String c EmptyString]
           | l :: ls => String c l :: ls
           end
  end.

(** [''.join(parts)] *)
Definition join_all (parts : list string) : string := String.concat "" parts.

(** [posixpath.join(a, b)] *)
Definition path_join (a b : string) : string :=
  if startswith b "/" then b
  else if negb (truthy a) || endswith a "/" then (a ++ b)%string
  else (a ++ "/" ++ b)%string.

End PyText.

(* ------------------------------------------------------------------ *)
(** ** doc_agents/subagent_coordinator.py: directory explorations *)

Module Explorations.
Import PyStr PyText Coordinator.

(** The task name of a directory (lines 215 and 274). *)
Definition explore_name (dir_path : string) : string :=
  ("explore_" ++ replace "."%char "root" (replace "/"%char "_" dir_path))%string.

(** Line 249. *)
Definition full_path_of (repository_path dir_path : string) : string :=
  if negb (String.eqb dir_path ".") then path_join repository_path dir_path
  else repository_path.

(** Lines 251-271. *)
Definition explore_prompt (dir_path full_path : string) : string :=
  ("Explore and analyze the directory: " ++ dir_path ++ "

FULL PATH: " ++ full_path ++ "

Use the available tools to:
1. List all files in this directory
2. Read the most important files (entry points, configs, main modules)
3. Understand what this directory/module is responsible for
4. Identify key classes, functions, and patterns
5. Note dependencies on other parts of the codebase

Provide a comprehensive analysis of:
- PURPOSE: What is this directory/module responsible for?
- KEY FILES: Which files are most important and why?
- KEY COMPONENTS: Classes, functions with their roles
- PATTERNS: Design patterns, conventions used
- DEPENDENCIES: What it imports/uses from elsewhere
- EXPORTS: What it provides to other modules
- INSIGHTS: Notable observations, potential issues

Be thorough and specific. Reference actual file names and code elements you discover.")%string.

(** Lines 273-281. *)
Definition explore_task (repository_path model api_key dir_path : string) : SubagentTask :=
  let full_path := full_path_of repository_path dir_path in
  mkTask (explore_name dir_path) (explore_prompt dir_path full_path) model api_key 4096.

(** Lines 247-281: the loop that builds the tasks. *)
Definition explore_tasks (directories : list string)
    (repository_path model api_key : string) : list SubagentTask :=
  fold_left (fun tasks dir_path =>
               tasks ++ [explore_task repository_path model api_key dir_path])
            directories [].

(** [explore_directories]: the batch runs without a progress callback. *)
Definition explore_directories (provider : nat -> SubagentTask -> Outcome)
    (c : SubagentCoordinator) (directories : list string)
    (repository_path model api_key : string) (schedule : list nat)
  : option (Res (list SubagentResult)) :=
  let tasks := explore_tasks directories repository_path model api_key in
  run_parallel provider None tasks c schedule.

(** [result.task_name.replace("explore_", "").replace("_", "/")]
    (lines 77, 314 and 326). *)
Definition area_of (task_name : string) : string :=
  replace "_"%char "/" (replace_str "explore_" "" task_name).

(** Lines 77-79: the target that [run_task] logs. *)
Definition target_of (task_name : string) : string :=
  let target := area_of task_name in
  if String.eqb target "root" then "." else target.

(** *** reconcile_explorations *)

Record Insight : Type := mkInsight {
  area : string;
  analysis : string
}.

Record Failure : Type := mkFailure {
  failed_area : string;
  failed_error : option string
}.

(** The dictionary [reconciled]; [patterns] is a [set] until line 331.  The
    order in which a set is listed is not fixed by the language: the model
    lists it in insertion order and the theorems speak of membership only. *)
Record Reconciled : Type := mkReconciled {
  modules : list string;
  key_files : list string;
  patterns : list string;
  dependencies : Dict.t string;
  insights : list Insight;
  failed_explorations : list Failure
}.

(** [s.add(x)] *)
Definition set_add (s : list string) (x : string) : list string :=
  if existsb (String.eqb x) s then s else s ++ [x].

Definition pattern_keywords : list string :=
  ["pattern"; "factory"; "singleton"; "observer"; "mvc"; "repository"; "service"].

Section Reconcile.
(** [str(o)] and [bool(o)] of an output that is neither [None] nor a [str]. *)
Variable str_of : nat -> string.
Variable bool_of : nat -> bool.

Definition str_val (v : PyVal) : string :=
  match v with
  | PyNone => "None"
  | PyText s => s
  | PyObject id => str_of id
  end.

Definition truthy_val (v : PyVal) : bool :=
  match v with
  | PyNone => false
  | PyText s => truthy s
  | PyObject id => bool_of id
  end.

(** Lines 320-322. *)
Definition add_patterns (output : string) (found : list string) : list string :=
  fold_left (fun found keyword =>
               if contains (lower keyword) (lower output)
               then set_add found (title keyword) else found)
            pattern_keywords found.

(** Lines 309-328: the body of the loop. *)
Definition reconcile_step (reconciled : Reconciled) (result : SubagentResult) : Reconciled :=
  if success result && truthy_val (output result) then
    let output := str_val (output result) in
    mkReconciled (modules reconciled) (key_files reconciled)
                 (add_patterns output (patterns reconciled))
                 (dependencies reconciled)
                 (insights reconciled ++ [mkInsight (area_of (task_name result)) output])
                 (failed_explorations reconciled)
  else
    mkReconciled (modules reconciled) (key_files reconciled) (patterns reconciled)
                 (dependencies reconciled) (insights reconciled)
                 (failed_explorations reconciled
                    ++ [mkFailure (area_of (task_name result)) (error result)]).

Definition reconcile_explorations (results : list SubagentResult) : Reconciled :=
  fold_left reconcile_step results (mkReconciled [] [] [] [] [] []).

End Reconcile.

End Explorations.

(* ------------------------------------------------------------------ *)
(** ** tools/file_tools.py: [read_file]

    The file system is a function from paths to what [os.path.exists],
    [os.path.isfile], [os.path.getsize] and [open] find there. *)

Module FileTools.
Import PyStr PyText.

Definition MAX_FILE_SIZE_KB : N := 500.

Inductive Node : Type :=
| Missing                               (* [os.path.exists] is false *)
| NotAFile                              (* a directory, a socket, ... *)
| File (size : N) (text : Res string).
    (* the size in bytes; the text that reading gives, decoded and with
       its line ends translated, or the exception of [open] or [read] *)

(** [str(n)] for a non-negative integer. *)
Definition of_N (n : N) : string := of_nat (N.to_nat n).

(** [f"{size / 1024:.1f}"]: the quotient is exact in floating point, and a
    tie between two tenths goes to the even one. *)
Definition format_kb (size : N) : string :=
  (let tenths := (size * 10) / 1024 in
   let rest := (size * 10) mod 1024 in
   let tenths := if (512 <? rest) || ((rest =? 512) && N.odd tenths)
                 then tenths + 1 else tenths in
   of_N (tenths / 10) ++ "." ++ of_N (tenths mod 10))%N%string.

(** Lines 99-104: [for i, line in enumerate(f)] with its [break]. *)
Fixpoint take_lines (i max_lines : Z) (f : list string) (lines : list string)
  : list string :=
  match f with
  | [] => lines
  | line :: rest =>
      if (max_lines <=? i)%Z then lines                    (* break *)
      else take_lines (i + 1) max_lines rest (lines ++ [line])
  end.

Definition read_file (fs : string -> Node) (path : string) (max_lines : option Z)
  : string :=
  match fs path with
  | Missing => "Error: File does not exist: " ++ path
  | NotAFile => "Error: Path is not a file: " ++ path
  | File size text =>
      if (MAX_FILE_SIZE_KB * 1024 <? size)%N
      then "Error: File too large (" ++ format_kb size ++ "KB > "
           ++ of_N MAX_FILE_SIZE_KB ++ "KB limit): " ++ path
      else
        match text with
        | Ok text =>
            match max_lines with
            | Some n =>
                if (n =? 0)%Z then text               (* [if max_lines:] *)
                else join_all (take_lines 0 n (lines_keepends text) [])
            | None => text
            end
        | Raise e => "Error reading file " ++ path ++ ": " ++ str_exc e
        end
  end.

End FileTools.

(** ** models/handoff.py: file classifications *)

Module FileType.
Inductive t : Type :=
| SOURCE_CODE | CONFIG | DOCUMENTATION | TEST | BUILD | DATA | OTHER.

Definition eqb (a b : t) : bool :=
  match a, b with
  | SOURCE_CODE, SOURCE_CODE | CONFIG, CONFIG | DOCUMENTATION, DOCUMENTATION
  | TEST, TEST | BUILD, BUILD | DATA, DATA | OTHER, OTHER => true
  | _, _ => false
  end.
End FileType.

Module FileClassification.
Record t : Type := mk {
  path : string;
  file_type : FileType.t;
  language : option string;
  importance : Z;
  description : string
}.

(** The pydantic constructor: [importance: int = Field(ge=1, le=10)]. *)
Definition create (path : string) (file_type : FileType.t) (language : option string)
    (importance : Z) (description : string) : Res t :=
  if ((1 <=? importance) && (importance <=? 10))%Z
  then Ok (mk path file_type language importance description)
  else Raise (ValidationError "importance").
End FileClassification.

(** ** doc_agents/file_analyzer.py: [analyze_files_batch] *)

Module BatchAnalyzer.
Import PyStr PyText FileTools FileAnalyzer.
Module FC := FileClassification.

(** Lines 381-385. *)
Definition is_analyzable (f : FC.t) : bool :=
  (FileType.eqb (FC.file_type f) FileType.SOURCE_CODE
   || FileType.eqb (FC.file_type f) FileType.CONFIG)
  && match FC.language f with Some _ => true | None => false end.

(** [file_cls.language or "unknown"] *)
Definition language_or_unknown (language : option string) : string :=
  match language with
  | Some lang => if truthy lang then lang else "unknown"
  | None => "unknown"
  end.

Section Batch.
Variable fs : string -> Node.
(** [progress_callback(done, total)]: [Some e] when it raises. *)
Variable progress_callback : option (nat -> nat -> option PyExc).

(** Lines 390-418: the body of the loop. *)
Definition batch_step (repository_path : string) (total : nat)
    (results : list FA.t) (item : nat * FC.t) : Res (list FA.t) :=
  let '(i, file_cls) := item in
  let file_path := path_join repository_path (FC.path file_cls) in
  let content := read_file fs file_path None in
  if startswith content "Error:" then
    r <- FA.create (FC.path file_cls) (language_or_unknown (FC.language file_cls))
           ("Could not read: " ++ content) [] [] [] [] [] [content] [] 1
           "File read error" ;;
    Ok (results ++ [r])                                           (* continue *)
  else
    analysis <- analyze_file_locally (FC.path file_cls) content (FC.language file_cls) ;;
    let results := results ++ [analysis] in
    match progress_callback with
    | Some callback =>
        if (i + 1) mod 10 =? 0 then
          match callback (i + 1) total with
          | Some e => Raise e
          | None => Ok results
          end
        else Ok results
    | None => Ok results
    end.

Definition analyze_files_batch (files : list FC.t) (repository_path : string)
  : Res (list FA.t) :=
  let analyzable := filter is_analyzable files in
  let total := List.length analyzable in
  for_each (Coordinator.enumerate_from 0 analyzable) (batch_step repository_path total) [].

End Batch.

End BatchAnalyzer.

(* ------------------------------------------------------------------ *)
(** ** config.py and doc_agents/discovery.py: [classify_files_locally] *)

Module Config.

Definition SUPPORTED_EXTENSIONS : list string :=
  [".py"; ".js"; ".ts"; ".jsx"; ".tsx"; ".java"; ".go"; ".rs";
   ".rb"; ".php"; ".cs"; ".cpp"; ".c"; ".h"; ".hpp"; ".swift";
   ".kt"; ".scala"; ".md"; ".json"; ".yaml"; ".yml"; ".toml";
   ".sql"; ".sh"; ".bash"; ".zsh"; ".dockerfile"; ".tf"].

Definition SKIP_DIRECTORIES : list string :=
  ["node_modules"; ".git"; "__pycache__"; ".venv"; "venv";
   "dist"; "build"; ".next"; ".nuxt"; "coverage"; ".pytest_cache";
   ".mypy_cache"; ".tox"; "eggs"; "*.egg-info"].

End Config.

Module Discovery.
Import PyStr PyText Config.
Module FC := FileClassification.

(** [x in s] for a set or a list of strings. *)
Definition member (x : string) (s : list string) : bool := existsb (String.eqb x) s.

(** Lines 153-154, 156, 158, 162, 164: the sets of the type tests. *)
Definition source_extensions : list string :=
  [".py"; ".js"; ".ts"; ".jsx"; ".tsx"; ".java"; ".go"; ".rs";
   ".rb"; ".php"; ".cs"; ".cpp"; ".c"; ".swift"; ".kt"; ".scala"].
Definition config_extensions : list string :=
  [".json"; ".yaml"; ".yml"; ".toml"; ".ini"; ".cfg"; ".env"; ".conf"].
Definition doc_extensions : list string := [".md"; ".rst"; ".txt"].
Definition doc_names : list string := ["readme"; "changelog"; "license"; "contributing"].
Definition data_extensions : list string := [".sql"; ".csv"; ".parquet"; ".sqlite"; ".db"].
Definition build_names : list string :=
  ["makefile"; "dockerfile"; "jenkinsfile"; "cmakelists.txt"].
Definition build_extensions : list string := [".mk"; ".cmake"].

(** Lines 170-177. *)
Definition lang_map : Dict.t string :=
  [(".py", "python"); (".js", "javascript"); (".ts", "typescript");
   (".jsx", "javascript"); (".tsx", "typescript"); (".java", "java");
   (".go", "go"); (".rs", "rust"); (".rb", "ruby"); (".php", "php");
   (".cs", "csharp"); (".cpp", "cpp"); (".c", "c"); (".swift", "swift");
   (".kt", "kotlin"); (".scala", "scala"); (".sh", "shell");
   (".bash", "shell"); (".zsh", "shell")].

(** Lines 152-167. *)
Definition file_type_of (ext name : string) : FileType.t :=
  if member ext source_extensions then FileType.SOURCE_CODE
  else if member ext config_extensions then FileType.CONFIG
  else if member ext doc_extensions || member name doc_names then FileType.DOCUMENTATION
  else if contains "test" name || contains "spec" name
          || contains "_test." name || contains ".test." name then FileType.TEST
  else if member ext data_extensions then FileType.DATA
  else if member name build_names || member ext build_extensions then FileType.BUILD
  else FileType.OTHER.

(** Lines 181-195. *)
Definition importance_of (ext name : string) (file_type : FileType.t) : Z :=
  let importance := 5%Z in
  let base_name := fst (OsPath.splitext name) in
  if member base_name ["main"; "index"; "app"; "server"; "__init__"; "__main__"] then 9%Z
  else if member base_name ["setup"; "config"; "settings"; "constants"] then 8%Z
  else if contains "test" name || contains "spec" name then 4%Z
  else if FileType.eqb file_type FileType.DOCUMENTATION then 6%Z
  else if FileType.eqb file_type FileType.CONFIG then 7%Z
  else if negb (member ext SUPPORTED_EXTENSIONS) then 3%Z
  else importance.

(** Lines 148-203: the classification of the file [file], found at
    [rel_path] below the repository. *)
Definition classify_file (rel_path file : string) : Res FC.t :=
  let ext := lower (snd (OsPath.splitext file)) in
  let name := lower file in
  let file_type := file_type_of ext name in
  let language := Dict.get ext lang_map in
  let importance := importance_of ext name file_type in
  FC.create rel_path file_type language importance "".

(** *** The walk *)

(** A directory listing: files, and directories with their own listing.
    A directory that [os.walk] does not enter (a link) has an empty one. *)
#[local] Unset Elimination Schemes.
Inductive Entry : Type :=
| FileEntry (name : string)
| DirEntry (name : string) (entries : list Entry).
#[local] Set Elimination Schemes.

(** Line 142: the directories that the walk enters. *)
Definition entered (d : string) : bool :=
  negb (member d SKIP_DIRECTORIES) && negb (startswith d ".").

(** [os.path.relpath(os.path.join(root, file), path)], [rel_root] being
    [root] relative to [path] and empty at the top. *)
Definition rel_join (rel_root file : string) : string :=
  if truthy rel_root then (rel_root ++ "/" ++ file)%string else file.

(** The files of one listing, with their relative paths. *)
Definition files_of (rel_root : string) (entries : list Entry) : list (string * string) :=
  flat_map (fun e => match e with
                     | FileEntry name => [(rel_join rel_root name, name)]
                     | DirEntry _ _ => []
                     end) entries.

(** [os.walk], top down: the files of a directory in the order of its
    listing, then what is below the directories it enters, one directory
    after the other. *)
Fixpoint walk_below (rel_root : string) (e : Entry) : list (string * string) :=
  match e with
  | FileEntry _ => []
  | DirEntry d sub =>
      if entered d
      then files_of (rel_join rel_root d) sub
           ++ flat_map (walk_below (rel_join rel_root d)) sub
      else []
  end.

Definition walk (rel_root : string) (entries : list Entry) : list (string * string) :=
  files_of rel_root entries ++ flat_map (walk_below rel_root) entries.

(** Lines 144-203: the loop over the files of the walk. *)
Definition classify_step (classifications : list FC.t) (item : string * string)
  : Res (list FC.t) :=
  let '(rel_path, file) := item in
  if startswith file "." then Ok classifications               (* continue *)
  else
    c <- classify_file rel_path file ;;
    Ok (classifications ++ [c]).

Definition classify_files_locally (listing : list Entry) : Res (list FC.t) :=
  for_each (walk "" listing) classify_step [].

End Discovery.

(* ------------------------------------------------------------------ *)
(** ** doc_agents/event_logger.py: [extract_key_findings] *)

Module EventLogger.
Import PyStr PyText.

Definition keywords : list string :=
  ["purpose:"; "key file"; "main"; "entry"; "pattern"; "component"; "class:"; "function:"].

(** The characters of [line.lstrip(...)] that one byte can hold: hyphen,
    space, star and hash (the bullet sign is outside such text). *)
Definition bullets : list ascii := ["-"%char; " "%char; "*"%char; "#"%char].

(** [len(findings) >= max_findings] *)
Definition full (max_findings : Z) (findings : list string) : bool :=
  (max_findings <=? Z.of_nat (List.length findings))%Z.

(** Lines 148-161: the first loop, with its [continue] and its [break]. *)
Fixpoint keyword_lines (max_findings : Z) (lines : list string) (findings : list string)
  : list string :=
  match lines with
  | [] => findings
  | line :: rest =>
      let line := strip line in
      if negb (truthy line) || (String.length line <? 10)
      then keyword_lines max_findings rest findings                (* continue *)
      else
        let lower := lower line in
        let findings :=
          if existsb (fun kw => contains kw lower) keywords then
            let clean := strip (lstrip_chars bullets line) in
            if truthy clean && (15 <? String.length clean)
            then findings ++ [clean] else findings
          else findings in
        if full max_findings findings then findings               (* break *)
        else keyword_lines max_findings rest findings
  end.

(** Lines 164-170: the second loop. *)
Fixpoint substantive_lines (max_findings : Z) (lines : list string)
    (findings : list string) : list string :=
  match lines with
  | [] => findings
  | line :: rest =>
      let line := strip (lstrip_chars bullets (strip line)) in
      if truthy line && (20 <? String.length line)
         && negb (startswith line "#" || startswith line "//" || startswith line "/*")
      then
        let findings := findings ++ [line] in
        if full max_findings findings then findings               (* break *)
        else substantive_lines max_findings rest findings
      else substantive_lines max_findings rest findings
  end.

Definition extract_key_findings (output : string) (max_findings : Z) : list string :=
  if negb (truthy output) then []
  else
    let lines := split newline output in
    let findings := keyword_lines max_findings lines [] in
    if negb (nonempty findings) then substantive_lines max_findings lines findings
    else findings.

End EventLogger.

(* ------------------------------------------------------------------ *)
(** ** doc_agents/file_analyzer.py: [run_file_analysis]

    The provider answers per batch; the three regular-expression searches
    of [parse_llm_analysis] and the writing of the combined handoff file
    are parameters. *)

Module RunFileAnalysis.
Import PyStr PyText FileTools FileAnalyzer BatchAnalyzer Coordinator Explorations.

(** [range(0, stop, step)] for a positive step. *)
Definition range_step (stop step : nat) : list nat :=
  map (fun k => k * step) (seq 0 ((stop + step - 1) / step)).

(** A loop whose body may never return. *)
Fixpoint for_each_or {A S} (xs : list A) (body : S -> A -> option (Res S)) (st : S)
  : option (Res S) :=
  match xs with
  | [] => Some (Ok st)
  | x :: rest =>
      match body st x with
      | Some (Ok st') => for_each_or rest body st'
      | Some (Raise e) => Some (Raise e)
      | None => None
      end
  end.

(** [str(x)] for an optional string. *)
Definition str_opt (x : option string) : string :=
  match x with
  | Some s => s
  | None => "None"
  end.

(** [d.get(k, "")] *)
Definition get_or_empty (k : string) (d : Dict.t string) : string :=
  match Dict.get k d with
  | Some v => v
  | None => ""
  end.

(** [fallback.key_insights.append(insight)] *)
Definition add_insight (a : FA.t) (insight : string) : FA.t :=
  FA.mk (FA.path a) (FA.language a) (FA.purpose a) (FA.imports a) (FA.exports a)
        (FA.classes a) (FA.functions a) (FA.constants a)
        (FA.key_insights a ++ [insight]) (FA.dependencies a)
        (FA.complexity_score a) (FA.raw_summary a).

(** Lines 467-505. *)
Definition analysis_prompt (file_cls : FC.t) (content : string) : string :=
  ("Analyze this " ++ str_opt (FC.language file_cls) ++ " file in detail:

FILE: " ++ FC.path file_cls ++ "
LANGUAGE: " ++ str_opt (FC.language file_cls) ++ "

```" ++ str_opt (FC.language file_cls) ++ "
" ++ content ++ "
```

Provide a comprehensive analysis:

1. PURPOSE: What is this file's primary responsibility? (1-2 sentences)

2. IMPORTS: List all imports with classification:
   - External libraries (from npm/pip/etc)
   - Internal modules (from this codebase)
   - Standard library

3. CLASSES: For each class:
   - Name and base classes
   - Purpose/responsibility
   - Key methods with their roles
   - Important attributes

4. FUNCTIONS: For each standalone function:
   - Name and parameters
   - What it does
   - What it returns
   - Side effects if any

5. EXPORTS: What does this file provide to other files?

6. COMPLEXITY: Rate 1-10 with justification

7. KEY INSIGHTS:
   - Design patterns used
   - Notable implementation choices
   - Potential issues or technical debt
   - How it connects to other parts of the system

Be specific and thorough. This analysis will be used to generate documentation.")%string.

(** Lines 465-466. *)
Definition truncated (content : string) : string :=
  if (12000 <? N.of_nat (String.length content))%N
  then (take (N.to_nat 12000) content ++ "

... [truncated - file continues]")%string
  else content.

Section Run.
Variable fs : string -> Node.
(** [AGENT_CONFIGS["file_analyzer"].model] and [API_KEYS["google"]]. *)
Variable model : string.
Variable api_key : string.
(** The outcome of the provider for the [j]-th task of the batch that
    starts at task [i], and the schedule of that batch. *)
Variable provider : nat -> nat -> SubagentTask -> Outcome.
Variable schedule : nat -> list nat.
(** [str(o)] and [bool(o)] of an output that is neither [None] nor a [str]. *)
Variable str_of : nat -> string.
Variable bool_of : nat -> bool.
(** The searches of [parse_llm_analysis] in the answer: the cleaned text
    after PURPOSE, the number after COMPLEXITY, the bullet points after
    KEY INSIGHTS. *)
Variable purpose_in : string -> option string.
Variable complexity_in : string -> option Z.
Variable insights_in : string -> list string.
(** Lines 552-556: the combined handoff file is written. *)
Variable save : list FA.t -> Res unit.

(** Lines 578-634. *)
Definition parse_llm_analysis (llm_output path : string) (language : option string)
    (content : string) : Res FA.t :=
  local <- analyze_file_locally path content language ;;
  let purpose := match purpose_in llm_output with
                 | Some purpose => purpose
                 | None => FA.purpose local
                 end in
  let complexity := match complexity_in llm_output with
                    | Some complexity => Z.max 1 (Z.min 10 complexity)
                    | None => FA.complexity_score local
                    end in
  let insights := insights_in llm_output in
  language <- match language with
              | Some language => Ok language
              | None => Raise (ValidationError "language")
              end ;;
  FA.create path language purpose (FA.imports local) (FA.exports local)
    (FA.classes local) (FA.functions local) (FA.constants local)
    (if nonempty insights then insights else [take 500 llm_output])
    (FA.dependencies local) complexity (take 2000 llm_output).

(** Lines 455-513: the body of the loop that builds the tasks. *)
Definition task_step (repository_path : string)
    (st : list SubagentTask * Dict.t string) (file_cls : FC.t)
  : list SubagentTask * Dict.t string :=
  let '(tasks, file_contents) := st in
  let file_path := path_join repository_path (FC.path file_cls) in
  let content := read_file fs file_path None in
  if startswith content "Error:" then (tasks, file_contents)          (* continue *)
  else
    let file_contents := Dict.set (FC.path file_cls) content file_contents in
    let content := truncated content in
    let prompt := analysis_prompt file_cls content in
    (tasks ++ [mkTask ("analyze_" ++ replace "/"%char "_" (FC.path file_cls))
                      prompt model api_key 4096],
     file_contents).

(** Lines 531-549: what is recorded for [file_cls] from [result]. *)
Definition record_step (file_contents : Dict.t string) (results : list FA.t)
    (file_cls : FC.t) (result : SubagentResult) : Res (list FA.t) :=
  if success result && truthy_val bool_of (output result) then
    analysis <- parse_llm_analysis (str_val str_of (output result)) (FC.path file_cls)
                  (FC.language file_cls) (get_or_empty (FC.path file_cls) file_contents) ;;
    Ok (results ++ [analysis])
  else
    let content := get_or_empty (FC.path file_cls) file_contents in
    if truthy content then
      fallback <- analyze_file_locally (FC.path file_cls) content (FC.language file_cls) ;;
      Ok (results ++ [add_insight fallback
                        ("LLM analysis failed: " ++ str_opt (error result))])
    else Ok results.

(** Lines 526-549: the loop over the results of the batch that starts at
    task [i], with its [break]. *)
Fixpoint collect_results (analyzable_files : list FC.t) (file_contents : Dict.t string)
    (i : nat) (batch_results : list (nat * SubagentResult)) (results : list FA.t)
  : Res (list FA.t) :=
  match batch_results with
  | [] => Ok results
  | (j, result) :: rest =>
      let file_idx := i + j in
      if List.length analyzable_files <=? file_idx then Ok results     (* break *)
      else
        file_cls <- index analyzable_files file_idx ;;
        results <- record_step file_contents results file_cls result ;;
        collect_results analyzable_files file_contents i rest results
  end.

(** Lines 515-549: one batch of 15 tasks. *)
Definition batch_body (coordinator : SubagentCoordinator)
    (analyzable_files : list FC.t) (tasks : list SubagentTask)
    (file_contents : Dict.t string) (results : list FA.t) (i : nat)
  : option (Res (list FA.t)) :=
  let batch_size := 15 in
  let batch := firstn batch_size (skipn i tasks) in
  match run_parallel (provider i) None batch coordinator (schedule i) with
  | Some (Ok batch_results) =>
      Some (collect_results analyzable_files file_contents i
              (enumerate_from 0 batch_results) results)
  | Some (Raise e) => Some (Raise e)
  | None => None
  end.

(** [None] when the call never returns. *)
Definition run_file_analysis (files : list FC.t) (repository_path : string)
  : option (Res (list FA.t)) :=
  match init 10 with
  | Raise e => Some (Raise e)
  | Ok coordinator =>
      let analyzable_files := filter is_analyzable files in
      let '(tasks, file_contents) :=
        fold_left (task_step repository_path) analyzable_files ([], []) in
      let batch_size := 15 in
      match for_each_or (range_step (List.length tasks) batch_size)
              (batch_body coordinator analyzable_files tasks file_contents) [] with
      | Some (Ok results) =>
          Some (_ <- save results ;; Ok results)
      | Some (Raise e) => Some (Raise e)
      | None => None
      end
  end.

End Run.

End RunFileAnalysis.

(* ------------------------------------------------------------------ *)
(** ** Concrete inputs used by the examples below *)

Module Samples.
Module FA := FileAnalysisHandoff.

Definition record (path purpose : string) (imports : list ImportInfo.t)
    (exports : list string) (classes : list ClassInfo.t) : FA.t :=
  FA.mk path "python" purpose imports exports classes [] [] [] [] 4%Z "".

Definition class_ (name : string) (bases : list string) : ClassInfo.t :=
  ClassInfo.mk name 1 bases None ("Class " ++ name) [] [].

(** [a/b.py] holds [import a.b] (its own module), [import os] and
    [from .c import A]; [a/c.py] defines [A] twice. *)
Definition repo : list FA.t :=
  [ record "a/b.py" "Data models"
      [ImportInfo.mk "a.b" [] false false;
       ImportInfo.mk "os" [] false true;
       ImportInfo.mk ".c" ["A"] true false]
      ["B"; "_p"] [class_ "B" ["A"; "B"]];
    record "a/c.py" "Data models" [] ["A"] [class_ "A" []; class_ "A" []];
    record "x.py" "Unknown" [] [] [];
    record "y.py" "Utility functions" [] [] [];
    record "a/d.py" "Unknown" [ImportInfo.mk "zzz" [] false false] [] [] ].

Definition self_import : DependencyEdge.t :=
  DependencyEdge.mk "a/b.py" "a/b.py" "imports" "normal".

Definition inherits : DependencyEdge.t :=
  DependencyEdge.mk "a/b.py" "a/c.py" "extends" "strong".

Import Coordinator.

Definition task (n : string) : SubagentTask :=
  mkTask n ("Analyze " ++ n) "gemini/gemini-2.0-flash" "key" 4096%Z.

Definition batch : list SubagentTask :=
  [task "t0"; task "t1"; task "t2"; task "t3"; task "t4"].

(** Task 1 fails at the provider, task 3 comes back with no output. *)
Definition flaky (i : nat) (t : SubagentTask) : Outcome :=
  match i with
  | 1 => Raised (RuntimeError "rate limit")
  | 3 => Returned PyNone
  | _ => Returned (PyText (name t))
  end.

(** A callback that raises on the second completion. *)
Definition touchy (completed total : nat) : option PyExc :=
  if completed =? 2 then Some (RuntimeError "callback") else None.

Import Orchestrator.

Definition found : DiscoveryHandoff :=
  mkDiscovery "/srv/repo" 5 ["python"] [] ["a/b.py"] "A small package".

Definition analysed : ModuleAnalysisHandoff :=
  mkModuleAnalysis [] [inherits] [] [] ["a/b.py"] [] [].

Definition draft : FinalDocumentation :=
  mkFinal "repo" "Overview" (Section_ "Architecture" "..." []) []
          (Section_ "API Reference" "..." []) []
          (Section_ "Getting Started" "..." []) None.

Definition quick_start : CodeExample.t :=
  CodeExample.mk "Quick Start" "Basic usage" "import a.b" "python" [] [].



(** A class and a private function of the same name. *)
Definition shadowed : string :=
  "class _f:
    pass
def _f():
    pass
".

(** A module with a private class, a private and a public function. *)
Definition helpers : string :=
  "import os
from .base import Base

LIMIT = 10

class _Cache(Base):
    pass

def _reset():
    pass

def load(path, mode):
    pass
".
End Samples.

(** ** More concrete inputs *)

Module Samples2.
Import Coordinator Explorations.

Definition directories : list string := ["."; "src"; "src/io"].

(** The second exploration comes back with an empty text. *)
Definition explorer (i : nat) (t : SubagentTask) : Outcome :=
  match i with
  | 1 => Returned (PyText "")
  | _ => Returned (PyText ("Uses the Factory pattern in " ++ name t))
  end.

(** An object prints as its number of stars and is true when not 0. *)
Definition str_of (id : nat) : string := PyStr.of_nat id.
Definition bool_of (id : nat) : bool := negb (id =? 0).

Definition explored : list SubagentResult :=
  [ mkResult "explore_root" true (PyText "A service with a Factory") None;
    mkResult "explore_src" true (PyText "") None;
    mkResult "explore_src_io" false PyNone (Some "rate limit") ].

Import Orchestrator.

(** File analysis fails; the later phases would succeed. *)
Definition unreadable : Collaborators :=
  mkCollaborators "./output"
    (fun _ => Ok Samples.found)
    (fun _ => Raise (RuntimeError "[Errno 13] Permission denied"))
    (fun _ _ => Ok Samples.analysed)
    (fun _ _ _ => Ok Samples.draft)
    (fun _ => Ok tt)
    (fun _ _ _ => Ok [Samples.quick_start])
    (fun _ => Ok tt)
    (fun _ _ _ => Ok []).

(** Every phase succeeds. *)
Definition healthy : Collaborators :=
  mkCollaborators "./output"
    (fun _ => Ok Samples.found)
    (fun _ => Ok Samples.repo)
    (fun _ _ => Ok Samples.analysed)
    (fun _ _ _ => Ok Samples.draft)
    (fun _ => Ok tt)
    (fun _ _ _ => Ok [Samples.quick_start])
    (fun _ => Ok tt)
    (fun _ _ _ => Ok ["What is this?"]).

Import FileTools.

(** Three source files, the first of which is missing on disk. *)
Definition disk (p : string) : Node :=
  if String.eqb p "/srv/repo/a.py" then Missing
  else if String.eqb p "/srv/repo/b.py" then File 18 (Ok "def f():
    pass
")
  else if String.eqb p "/srv/repo/c.py" then File 19 (Ok "class C:
    pass
")
  else Missing.

Definition sources : list FileClassification.t :=
  [ FileClassification.mk "a.py" FileType.SOURCE_CODE (Some "python") 5 "";
    FileClassification.mk "b.py" FileType.SOURCE_CODE (Some "python") 5 "";
    FileClassification.mk "c.py" FileType.SOURCE_CODE (Some "python") 5 "" ].

(** The provider names the task it answers. *)
Definition echo (i j : nat) (t : SubagentTask) : Outcome :=
  Returned (PyText ("answer for " ++ name t)).

End Samples2.

(* ------------------------------------------------------------------ *)
(** ** Invariants, measures and syntactic checks used by the proofs *)

Module GroupInv.
Import ModuleAnalyzer.

Definition skipped (d : string) (files : list FA.t) : bool :=
  String.eqb d "." && (List.length files <? 3).

Definition kept (d : string) (item : string * list FA.t) : bool :=
  String.eqb (fst item) d && negb (skipped (fst item) (snd item)).

End GroupInv.

Module CoordinatorInv.
Import Coordinator.

Definition weight (p : Phase) : nat :=
  match p with
  | Pending => 3
  | Waiting => 2
  | Running => 1
  | Done _ => 0
  end.

Definition measure (s : State) : nat := list_sum (map weight (phases s)).

Definition running (p : Phase) : nat := if is_running p then 1 else 0.

(** Permits held plus permits free is the cap. *)
Definition sem_inv (cap : Z) (s : State) : Prop :=
  (Z.of_nat (in_flight s) + sem s = cap)%Z /\ (0 <= sem s)%Z.

(** A finished child holds the result of its own task. *)
Definition own (provider : nat -> SubagentTask -> Outcome)
    (progress_callback : option (nat -> nat -> option PyExc))
    (tasks : list SubagentTask) (i : nat) (r : Res SubagentResult) : Prop :=
  exists task n,
    nth_error tasks i = Some task
    /\ r = after_task progress_callback tasks n (run_task_body task (provider i task)).

Definition inv (provider : nat -> SubagentTask -> Outcome)
    (progress_callback : option (nat -> nat -> option PyExc))
    (tasks : list SubagentTask) (cap : Z) (s : State) : Prop :=
  List.length (phases s) = List.length tasks
  /\ sem_inv cap s
  /\ forall i r, nth_error (phases s) i = Some (Done r) -> own provider progress_callback tasks i r.

(** What the conversion loop makes of a gathered item. *)
Definition final_of (task : SubagentTask) (r : Res SubagentResult) : SubagentResult :=
  match r with
  | Ok x => x
  | Raise e => mkResult (name task) false PyNone (Some (str_exc e))
  end.

End CoordinatorInv.

Module ReInv.
Import Re.

(** Group [n] takes part in every match of [r]. *)
Fixpoint sets (n : nat) (r : regex) : bool :=
  match r with
  | Seq r1 r2 => sets n r1 || sets n r2
  | Alt r1 r2 => sets n r1 && sets n r2
  | Group m r1 => (m =? n) || sets n r1
  | _ => false
  end.

(** The pattern starts with [^]. *)
Definition anchored (r : regex) : bool :=
  match r with
  | Seq Bol _ => true
  | _ => false
  end.

Definition has (n : nat) (c : cursor) : Prop := lookup n (groups c) <> None.

Fixpoint last_char (s : string) : option ascii :=
  match s with
  | EmptyString => None
  | String a EmptyString => Some a
  | String _ t => last_char t
  end.

(** The cursor is at position [pos c] of [content]. *)
Definition coherent (content : string) (c : cursor) : Prop :=
  exists pre, content = (pre ++ rest c)%string
              /\ String.length pre = pos c /\ prev c = last_char pre.

End ReInv.

Module AnalyzerInv.
Import Re FileAnalyzer AnalyzerRules.

Definition nothing_yet (l : Lists) : Prop :=
  classes l = [] /\ functions l = [] /\ exports l = [].

Definition classes_exported (l : Lists) : Prop :=
  functions l = [] /\ exports l = map ClassInfo.name (classes l).

(** Exports are the class names, then the public function names; every
    function header seen so far has its record. *)
Definition exports_rule (seen : list Match) (l : Lists) : Prop :=
  exports l = map ClassInfo.name (classes l)
              ++ filter public (map FunctionInfo.name (functions l))
  /\ forall m n, In m seen -> group m 1 = Some n ->
                 In n (map FunctionInfo.name (functions l)).

Definition same_code (l l' : Lists) : Prop :=
  imports l' = imports l /\ classes l' = classes l
  /\ functions l' = functions l /\ exports l' = exports l.

End AnalyzerInv.

(* ------------------------------------------------------------------ *)
(** ** Rules against which the loops below are compared *)

Module ExplorationRules.
Import PyStr PyText Coordinator Explorations.

(** Every task run on its own, in the order of the batch. *)
Definition run_each (provider : nat -> SubagentTask -> Outcome)
    (tasks : list SubagentTask) : list SubagentResult :=
  map (fun it => run_task_body (snd it) (provider (fst it) (snd it)))
      (enumerate_from 0 tasks).

(** No permit is free and no child is past the semaphore. *)
Definition starved (s : State) : Prop :=
  sem s = 0%Z
  /\ Forall (fun p => p = Pending \/ p = Waiting) (phases s)
  /\ phases s <> [].

(** The counter of [run_parallel] counts the children that are over. *)
Definition finished (p : Phase) : nat := if is_done p then 1 else 0.

Definition counted (s : State) : Prop :=
  completed s = list_sum (map finished (phases s)).

Section Reconcile.
Variable str_of : nat -> string.
Variable bool_of : nat -> bool.

(** The test of line 309. *)
Definition accepted (r : SubagentResult) : bool :=
  success r && truthy_val bool_of (output r).

Definition rejected (r : SubagentResult) : bool := negb (accepted r).

Definition insight_of (r : SubagentResult) : Insight :=
  mkInsight (area_of (task_name r)) (str_val str_of (output r)).

Definition failure_of (r : SubagentResult) : Failure :=
  mkFailure (area_of (task_name r)) (error r).

(** Keyword [kw] occurs in the text of [r], whatever the case. *)
Definition mentions (kw : string) (r : SubagentResult) : bool :=
  contains kw (lower (str_val str_of (output r))).

End Reconcile.

(** [keyword.title()] for the seven keywords of line 319. *)
Definition pattern_titles : list string :=
  ["Pattern"; "Factory"; "Singleton"; "Observer"; "Mvc"; "Repository"; "Service"].

End ExplorationRules.

Module ModuleRules.
Import PyStr ModuleAnalyzer EdgeRules GroupInv.

(** The name given to the module of directory [d] (lines 131-134). *)
Definition name_rule (d : string) : string :=
  if String.eqb d "." then "root"
  else replace "\"%char "." (replace "/"%char "." d).

Definition is_public (export : string) : bool := negb (startswith export "_").
Definition is_private (export : string) : bool := startswith export "_".

Definition qualified (f : FA.t) (export : string) : string :=
  (FA.path f ++ ":" ++ export)%string.

(** The exports of the files, each written path:name, public ones and
    underscore ones apart. *)
Definition public_rule (files : list FA.t) : list string :=
  flat_map (fun f => map (qualified f) (filter is_public (FA.exports f))) files.

Definition internal_rule (files : list FA.t) : list string :=
  flat_map (fun f => map (qualified f) (filter is_private (FA.exports f))) files.

(** The purposes that count: neither empty nor "Unknown". *)
Definition stated (f : FA.t) : bool :=
  truthy (FA.purpose f) && negb (String.eqb (FA.purpose f) "Unknown").

Definition purposes_of (files : list FA.t) : list string :=
  map FA.purpose (filter stated files).

Definition default_purpose (files : list FA.t) : string :=
  ("Module containing " ++ of_nat (List.length files) ++ " files")%string.

(** A group that is not skipped. *)
Definition taken (item : string * list FA.t) : bool :=
  negb (skipped (fst item) (snd item)).

(** What the loop makes of a group that it keeps. *)
Definition describes (item : string * list FA.t) (m : ModuleInfo.t) : Prop :=
  let '(d, files) := item in
  ModuleInfo.name m = name_rule d
  /\ ModuleInfo.path m = d
  /\ ModuleInfo.files m = map FA.path files
  /\ ModuleInfo.public_api m = firstn 20 (public_rule files)
  /\ ModuleInfo.internal_components m = firstn 10 (internal_rule files)
  /\ match purposes_of files with
     | [] => ModuleInfo.purpose m = default_purpose files
     | ps => In (ModuleInfo.purpose m) ps
             /\ forall q, count_occ string_dec ps q
                          <= count_occ string_dec ps (ModuleInfo.purpose m)
     end.

End ModuleRules.

Module RecordRules.
Import PyStr FileAnalyzer AnalyzerRules.

(** The two flags of an import as the analyzer sets them: relative (the
    module starts with a dot), external, or neither (a dotted module named
    by a plain [import]). *)
Definition import_ok (imp : ImportInfo.t) : Prop :=
  (ImportInfo.is_relative imp = true /\ ImportInfo.is_external imp = false
   /\ startswith (ImportInfo.module imp) "." = true)
  \/ (ImportInfo.is_relative imp = false /\ ImportInfo.is_external imp = true
      /\ startswith (ImportInfo.module imp) "." = false)
  \/ (ImportInfo.is_relative imp = false /\ ImportInfo.is_external imp = false
      /\ contains "." (ImportInfo.module imp) = true).

Definition in_file (content : string) (line_number : nat) : Prop :=
  1 <= line_number <= line_count content.

(** A class record: a line of the file, a description made of the name,
    and nothing about its body. *)
Definition class_ok (content : string) (c : ClassInfo.t) : Prop :=
  in_file content (ClassInfo.line_number c)
  /\ ClassInfo.description c = ("Class " ++ ClassInfo.name c)%string
  /\ ClassInfo.docstring c = None
  /\ ClassInfo.methods c = []
  /\ ClassInfo.attributes c = [].

Definition function_ok (content : string) (f : FunctionInfo.t) : Prop :=
  in_file content (FunctionInfo.line_number f)
  /\ FunctionInfo.description f = ("Function " ++ FunctionInfo.name f)%string
  /\ FunctionInfo.docstring f = None
  /\ FunctionInfo.complexity f = "low"
  /\ FunctionInfo.calls f = [].

(** A function record without its signature. *)
Definition bare (f : FunctionInfo.t) : Prop :=
  FunctionInfo.parameters f = [] /\ FunctionInfo.return_type f = None.

Definition shaped (content : string) (l : Lists) : Prop :=
  Forall import_ok (imports l)
  /\ Forall (class_ok content) (classes l)
  /\ Forall (function_ok content) (functions l).

Definition js_shaped (content : string) (l : Lists) : Prop :=
  shaped content l /\ Forall bare (functions l).

Definition is_js (language : option string) : bool :=
  match language with
  | Some lang => negb (String.eqb lang "python")
                 && (String.eqb lang "javascript" || String.eqb lang "typescript")
  | None => false
  end.

End RecordRules.

Module BatchRules.
Import PyStr PyText FileTools FileAnalyzer BatchAnalyzer.

(** What the batch records for one file: the read-error record when the
    text that [read_file] returns carries the mark "Error:", the local
    analysis of that text otherwise. *)
Definition recorded (fs : string -> Node) (repository_path : string)
    (f : FC.t) (r : FA.t) : Prop :=
  let content := read_file fs (path_join repository_path (FC.path f)) None in
  FA.path r = FC.path f
  /\ if startswith content "Error:"
     then FA.complexity_score r = 1%Z
          /\ FA.purpose r = ("Could not read: " ++ content)%string
          /\ FA.key_insights r = [content]
          /\ FA.raw_summary r = "File read error"
          /\ FA.imports r = [] /\ FA.exports r = [] /\ FA.classes r = []
          /\ FA.functions r = [] /\ FA.constants r = [] /\ FA.dependencies r = []
     else analyze_file_locally (FC.path f) content (FC.language f) = Ok r
          /\ FA.key_insights r = [].

End BatchRules.

Module WalkRules.
Import PyStr PyText Discovery.

(** [file] is listed, in the tree [entries], in the directory reached by
    going down the directories [dirs]. *)
Inductive Located : list Entry -> list string -> string -> Prop :=
| located_here entries file :
    In (FileEntry file) entries -> Located entries [] file
| located_below entries d sub dirs file :
    In (DirEntry d sub) entries -> Located sub dirs file ->
    Located entries (d :: dirs) file.

(** The path of a file, relative to [rel_root], below the directories
    [dirs]. *)
Definition rel_path_from (rel_root : string) (dirs : list string) (file : string) : string :=
  rel_join (fold_left rel_join dirs rel_root) file.

Definition all_entered (dirs : list string) : Prop :=
  Forall (fun d => entered d = true) dirs.

(** A file that the loop classifies: not hidden. *)
Definition visible (item : string * string) : bool := negb (startswith (snd item) ".").

End WalkRules.

Module RunRules.
Import PyStr PyText FileTools FileAnalyzer BatchAnalyzer Coordinator RunFileAnalysis.
Import ExplorationRules.

Section Run.
Variable fs : string -> Node.
Variable model : string.
Variable api_key : string.
Variable provider : nat -> nat -> SubagentTask -> Outcome.

(** The text that [read_file] returns for a file of the repository. *)
Definition text_of (repository_path : string) (f : FC.t) : string :=
  read_file fs (path_join repository_path (FC.path f)) None.

(** A file for which a task is built: its text does not carry the mark. *)
Definition is_readable (repository_path : string) (f : FC.t) : bool :=
  negb (startswith (text_of repository_path f) "Error:").

Definition task_name_of (f : FC.t) : string :=
  ("analyze_" ++ replace "/"%char "_" (FC.path f))%string.

Definition task_of (repository_path : string) (f : FC.t) : SubagentTask :=
  mkTask (task_name_of f) (analysis_prompt f (truncated (text_of repository_path f)))
         model api_key 4096.

(** The cache of the texts, filled in the order of the files. *)
Definition contents_of (repository_path : string) (fcs : list FC.t) : Dict.t string :=
  fold_left (fun d f => Dict.set (FC.path f) (text_of repository_path f) d) fcs [].

(** The answers of the provider, batch after batch. *)
Definition answers (tasks : list SubagentTask) : list SubagentResult :=
  flat_map (fun i => run_each (provider i) (firstn 15 (skipn i tasks)))
           (range_step (List.length tasks) 15).

End Run.

End RunRules.

(* ================================================================== *)
(** * Properties *)

(** ** Generic facts about loops and dictionaries *)

Section LoopFacts.
Context {A S : Type}.

Lemma fold_left_invariant (P : S -> Prop) (f : S -> A -> S) (l : list A) :
  (forall st x, In x l -> P st -> P (f st x)) ->
  forall st, P st -> P (fold_left f l st).
Proof.
  induction l as [|x l IH]; simpl; intros Hf st Hst; [assumption|].
  apply IH.
  - intros st' y Hy. apply Hf. now right.
  - apply Hf; [now left|assumption].
Qed.

(** A loop that only appends is a [flat_map]. *)
Lemma fold_left_appends {B} (f : list B -> A -> list B) (g : A -> list B) (l : list A) :
  (forall acc x, In x l -> f acc x = acc ++ g x) ->
  forall acc, fold_left f l acc = acc ++ flat_map g l.
Proof.
  induction l as [|x l IH]; simpl; intros Hf acc.
  - now rewrite app_nil_r.
  - rewrite IH by (intros; apply Hf; now right).
    rewrite (Hf acc x) by now left.
    now rewrite <- app_assoc.
Qed.
End LoopFacts.

Module DictFacts.
Import Dict.

Lemma get_set_same {V} k (v : V) d : get k (set k v d) = Some v.
Proof.
  induction d as [|[k' v'] d IH]; simpl.
  - now rewrite String.eqb_refl.
  - destruct (String.eqb k' k) eqn:E; simpl; rewrite E; auto.
Qed.

Lemma get_set_other {V} k k' (v : V) d : k <> k' -> get k' (set k v d) = get k' d.
Proof.
  intros Hne. induction d as [|[k0 v0] d IH]; simpl.
  - destruct (String.eqb_spec k k'); congruence.
  - destruct (String.eqb_spec k0 k); simpl.
    + subst. destruct (String.eqb_spec k k'); congruence.
    + now rewrite IH.
Qed.

Lemma get_none_keys {V} k (d : t V) : get k d = None <-> ~ In k (keys d).
Proof.
  induction d as [|[k' v'] d IH]; simpl.
  - tauto.
  - destruct (String.eqb_spec k' k); split; intros H.
    + discriminate.
    + exfalso. apply H. now left.
    + intros [?|?]; [congruence|]. now apply IH.
    + apply IH. tauto.
Qed.

Lemma keys_set {V} k (v : V) d :
  keys (set k v d) = if mem k d then keys d else keys d ++ [k].
Proof.
  unfold mem. induction d as [|[k' v'] d IH]; simpl; [reflexivity|].
  destruct (String.eqb_spec k' k); simpl; [reflexivity|].
  unfold keys in *. rewrite IH. now destruct (get k d).
Qed.

Lemma keys_set_nodup {V} k (v : V) d : NoDup (keys d) -> NoDup (keys (set k v d)).
Proof.
  intros Hnd. rewrite keys_set. unfold mem.
  destruct (get k d) eqn:E; [assumption|].
  apply get_none_keys in E.
  apply NoDup_app; [assumption | repeat constructor; auto | ].
  intros x Hx [<-|[]]. contradiction.
Qed.

Lemma get_some_in {V} k (v : V) d : get k d = Some v -> In (k, v) d.
Proof.
  induction d as [|[k' v'] d IH]; simpl; [discriminate|].
  destruct (String.eqb_spec k' k); intros H.
  - injection H as <-. subst. now left.
  - right. now apply IH.
Qed.
End DictFacts.

(** ** The dependency graph *)

Module GraphFacts.
Import ModuleAnalyzer EdgeRules.

Lemma scan_is_find source tm keys edges :
  scan_import_target source tm keys edges =
  edges ++ match find (resolves tm) keys with
           | Some p => [imports_edge source p]
           | None => []
           end.
Proof.
  induction keys as [|k keys IH]; simpl.
  - now rewrite app_nil_r.
  - unfold resolves at 1.
    destruct (PyStr.endswith _ _ || PyStr.contains _ _); [reflexivity | exact IH].
Qed.

Lemma find_app_cong {A} (p : A -> bool) l1 l1' r :
  find p l1 = find p l1' -> find p (l1 ++ r) = find p (l1' ++ r).
Proof.
  revert l1'. induction l1 as [|x l1 IH]; simpl; intros l1' H.
  - induction l1' as [|y l1' IH']; simpl in *; [reflexivity|].
    destruct (p y); [discriminate | now apply IH'].
  - destruct (p x) eqn:Px.
    + clear IH. induction l1' as [|y l1' IH']; simpl in *; [discriminate|].
      destruct (p y); [assumption | now apply IH'].
    + now apply IH.
Qed.

Lemma find_snoc_seen {A} (p : A -> bool) l x :
  In x l -> find p (l ++ [x]) = find p l.
Proof.
  induction l as [|y l IH]; simpl; [tauto|].
  destruct (p y) eqn:Py; [reflexivity|].
  intros [Heq|Hin]; [|now apply IH].
  subst y. clear IH. induction l as [|z l IH]; simpl.
  - now rewrite Py.
  - destruct (p z); [reflexivity | exact IH].
Qed.

(** Scanning the keys of [file_exports] finds what scanning the input's
    paths finds: re-inserting a path keeps its first position. *)
Lemma find_keys_fold (p : string -> bool) (l : list FA.t) :
  forall d : Dict.t (list string),
    find p (Dict.keys (fold_left (fun d analysis =>
               Dict.set (FA.path analysis) (nodup string_dec (FA.exports analysis)) d) l d))
    = find p (Dict.keys d ++ map FA.path l).
Proof.
  induction l as [|a l IH]; simpl; intros d.
  - now rewrite app_nil_r.
  - rewrite IH, DictFacts.keys_set. unfold Dict.mem.
    destruct (Dict.get (FA.path a) d) eqn:E.
    + change (FA.path a :: map FA.path l) with ([FA.path a] ++ map FA.path l).
      rewrite app_assoc. apply find_app_cong. symmetry. apply find_snoc_seen.
      destruct (in_dec string_dec (FA.path a) (Dict.keys d)) as [H|H]; [assumption|].
      apply DictFacts.get_none_keys in H. congruence.
    + now rewrite <- app_assoc.
Qed.

Lemma find_file_exports (p : string -> bool) (files : list FA.t) :
  find p (Dict.keys (build_file_exports files)) = find p (map FA.path files).
Proof. unfold build_file_exports. now rewrite find_keys_fold. Qed.

Lemma import_step_is_rule files a edges imp :
  import_step (build_file_exports files) a edges imp = edges ++ import_edges files a imp.
Proof.
  unfold import_step, import_edges, is_local, normalized.
  destruct (ImportInfo.is_relative imp || negb (ImportInfo.is_external imp)).
  - now rewrite scan_is_find, find_file_exports.
  - now rewrite app_nil_r.
Qed.

Lemma flat_map_filter {A B} (p : A -> bool) (g : A -> list B) l :
  flat_map g (filter p l) = flat_map (fun x => if p x then g x else []) l.
Proof.
  induction l as [|x l IH]; simpl; [reflexivity|].
  destruct (p x); simpl; now rewrite IH.
Qed.

Lemma flat_map_singleton_filter {A B} (p : A -> bool) (b : B) l :
  flat_map (fun x => if p x then [b] else []) l = map (fun _ => b) (filter p l).
Proof.
  induction l as [|x l IH]; simpl; [reflexivity|].
  destruct (p x); simpl; now rewrite IH.
Qed.

Lemma base_step_is_rule files a edges base :
  base_step files a edges base = edges ++ extends_edges files a base.
Proof.
  unfold base_step, extends_edges, others. rewrite flat_map_filter.
  apply fold_left_appends. intros acc other _.
  destruct (negb (String.eqb (FA.path other) (FA.path a))); [|now rewrite app_nil_r].
  unfold matching_classes. rewrite <- flat_map_singleton_filter.
  apply fold_left_appends. intros acc' c _.
  destruct (String.eqb (ClassInfo.name c) base); [reflexivity | now rewrite app_nil_r].
Qed.

Lemma analysis_step_is_rule files edges a :
  analysis_step files (build_file_exports files) edges a = edges ++ file_edges files a.
Proof.
  unfold analysis_step, file_edges.
  rewrite (fold_left_appends _ (import_edges files a))
    by (intros; apply import_step_is_rule).
  rewrite (fold_left_appends _
             (fun cls => flat_map (extends_edges files a) (ClassInfo.base_classes cls))).
  - now rewrite app_assoc.
  - intros acc cls _. apply fold_left_appends. intros; apply base_step_is_rule.
Qed.

(** The loops of [build_dependency_graph] compute [EdgeRules.edges]. *)
Lemma graph_is_rules files : build_dependency_graph files = edges files.
Proof.
  unfold build_dependency_graph, edges.
  rewrite (fold_left_appends _ (file_edges files)); [reflexivity|].
  intros; apply analysis_step_is_rule.
Qed.

(** Every edge of the rules is an import edge to a found path or an
    extends edge to another file holding a class of the base's name. *)
Lemma edge_cases files e :
  In e (edges files) ->
  exists a, In a files /\
    ((exists imp p, In imp (FA.imports a) /\ is_local imp = true /\
         find (resolves (normalized imp)) (map FA.path files) = Some p /\
         e = imports_edge (FA.path a) p)
     \/ (exists cls base other c, In cls (FA.classes a) /\
         In base (ClassInfo.base_classes cls) /\ In other files /\
         FA.path other <> FA.path a /\ In c (FA.classes other) /\
         ClassInfo.name c = base /\
         e = extends_edge (FA.path a) (FA.path other))).
Proof.
  unfold edges. intros H. apply in_flat_map in H as (a & Ha & H).
  exists a. split; [assumption|].
  unfold file_edges in H. apply in_app_or in H as [H|H].
  - left. apply in_flat_map in H as (imp & Himp & H).
    unfold import_edges in H.
    destruct (is_local imp) eqn:L; [|destruct H].
    destruct (find _ _) as [p|] eqn:F; [|destruct H].
    destruct H as [<-|[]]. now exists imp, p.
  - right. apply in_flat_map in H as (cls & Hcls & H).
    apply in_flat_map in H as (base & Hbase & H).
    unfold extends_edges in H. apply in_flat_map in H as (other & Hother & H).
    unfold others in Hother. apply filter_In in Hother as [Hother Hne].
    apply in_map_iff in H as (c & <- & Hc).
    unfold matching_classes in Hc. apply filter_In in Hc as [Hc Hn].
    exists cls, base, other, c. repeat split; try assumption.
    + intros Heq. rewrite Heq, String.eqb_refl in Hne. discriminate.
    + now apply String.eqb_eq.
Qed.

End GraphFacts.

Module GraphClaims.
Import ModuleAnalyzer EdgeRules GraphFacts.

(** C5. Every edge returned by [build_dependency_graph] has its source path
    and its target path among the paths of the input records: a target that
    matches no known path gives no edge. *)
Theorem build_dependency_graph_paths_known (files : list FA.t) (e : DependencyEdge.t) :
  In e (build_dependency_graph files) ->
  In (DependencyEdge.source e) (map FA.path files)
  /\ In (DependencyEdge.target e) (map FA.path files).
Proof.
  rewrite graph_is_rules. intros H.
  apply edge_cases in H as (a & Ha & [(imp & p & _ & _ & F & ->) | H]).
  - simpl. split; [now apply in_map|].
    now apply find_some in F as [F _].
  - destruct H as (cls & base & other & c & _ & _ & Ho & _ & _ & _ & ->).
    simpl. split; now apply in_map.
Qed.

Lemma build_dependency_graph_paths_known_witness :
  In Samples.inherits (build_dependency_graph Samples.repo)
  /\ In "a/b.py" (map FA.path Samples.repo)
  /\ In "a/c.py" (map FA.path Samples.repo).
Proof.
  assert (H : In Samples.inherits (build_dependency_graph Samples.repo))
    by (vm_compute; tauto).
  split; [exact H|].
  exact (build_dependency_graph_paths_known Samples.repo Samples.inherits H).
Defined.

(** C7. [build_dependency_graph] computes the edges of the resolution rules:
    for each local import at most one "imports"/"normal" edge, to the first
    path of the input whose extension-stripped form matches the normalized
    module reference; for each declared base-class name one
    "extends"/"strong" edge per class of that name in every other file. *)
Theorem build_dependency_graph_refines (files : list FA.t) :
  build_dependency_graph files = edges files
  /\ (forall a imp, List.length (import_edges files a imp) <= 1)
  /\ (forall a base,
        List.length (extends_edges files a base)
        = list_sum (map (fun other => List.length (matching_classes base other))
                        (others files a))).
Proof.
  split; [apply graph_is_rules|]. split.
  - intros a imp. unfold import_edges.
    destruct (is_local imp); [|simpl; lia].
    destruct (find _ _); simpl; lia.
  - intros a base. unfold extends_edges.
    induction (others files a) as [|o l IH]; simpl; [reflexivity|].
    now rewrite length_app, length_map, IH.
Qed.

(** C10. An "extends" edge never joins a file to itself, while an "imports"
    edge may resolve to the importing file. *)
Theorem extends_never_self_imports_may :
  (forall files e,
      In e (build_dependency_graph files) ->
      DependencyEdge.relationship_type e = "extends" ->
      DependencyEdge.source e <> DependencyEdge.target e)
  /\ (exists files e,
        In e (build_dependency_graph files)
        /\ DependencyEdge.relationship_type e = "imports"
        /\ DependencyEdge.source e = DependencyEdge.target e).
Proof.
  split.
  - intros files e. rewrite graph_is_rules. intros H Hext.
    apply edge_cases in H as (a & Ha & [(imp & p & _ & _ & _ & ->) | H]).
    + discriminate Hext.
    + destruct H as (cls & base & other & c & _ & _ & _ & Hne & _ & _ & ->).
      simpl. congruence.
  - exists Samples.repo, Samples.self_import.
    split; [vm_compute; tauto | split; reflexivity].
Qed.

Lemma extends_never_self_imports_may_witness :
  In Samples.inherits (build_dependency_graph Samples.repo)
  /\ DependencyEdge.source Samples.inherits <> DependencyEdge.target Samples.inherits.
Proof.
  assert (H : In Samples.inherits (build_dependency_graph Samples.repo))
    by (vm_compute; tauto).
  split; [exact H|].
  exact (proj1 extends_never_self_imports_may Samples.repo Samples.inherits H eq_refl).
Defined.

(** Two classes named [A] in [a/c.py] give two edges; class [B] naming
    itself as a base gives none. *)
Example extends_counts_every_match :
  extends_edges Samples.repo (hd (Samples.record "" "" [] [] []) Samples.repo) "A"
  = [Samples.inherits; Samples.inherits]
  /\ extends_edges Samples.repo (hd (Samples.record "" "" [] [] []) Samples.repo) "B" = [].
Proof. split; reflexivity. Qed.

End GraphClaims.

(** ** Module identification *)

Module GroupFacts.
Import ModuleAnalyzer EdgeRules DictFacts GroupInv.

Lemma group_by_dir_snoc l a :
  group_by_dir (l ++ [a]) = group_step (group_by_dir l) a.
Proof. unfold group_by_dir. now rewrite fold_left_app. Qed.

Lemma group_step_get G a d :
  Dict.get d (group_step G a) =
  if String.eqb (dir_of a) d
  then Some (match Dict.get d G with Some l0 => l0 ++ [a] | None => [a] end)
  else Dict.get d G.
Proof.
  unfold group_step, Dict.mem.
  destruct (String.eqb_spec (dir_of a) d) as [<-|Hne].
  - destruct (Dict.get (dir_of a) G) as [l0|] eqn:E; simpl.
    + rewrite E. apply get_set_same.
    + rewrite get_set_same. apply get_set_same.
  - destruct (Dict.get (dir_of a) G) as [l0|] eqn:E; simpl.
    + rewrite E. now apply get_set_other.
    + rewrite get_set_same.
      rewrite get_set_other by assumption. now apply get_set_other.
Qed.

Lemma group_step_nodup G a :
  NoDup (Dict.keys G) -> NoDup (Dict.keys (group_step G a)).
Proof.
  intros H. unfold group_step.
  destruct (negb (Dict.mem (dir_of a) G));
    destruct (Dict.get _ _); auto using keys_set_nodup.
Qed.

Lemma members_snoc l a d :
  members (l ++ [a]) d = members l d ++ (if String.eqb (dir_of a) d then [a] else []).
Proof. unfold members. rewrite filter_app. simpl. now destruct (String.eqb _ _). Qed.

(** The dictionary built by the grouping loop holds, under each directory,
    exactly the records of that directory, in input order. *)
Lemma group_by_dir_spec l :
  NoDup (Dict.keys (group_by_dir l))
  /\ forall d, Dict.get d (group_by_dir l) =
               match members l d with [] => None | m => Some m end.
Proof.
  induction l as [|a l [IHn IHg]] using rev_ind.
  - split; [constructor | reflexivity].
  - rewrite group_by_dir_snoc. split; [now apply group_step_nodup|].
    intros d. rewrite group_step_get, members_snoc, IHg.
    destruct (String.eqb (dir_of a) d).
    + destruct (members l d); reflexivity.
    + now rewrite app_nil_r.
Qed.

Lemma set_not_nil {V} k (v : V) d : Dict.set k v d <> [].
Proof. destruct d as [|[k' v'] d]; simpl; [|destruct (String.eqb k' k)]; discriminate. Qed.

Lemma Counter_not_nil p ps : Counter (p :: ps) <> [].
Proof.
  unfold Counter. simpl. apply fold_left_invariant.
  - intros st x _ _. destruct (Dict.get x st); apply set_not_nil.
  - discriminate.
Qed.

(** One iteration either leaves [modules] alone or appends one record
    located at the group's directory and listing the group's paths. *)
Lemma module_step_ok modules d files :
  exists m, ModuleInfo.path m = d /\ ModuleInfo.files m = map FA.path files /\
    module_step modules (d, files) =
    Ok (if skipped d files then modules else modules ++ [m]).
Proof.
  unfold module_step, skipped.
  destruct (String.eqb d "." && (List.length files <? 3)).
  - exists (ModuleInfo.mk "" d (map FA.path files) "" [] []). auto.
  - destruct (collect_exports files) as [pub int].
    destruct (map FA.purpose _) as [|p ps] eqn:E.
    + simpl. eexists. split; [|split]; [| |reflexivity]; reflexivity.
    + pose proof (Counter_not_nil p ps) as Hc.
      destruct (Counter (p :: ps)) as [|it its]; [congruence|].
      simpl. eexists. split; [|split]; [| |reflexivity]; reflexivity.
Qed.

Lemma modules_at_app d l1 l2 :
  modules_at d (l1 ++ l2) = modules_at d l1 ++ modules_at d l2.
Proof. apply filter_app. Qed.

Lemma for_each_modules items :
  forall acc, exists ms,
    for_each items module_step acc = Ok ms
    /\ forall d, exists ks,
         modules_at d ms = modules_at d acc ++ ks
         /\ Forall2 (fun m it => ModuleInfo.files m = map FA.path (snd it))
                    ks (filter (kept d) items).
Proof.
  induction items as [|[k files] items IH]; intros acc.
  - exists acc. split; [reflexivity|]. intros d. exists [].
    split; [now rewrite app_nil_r | constructor].
  - cbn [for_each filter].
    destruct (module_step_ok acc k files) as (m & Hp & Hf & ->). cbn [bind].
    destruct (IH (if skipped k files then acc else acc ++ [m])) as (ms & -> & Hms).
    exists ms. split; [reflexivity|]. intros d.
    destruct (Hms d) as (ks & Hks & HF). unfold kept at 1. simpl.
    destruct (skipped k files); simpl.
    + rewrite andb_false_r. now exists ks.
    + rewrite andb_true_r. rewrite modules_at_app in Hks. simpl in Hks. rewrite Hp in Hks.
      destruct (String.eqb k d).
      * exists (m :: ks). split; [now rewrite Hks, <- app_assoc | now constructor].
      * rewrite app_nil_r in Hks. now exists ks.
Qed.

Lemma kept_absent d (items : Dict.t (list FA.t)) :
  ~ In d (Dict.keys items) -> filter (kept d) items = [].
Proof.
  induction items as [|[k v] items IH]; simpl; [reflexivity|].
  intros H. unfold kept at 1. simpl.
  destruct (String.eqb_spec k d); [tauto|]. simpl. apply IH. tauto.
Qed.

Lemma kept_lookup d (items : Dict.t (list FA.t)) :
  NoDup (Dict.keys items) ->
  filter (kept d) items =
  match Dict.get d items with
  | Some files => if skipped d files then [] else [(d, files)]
  | None => []
  end.
Proof.
  induction items as [|[k v] items IH]; simpl; [reflexivity|].
  intros Hnd. inversion Hnd as [|? ? Hnot Hnd']; subst.
  unfold kept at 1. simpl.
  destruct (String.eqb_spec k d) as [->|Hne]; simpl.
  - rewrite (kept_absent d items Hnot). now destruct (skipped d v).
  - now apply IH.
Qed.

End GroupFacts.

Module IdentifyClaims.
Import ModuleAnalyzer EdgeRules GroupInv GroupFacts.

(** C6. [identify_modules] returns, and in its result: the root group
    (directory ".") with fewer than 3 files has no ModuleInfo; every
    directory whose group has exactly 3 files has exactly one ModuleInfo,
    and it lists those 3 files. *)
Theorem identify_modules_root_and_three (files : list FA.t) (repository_path : string) :
  exists modules,
    identify_modules files repository_path = Ok modules
    /\ forall d,
         (d = "." -> List.length (members files d) < 3 -> modules_at d modules = [])
         /\ (List.length (members files d) = 3 ->
             exists m, modules_at d modules = [m]
                       /\ ModuleInfo.files m = map FA.path (members files d)).
Proof.
  unfold identify_modules.
  destruct (for_each_modules (group_by_dir files) []) as (ms & Hrun & Hms).
  destruct (group_by_dir_spec files) as [Hnd Hget].
  exists ms. split; [exact Hrun|]. intros d.
  destruct (Hms d) as (ks & Hks & HF). simpl in Hks.
  rewrite (kept_lookup d _ Hnd), Hget in HF. split.
  - intros -> Hlt. rewrite Hks.
    destruct (members files ".") as [|f fs] eqn:E; [now inversion HF|].
    unfold skipped in HF. simpl String.eqb in HF.
    apply Nat.ltb_lt in Hlt. rewrite Hlt in HF. now inversion HF.
  - intros H3. rewrite Hks.
    destruct (members files d) as [|f fs] eqn:E; [discriminate|].
    unfold skipped in HF. rewrite H3, andb_false_r in HF.
    inversion HF as [|m it ks' its Hm HF']; subst. inversion HF'; subst.
    exists m. split; [reflexivity | exact Hm].
Qed.

Lemma identify_modules_root_and_three_witness :
  exists modules,
    identify_modules Samples.repo "/srv/repo" = Ok modules
    /\ modules_at "." modules = []
    /\ exists m, modules_at "a" modules = [m]
                 /\ ModuleInfo.files m = ["a/b.py"; "a/c.py"; "a/d.py"].
Proof.
  destruct (identify_modules_root_and_three Samples.repo "/srv/repo")
    as (modules & Hrun & H).
  exists modules. split; [exact Hrun|]. split.
  - apply (proj1 (H ".")); [reflexivity | vm_compute; lia].
  - apply (proj2 (H "a")). reflexivity.
Defined.

(** Two files at the root give no module; a third one gives module "root". *)
Example root_group_threshold :
  identify_modules (Samples.record "x.py" "" [] [] [] ::
                    Samples.record "y.py" "" [] [] [] :: nil) "" = Ok []
  /\ exists m, identify_modules (Samples.record "x.py" "" [] [] [] ::
                                 Samples.record "y.py" "" [] [] [] ::
                                 Samples.record "z.py" "" [] [] [] :: nil) "" = Ok [m]
               /\ ModuleInfo.name m = "root".
Proof. split; [reflexivity | eexists; split; reflexivity]. Qed.

End IdentifyClaims.

(** ** The coordinator *)

Module CoordinatorFacts.
Import Coordinator CoordinatorInv.

(** *** Updating one child *)

Lemma length_set_nth {A} i (x : A) l : List.length (set_nth i x l) = List.length l.
Proof.
  revert i. induction l as [|h t IH]; intros [|i]; simpl; auto.
Qed.

Lemma nth_error_set_nth_same {A} i (x y : A) l :
  nth_error l i = Some y -> nth_error (set_nth i x l) i = Some x.
Proof.
  revert i. induction l as [|h t IH]; intros [|i]; simpl; try discriminate; auto.
Qed.

Lemma nth_error_set_nth_other {A} i j (x : A) l :
  i <> j -> nth_error (set_nth i x l) j = nth_error l j.
Proof.
  revert i j. induction l as [|h t IH]; intros [|i] [|j] H; simpl; auto.
  congruence.
Qed.

Lemma count_set_nth (f : Phase -> nat) i p q l :
  nth_error l i = Some p ->
  list_sum (map f (set_nth i q l)) + f p = list_sum (map f l) + f q.
Proof.
  revert i. induction l as [|h t IH]; intros [|i]; simpl; try discriminate.
  - intros [= ->]. lia.
  - intros H. specialize (IH i H). lia.
Qed.

Lemma in_flight_sum l : List.length (filter is_running l) = list_sum (map running l).
Proof.
  induction l as [|h t IH]; simpl; [reflexivity|].
  unfold running at 1. destruct (is_running h); simpl; lia.
Qed.

Lemma in_flight_set_nth i p q l :
  nth_error l i = Some p ->
  List.length (filter is_running (set_nth i q l)) + running p
  = List.length (filter is_running l) + running q.
Proof. intros H. rewrite !in_flight_sum. now apply count_set_nth. Qed.

Section Batch.
Variable provider : nat -> SubagentTask -> Outcome.
Variable progress_callback : option (nat -> nat -> option PyExc).
Variable tasks : list SubagentTask.
Variable cap : Z.

#[local] Abbreviation step := (step provider progress_callback tasks).
#[local] Abbreviation after_task := (after_task progress_callback tasks).
#[local] Abbreviation event_loop := (event_loop provider progress_callback tasks).
#[local] Abbreviation sem_inv := (sem_inv cap).
#[local] Abbreviation own := (own provider progress_callback tasks).
#[local] Abbreviation inv := (inv provider progress_callback tasks cap).

(** *** The semaphore invariant *)

Lemma step_sem_inv s ev : sem_inv s -> sem_inv (step s ev).
Proof.
  unfold sem_inv, in_flight. intros [Hsum Hpos].
  destruct ev as [i|i]; simpl.
  - destruct (nth_error (phases s) i) as [[| | |r]|] eqn:E; auto;
      destruct (Z.ltb_spec 0 (sem s)); simpl;
      pose proof (in_flight_set_nth i _ Running _ E) as HR;
      pose proof (in_flight_set_nth i _ Waiting _ E) as HW;
      unfold running in HR, HW; simpl in HR, HW; lia.
  - destruct (nth_error (phases s) i) as [[| | |r]|] eqn:E; auto.
    destruct (nth_error tasks i) as [task|]; auto. simpl.
    pose proof (in_flight_set_nth i _
      (Done (after_task (S (completed s))
               (run_task_body task (provider i task)))) _ E) as HD.
    unfold running in HD; simpl in HD. lia.
Qed.

Lemma init_sem_inv c : init cap = Ok c -> sem_inv (initial tasks c).
Proof.
  unfold init, sem_inv, in_flight, initial.
  destruct (Z.ltb_spec cap 0); [discriminate|]. intros [= <-]. simpl.
  replace (filter is_running (map (fun _ => Pending) tasks)) with (@nil Phase).
  - simpl. lia.
  - induction tasks; simpl; auto.
Qed.

(** *** Every finished child holds the result of its own task *)

Lemma nth_error_set_nth_cases {A} i j (x y z : A) l :
  nth_error l i = Some y ->
  nth_error (set_nth i x l) j = Some z ->
  (j = i /\ z = x) \/ (j <> i /\ nth_error l j = Some z).
Proof.
  intros Hi Hj. destruct (Nat.eq_dec i j) as [<-|Hne].
  - rewrite (nth_error_set_nth_same _ _ _ _ Hi) in Hj. left. split; congruence.
  - rewrite nth_error_set_nth_other in Hj by assumption. right. split; congruence.
Qed.

Lemma step_inv s ev : inv s -> inv (step s ev).
Proof.
  intros (Hlen & Hsem & Hown).
  split; [|split]; [| now apply step_sem_inv |].
  - destruct ev as [i|i]; simpl.
    + destruct (nth_error (phases s) i) as [[| | |r]|]; auto;
        destruct (0 <? sem s)%Z; simpl; now rewrite length_set_nth.
    + destruct (nth_error (phases s) i) as [[| | |r]|]; auto.
      destruct (nth_error tasks i); auto. simpl. now rewrite length_set_nth.
  - intros j r. destruct ev as [i|i]; simpl.
    + destruct (nth_error (phases s) i) as [[| | |r0]|] eqn:E; auto;
        destruct (0 <? sem s)%Z; simpl; intros H;
        destruct (nth_error_set_nth_cases _ _ _ _ _ _ E H) as [[_ ?]|[_ ?]];
        try discriminate; eauto.
    + destruct (nth_error (phases s) i) as [[| | |r0]|] eqn:E; auto.
      destruct (nth_error tasks i) as [task|] eqn:T; auto. simpl. intros H.
      destruct (nth_error_set_nth_cases _ _ _ _ _ _ E H) as [[-> [= ->]]|[_ ?]];
        [|eauto].
      exists task, (S (completed s)). auto.
Qed.

Lemma init_inv c : init cap = Ok c -> inv (initial tasks c).
Proof.
  intros H. split; [|split]; [| now apply init_sem_inv |].
  - simpl. apply length_map.
  - simpl. intros i r Hi. rewrite nth_error_map in Hi.
    destruct (nth_error tasks i); discriminate.
Qed.

Lemma init_measure c : measure (initial tasks c) = 3 * List.length tasks.
Proof.
  unfold measure, initial. simpl.
  induction tasks as [|t l IH]; simpl; [reflexivity|]. rewrite IH. lia.
Qed.

(** *** A ready child moves forward, and some child is ready until all are done *)

Lemma enabled_ready s ev :
  In ev (enabled s) ->
  exists i, In ev (ready s i).
Proof.
  unfold enabled. intros H. apply in_flat_map in H as (i & _ & H). eauto.
Qed.

Lemma step_progress s ev :
  inv s -> In ev (enabled s) ->
  measure (step s ev) < measure s.
Proof.
  intros (Hlen & _ & _) H. apply enabled_ready in H as (i & H).
  unfold ready in H. unfold measure.
  destruct (nth_error (phases s) i) as [[| | |r]|] eqn:E; simpl in H.
  - destruct H as [<-|[]]. simpl. rewrite E.
    destruct (0 <? sem s)%Z; simpl.
    + pose proof (count_set_nth weight i _ Running _ E). simpl in *. lia.
    + pose proof (count_set_nth weight i _ Waiting _ E). simpl in *. lia.
  - destruct (0 <? sem s)%Z eqn:Hs; [|destruct H].
    destruct H as [<-|[]]. simpl. rewrite E, Hs. simpl.
    pose proof (count_set_nth weight i _ Running _ E). simpl in *. lia.
  - destruct H as [<-|[]]. simpl. rewrite E.
    assert (Hi : i < List.length tasks).
    { rewrite <- Hlen. apply nth_error_Some. congruence. }
    apply nth_error_Some in Hi.
    destruct (nth_error tasks i) as [task|]; [|congruence]. simpl.
    pose proof (count_set_nth weight i _
      (Done (after_task (S (completed s))
               (run_task_body task (provider i task)))) _ E).
    simpl in *. lia.
  - destruct H.
  - destruct H.
Qed.

Lemma flat_map_nil {A B} (f : A -> list B) l :
  flat_map f l = [] -> forall x, In x l -> f x = [].
Proof.
  induction l as [|h t IH]; simpl; [tauto|].
  intros H x [<-|Hx]; apply app_eq_nil in H as [H1 H2]; auto.
Qed.

Lemma nothing_ready s :
  enabled s = [] ->
  forall p, In p (phases s) ->
            p = Waiting /\ (sem s <= 0)%Z \/ is_done p = true.
Proof.
  intros H p Hp. apply In_nth_error in Hp as (i & Hi).
  assert (Hlt : i < List.length (phases s)) by (apply nth_error_Some; congruence).
  pose proof (flat_map_nil _ _ H i) as Hr.
  rewrite in_seq in Hr. specialize (Hr ltac:(lia)).
  unfold ready in Hr. rewrite Hi in Hr.
  destruct p; try discriminate; [|now right].
  destruct (Z.ltb_spec 0 (sem s)); [discriminate|]. left. split; [reflexivity | lia].
Qed.

(** With one permit or more, the batch cannot be stuck. *)
Lemma no_deadlock s :
  (1 <= cap)%Z -> inv s ->
  enabled s = [] ->
  forallb is_done (phases s) = true.
Proof.
  intros Hcap (_ & [Hsum Hpos] & _) Hnone.
  pose proof (nothing_ready s Hnone) as Hall.
  assert (Hrun : in_flight s = 0).
  { unfold in_flight. destruct (filter is_running (phases s)) as [|p l] eqn:F;
      [reflexivity|].
    assert (Hin : In p (filter is_running (phases s))) by (rewrite F; now left).
    apply filter_In in Hin as [Hin Hr].
    destruct (Hall p Hin) as [[-> _]|Hd]; [discriminate|].
    destruct p; discriminate. }
  apply forallb_forall. intros p Hp.
  destruct (Hall p Hp) as [[_ Hle]|Hd]; [lia | assumption].
Qed.

Lemma event_loop_completes turns :
  (1 <= cap)%Z ->
  forall schedule s,
    inv s -> measure s <= turns ->
    exists s', event_loop turns schedule s = Some s'
               /\ inv s' /\ forallb is_done (phases s') = true.
Proof.
  intros Hcap. induction turns as [|turns IH]; intros schedule s Hinv Hm.
  - simpl. destruct (enabled s) as [|ev evs] eqn:E.
    + pose proof (no_deadlock s Hcap Hinv E) as Hd. rewrite Hd. eauto.
    + pose proof (step_progress s ev Hinv) as Hp. rewrite E in Hp.
      specialize (Hp (or_introl eq_refl)). lia.
  - cbn [event_loop]. destruct (enabled s) as [|ev evs] eqn:E.
    + pose proof (no_deadlock s Hcap Hinv E) as Hd. rewrite Hd. eauto.
    + set (chosen := nth (hd 0 schedule mod List.length (ev :: evs)) (ev :: evs) ev).
      assert (Hin : In chosen (enabled s)).
      { rewrite E. apply nth_In. apply Nat.mod_upper_bound. discriminate. }
      pose proof (step_progress s chosen Hinv Hin).
      apply IH; [now apply step_inv | lia].
Qed.

(** *** Collecting and converting *)

Lemma collect_done ps :
  forallb is_done ps = true ->
  exists rs, collect ps = Some rs /\ map Done rs = ps.
Proof.
  induction ps as [|p ps IH]; simpl; [eauto|].
  destruct p; try discriminate. intros H.
  destruct (IH H) as (rs & -> & <-). simpl. eauto.
Qed.

Lemma convert_all results :
  forall k acc,
    (forall j r, nth_error results j = Some r ->
                 exists task, nth_error tasks (k + j) = Some task) ->
    exists finals,
      for_each (enumerate_from k results) (convert_step tasks) acc = Ok (acc ++ finals)
      /\ List.length finals = List.length results
      /\ forall j r task,
           nth_error results j = Some r -> nth_error tasks (k + j) = Some task ->
           nth_error finals j = Some (final_of task r).
Proof.
  induction results as [|r results IH]; intros k acc Hk; simpl.
  - exists []. rewrite app_nil_r. repeat split; auto. intros [|j]; discriminate.
  - destruct (Hk 0 r eq_refl) as (task & Ht).
    destruct (IH (S k) (acc ++ [final_of task r])) as (finals & Hrun & Hlen & Hnth).
    { intros j r' Hj. destruct (Hk (S j) r' Hj) as (t & Hj').
      exists t. rewrite Nat.add_succ_r in Hj'. exact Hj'. }
    exists (final_of task r :: finals). split; [|split].
    + rewrite Nat.add_0_r in Ht.
      destruct r as [x|e]; simpl; unfold index; try rewrite Ht; simpl;
        simpl in Hrun; rewrite Hrun, <- app_assoc; reflexivity.
    + simpl. now rewrite Hlen.
    + intros [|j] r' task' Hr Ht'; simpl in *.
      * injection Hr as <-. rewrite Ht in Ht'. now injection Ht' as <-.
      * apply Hnth; [assumption|]. rewrite Nat.add_succ_r in Ht'. exact Ht'.
Qed.

(** [run_parallel] returns, one result per task and in the order of the
    tasks; the result at [i] is what [run_task] made of task [i], or the
    failure standing for an exception of the progress callback. *)
Lemma run_parallel_returns c schedule :
  init cap = Ok c -> (1 <= cap)%Z ->
  exists results,
    run_parallel provider progress_callback tasks c schedule = Some (Ok results)
    /\ List.length results = List.length tasks
    /\ forall i task,
         nth_error tasks i = Some task ->
         exists n,
           nth_error results i
           = Some (final_of task
                     (after_task n (run_task_body task (provider i task)))).
Proof.
  intros Hc Hcap. unfold run_parallel, gather.
  destruct (event_loop_completes (3 * List.length tasks) Hcap schedule
              (initial tasks c) (init_inv c Hc))
    as (s & -> & (Hlen & _ & Hown) & Hdone).
  { rewrite init_measure. lia. }
  destruct (collect_done _ Hdone) as (rs & -> & Hrs).
  assert (Hrl : List.length rs = List.length tasks).
  { rewrite <- Hlen, <- Hrs. now rewrite length_map. }
  destruct (convert_all rs 0 []) as (finals & Hrun & Hfl & Hnth).
  { intros j r Hj. simpl.
    assert (j < List.length tasks).
    { rewrite <- Hrl. apply nth_error_Some. congruence. }
    destruct (nth_error tasks j) eqn:E; eauto.
    apply nth_error_None in E. lia. }
  exists finals. split; [now rewrite Hrun|]. split; [congruence|].
  intros i task Ht.
  assert (Hi : i < List.length rs).
  { rewrite Hrl. apply nth_error_Some. congruence. }
  destruct (nth_error rs i) as [r|] eqn:Er;
    [|apply nth_error_None in Er; lia].
  destruct (Hown i r) as (task' & n & Ht' & ->).
  { rewrite <- Hrs, nth_error_map, Er. reflexivity. }
  rewrite Ht in Ht'. injection Ht' as <-.
  exists n. now apply (Hnth i _ task Er).
Qed.

End Batch.

End CoordinatorFacts.

Module CoordinatorClaims.
Import Coordinator CoordinatorInv CoordinatorFacts.

(** C1. For every list of tasks, every cap of at least 1 and every
    schedule, [run_parallel] returns (it neither hangs nor raises) exactly
    one result per task, in the order of the tasks.  The result at
    position [i] is what [run_task] made of task [i] alone: when the
    provider raised [e] for that task, the record of the failure (the
    task's name, [success] false, no output, [str(e)] as the error); when
    it returned [v], the record of the success (the task's name, [success]
    true, [v] as the output, no error).  The one exception is a progress
    callback that raised for that task: then the result is a failure
    record carrying the task's name and the callback's error. *)
Theorem run_parallel_one_result_per_task
    (provider : nat -> SubagentTask -> Outcome)
    (progress_callback : option (nat -> nat -> option PyExc))
    (tasks : list SubagentTask) (max_concurrent : Z)
    (c : SubagentCoordinator) (schedule : list nat) :
  init max_concurrent = Ok c ->
  (1 <= max_concurrent)%Z ->
  exists results,
    run_parallel provider progress_callback tasks c schedule = Some (Ok results)
    /\ List.length results = List.length tasks
    /\ map task_name results = map name tasks
    /\ forall i task r,
         nth_error tasks i = Some task ->
         nth_error results i = Some r ->
         (r = run_task_body task (provider i task)
          /\ match provider i task with
             | Raised e =>
                 task_name r = name task /\ success r = false
                 /\ output r = PyNone /\ error r = Some (str_exc e)
             | Returned final_output =>
                 task_name r = name task /\ success r = true
                 /\ output r = final_output /\ error r = None
             end)
         \/ exists callback n e,
              progress_callback = Some callback
              /\ callback n (List.length tasks) = Some e
              /\ r = mkResult (name task) false PyNone (Some (str_exc e)).
Proof.
  intros Hc Hcap.
  destruct (run_parallel_returns provider progress_callback tasks max_concurrent
              c schedule Hc Hcap) as (results & Hrun & Hlen & Hnth).
  assert (Hcases : forall i task r,
             nth_error tasks i = Some task -> nth_error results i = Some r ->
             r = run_task_body task (provider i task)
             \/ exists callback n e,
                  progress_callback = Some callback
                  /\ callback n (List.length tasks) = Some e
                  /\ r = mkResult (name task) false PyNone (Some (str_exc e))).
  { intros i task r Ht Hr. destruct (Hnth i task Ht) as (n & Hn).
    rewrite Hn in Hr. injection Hr as <-. unfold after_task.
    destruct progress_callback as [callback|]; [|now left].
    destruct (callback n (List.length tasks)) as [e|] eqn:E; [|now left].
    right. now exists callback, n, e. }
  exists results. split; [exact Hrun|]. split; [exact Hlen|]. split.
  - apply nth_error_ext. intros i. rewrite !nth_error_map.
    destruct (nth_error tasks i) as [task|] eqn:Ht.
    + destruct (Hnth i task Ht) as (n & Hn).
      destruct (Hcases i task _ Ht Hn) as [E|(cb & m & e & _ & _ & E)];
        rewrite Hn, E; [destruct (provider i task)|]; reflexivity.
    + apply nth_error_None in Ht.
      assert (H : nth_error results i = None) by (apply nth_error_None; lia).
      now rewrite H.
  - intros i task r Ht Hr.
    destruct (Hcases i task r Ht Hr) as [E|Hcb]; [left | right; exact Hcb].
    split; [exact E|]. rewrite E. unfold run_task_body.
    destruct (provider i task); repeat split.
Qed.

(** Five tasks under a cap of 2, the provider failing on the task [t1] and
    the callback raising on the second completion: five results, in order;
    the result of [t1] is the record of the provider's failure, that of
    its sibling [t0] the record of a success. *)
Lemma run_parallel_one_result_per_task_witness :
  exists results,
    run_parallel Samples.flaky (Some Samples.touchy) Samples.batch
                 (mkCoordinator 2 2) [4; 3; 7; 1; 0; 2; 5; 1; 1] = Some (Ok results)
    /\ List.length results = 5
    /\ map task_name results = ["t0"; "t1"; "t2"; "t3"; "t4"]
    /\ nth_error results 0 = Some (mkResult "t0" true (PyText "t0") None)
    /\ nth_error results 1 = Some (mkResult "t1" false PyNone (Some "rate limit")).
Proof.
  destruct (run_parallel_one_result_per_task Samples.flaky (Some Samples.touchy)
              Samples.batch 2%Z (mkCoordinator 2 2) [4; 3; 7; 1; 0; 2; 5; 1; 1]
              eq_refl ltac:(lia)) as (results & Hrun & Hlen & Hnames & _).
  exists results. split; [exact Hrun|]. split; [exact Hlen|].
  split; [exact Hnames|].
  vm_compute in Hrun. injection Hrun as <-. split; reflexivity.
Defined.

(** With no permit the children wait for ever: the call does not return. *)
Example run_parallel_cap_zero_hangs :
  init 0 = Ok (mkCoordinator 0 0)
  /\ run_parallel Samples.flaky None Samples.batch (mkCoordinator 0 0) [] = None.
Proof. split; reflexivity. Qed.

(** C2. In every state that a batch can reach, whatever the order of the
    events, the number of [run_task] bodies past the semaphore is at most
    the coordinator's [max_concurrent]. *)
Theorem in_flight_never_exceeds_cap
    (provider : nat -> SubagentTask -> Outcome)
    (progress_callback : option (nat -> nat -> option PyExc))
    (tasks : list SubagentTask) (max_concurrent : Z)
    (c : SubagentCoordinator) (events : list Event) :
  init max_concurrent = Ok c ->
  (Z.of_nat (in_flight (fold_left (step provider progress_callback tasks) events
                                  (initial tasks c)))
   <= max_concurrent)%Z.
Proof.
  intros Hc.
  assert (H : sem_inv max_concurrent
                (fold_left (step provider progress_callback tasks) events
                           (initial tasks c))).
  { apply fold_left_invariant.
    - intros st ev _. apply step_sem_inv.
    - now apply init_sem_inv. }
  destruct H as [Hsum Hpos]. lia.
Qed.

Lemma in_flight_never_exceeds_cap_witness :
  init 2 = Ok (mkCoordinator 2 2)
  /\ (Z.of_nat (in_flight (fold_left (step Samples.flaky None Samples.batch)
                   [Enter 0; Enter 3; Enter 1; Enter 2; Enter 4; Finish 3; Enter 2]
                   (initial Samples.batch (mkCoordinator 2 2)))) <= 2)%Z.
Proof.
  split; [reflexivity|].
  apply (in_flight_never_exceeds_cap Samples.flaky None Samples.batch 2%Z
           (mkCoordinator 2 2)). reflexivity.
Defined.

(** The cap is reached: after two children entered, the others wait. *)
Example cap_is_reached :
  let s := fold_left (step Samples.flaky None Samples.batch)
                     [Enter 0; Enter 3; Enter 1; Enter 2; Enter 4]
                     (initial Samples.batch (mkCoordinator 2 2)) in
  in_flight s = 2 /\ phases s = [Running; Waiting; Waiting; Running; Waiting].
Proof. split; reflexivity. Qed.

(** C3, as the claim states it, fails: a provider whose final output is
    [None] gives a successful result whose output is [None]. *)
Lemma run_task_success_without_output :
  let r := run_task_body (Samples.task "t3") (Returned PyNone) in
  success r = true /\ output r = PyNone
  /\ ~ (output r <> PyNone <-> success r = true).
Proof.
  simpl. split; [reflexivity|]. split; [reflexivity|].
  intros [_ H]. now apply H.
Qed.

(** C3, amended. In every result of [run_task] the error description is
    present exactly when [success] is false; a failed result has no output;
    a successful result carries the provider's final output as it is, which
    may be [None]. *)
Theorem run_task_result_shape (task : SubagentTask) (awaited : Outcome) :
  let r := run_task_body task awaited in
  (error r <> None <-> success r = false)
  /\ (success r = false -> output r = PyNone)
  /\ (output r <> PyNone -> success r = true)
  /\ (success r = true -> awaited = Returned (output r))
  /\ task_name r = name task.
Proof.
  destruct awaited as [v|e]; simpl; repeat split;
    try discriminate; try congruence; auto.
Qed.

Lemma run_task_result_shape_witness :
  output (run_task_body (Samples.task "t1") (Raised (RuntimeError "rate limit")))
  = PyNone.
Proof.
  apply (proj1 (proj2 (run_task_result_shape (Samples.task "t1")
                         (Raised (RuntimeError "rate limit"))))).
  reflexivity.
Defined.

End CoordinatorClaims.

(** ** The pipeline *)

Module OrchestratorClaims.
Import Orchestrator.




(** A load-bearing phase that fails ends the run with its exception. *)
Example discovery_failure_is_fatal (env : Collaborators) (path : string) (e : PyExc) :
  run_discovery env path = Raise e ->
  run env (init path) = (Raise e, init path).
Proof.
  intros H. unfold run, phase_discovery, try_except, bindM, call, get, raise.
  cbn. now rewrite H.
Qed.

End OrchestratorClaims.

(** ** The matcher *)

Module ReFacts.
Import Re ReInv.

Lemma eat_groups s : forall c c', eat s c = Some c' -> groups c' = groups c.
Proof.
  induction s as [|a s IH]; simpl; intros c c' H.
  - now injection H as <-.
  - destruct (rest c) as [|b t]; [discriminate|].
    destruct (Ascii.eqb a b); [|discriminate].
    now rewrite (IH _ _ H).
Qed.

Lemma many_groups cl k r :
  forall p pv gs out,
    many cl k p r pv gs = Some out ->
    exists c', k c' = Some out /\ groups c' = gs.
Proof.
  induction r as [|a t IH]; simpl; intros p pv gs out H.
  - eauto.
  - destruct (in_class cl a); [|eauto].
    destruct (many cl k (S p) t (Some a) gs) eqn:E; [|eauto].
    injection H as <-. eauto.
Qed.

(** Whatever the continuation accepted was reached with the groups of the
    start still there, and with group [n] when [r] always sets it. *)
Lemma run_groups n multiline r :
  forall k c out,
    run multiline r k c = Some out ->
    exists c', k c' = Some out
               /\ (has n c -> has n c')
               /\ (sets n r = true -> has n c').
Proof.
  unfold has.
  induction r as [s|cl|cl|cl| |r1 IH1 r2 IH2|r1 IH1 r2 IH2|r1 IH1|m r1 IH1];
    simpl; intros k c out H.
  - destruct (eat s c) as [c'|] eqn:E; [|discriminate].
    exists c'. rewrite (eat_groups _ _ _ E). repeat split; auto; discriminate.
  - destruct (rest c) as [|a t]; [discriminate|].
    destruct (in_class cl a); [|discriminate].
    eexists. split; [exact H|]. simpl. split; auto; discriminate.
  - apply many_groups in H as (c' & Hk & Hg).
    exists c'. rewrite Hg. repeat split; auto; discriminate.
  - destruct (rest c) as [|a t]; [discriminate|].
    destruct (in_class cl a); [|discriminate].
    apply many_groups in H as (c' & Hk & Hg).
    exists c'. rewrite Hg. repeat split; auto; discriminate.
  - destruct (at_bol multiline c); [|discriminate].
    exists c. repeat split; auto; discriminate.
  - apply IH1 in H as (c1 & H & Hkeep1 & Hset1).
    apply IH2 in H as (c2 & H & Hkeep2 & Hset2).
    exists c2. split; [exact H|]. split; [auto|].
    intros Hs. apply orb_true_iff in Hs as [Hs|Hs]; auto.
  - destruct (run multiline r1 k c) as [o|] eqn:E.
    + injection H as <-. apply IH1 in E as (c1 & H & Hkeep & Hset).
      exists c1. split; [exact H|]. split; [auto|].
      intros Hs. apply andb_true_iff in Hs as [Hs _]. auto.
    + apply IH2 in H as (c2 & H & Hkeep & Hset).
      exists c2. split; [exact H|]. split; [auto|].
      intros Hs. apply andb_true_iff in Hs as [_ Hs]. auto.
  - destruct (run multiline r1 k c) as [o|] eqn:E.
    + injection H as <-. apply IH1 in E as (c1 & H & Hkeep & _).
      exists c1. split; [exact H|]. split; [auto | discriminate].
    + exists c. split; [exact H|]. split; [auto | discriminate].
  - apply IH1 in H as (c1 & H & Hkeep & Hset).
    eexists. split; [exact H|]. simpl.
    destruct (Nat.eqb_spec m n); simpl.
    + split; intros; discriminate.
    + split; auto.
Qed.

Lemma attempt_group n multiline r c m :
  attempt multiline r c = Some m -> sets n r = true ->
  exists s, group m n = Some s.
Proof.
  unfold attempt, group. intros H Hs.
  destruct (run multiline r Some c) as [c'|] eqn:E; [|discriminate].
  injection H as <-. simpl.
  apply (run_groups n) in E as (c1 & [= ->] & _ & Hset).
  specialize (Hset Hs). unfold has in Hset.
  destruct (lookup n (groups c')); [eauto | congruence].
Qed.

(** Every item of [finditer] is the result of an attempt at some cursor
    whose position is the start of the match. *)
Lemma scan_attempt multiline r text :
  forall p pv skip m,
    In m (scan multiline r text p pv skip) ->
    exists c, attempt multiline r c = Some m /\ pos c = start m.
Proof.
  induction text as [|a t IH]; intros p pv skip m H.
  - destruct skip; simpl in H; [|destruct H].
    destruct (attempt multiline r (mkCursor p "" pv [])) as [m'|] eqn:E; [|destruct H].
    destruct H as [<-|[]]. eexists. split; [exact E|].
    unfold attempt in E. destruct (run _ _ _ _); [|discriminate].
    now injection E as <-.
  - destruct skip; simpl in H; [|eauto].
    destruct (attempt multiline r (mkCursor p (String a t) pv [])) as [m'|] eqn:E;
      [|eauto].
    destruct H as [<-|H]; [|eauto].
    eexists. split; [exact E|].
    unfold attempt in E. destruct (run _ _ _ _); [|discriminate].
    now injection E as <-.
Qed.

Lemma finditer_group n multiline r text m :
  In m (finditer multiline r text) -> sets n r = true ->
  exists s, group m n = Some s.
Proof.
  intros H Hs. apply scan_attempt in H as (c & H & _).
  now apply (attempt_group n) in H.
Qed.

Lemma match_group n r text m :
  match_ r text = Some m -> sets n r = true -> exists s, group m n = Some s.
Proof. apply attempt_group. Qed.

End ReFacts.

(** ** The local analyzer *)

Module AnalyzerFacts.
Import PyStr Re ReInv ReFacts FileAnalyzer AnalyzerRules.

(** *** Loops that cannot raise *)

(** A loop whose body keeps [P], [P] being told which items were seen. *)
Lemma for_each_history {A S} (P : list A -> S -> Prop) (body : S -> A -> Res S) xs :
  forall seen st,
    P seen st ->
    (forall seen x st, P seen st -> In x xs ->
                       exists st', body st x = Ok st' /\ P (seen ++ [x]) st') ->
    exists st', for_each xs body st = Ok st' /\ P (seen ++ xs) st'.
Proof.
  induction xs as [|x xs IH]; intros seen st HP Hbody; simpl.
  - exists st. now rewrite app_nil_r.
  - destruct (Hbody seen x st HP (or_introl eq_refl)) as (st1 & -> & HP1). simpl.
    destruct (IH (seen ++ [x]) st1 HP1) as (st' & Hrun & HP').
    + intros seen' y st2 H2 Hy. apply Hbody; [assumption | now right].
    + exists st'. split; [exact Hrun|]. now rewrite <- app_assoc in HP'.
Qed.

Lemma for_each_invariant {A S} (P : S -> Prop) (body : S -> A -> Res S) xs st :
  P st ->
  (forall x st, P st -> In x xs -> exists st', body st x = Ok st' /\ P st') ->
  exists st', for_each xs body st = Ok st' /\ P st'.
Proof.
  intros HP Hbody.
  destruct (for_each_history (fun _ => P) body xs [] st HP) as (st' & H & HP'); eauto.
Qed.

Lemma split_not_nil c s : split c s <> [].
Proof.
  destruct s as [|a t]; simpl; [discriminate|].
  destruct (Ascii.eqb a c); [discriminate|].
  destruct (split c t); discriminate.
Qed.

Lemma map_res_ok {A B} (f : A -> Res B) l :
  (forall x, exists y, f x = Ok y) -> exists ys, map_res f l = Ok ys.
Proof.
  intros Hf. induction l as [|x l [ys IH]]; simpl; [eauto|].
  destruct (Hf x) as [y ->]. simpl. rewrite IH. simpl. eauto.
Qed.

Lemma params_ok s :
  exists ps,
    map_res (fun p => head <- first (split ":"%char (strip p)) ;; Ok (strip head))
            (items s) = Ok ps.
Proof.
  apply map_res_ok. intros p.
  pose proof (split_not_nil ":"%char (strip p)) as H.
  destruct (split ":"%char (strip p)); [congruence|]. simpl. eauto.
Qed.

(** *** Where an anchored pattern matches *)

Lemma append_snoc pre a t : ((pre ++ String a "") ++ t = pre ++ String a t)%string.
Proof. induction pre as [|b pre IH]; simpl; [reflexivity | now rewrite IH]. Qed.

Lemma length_snoc pre a : String.length (pre ++ String a "") = S (String.length pre).
Proof. induction pre as [|b pre IH]; simpl; [reflexivity | now rewrite IH]. Qed.

Lemma last_char_snoc pre a : last_char (pre ++ String a "") = Some a.
Proof.
  induction pre as [|b pre IH]; simpl; [reflexivity|].
  rewrite IH. destruct (pre ++ String a "")%string eqn:E; [|reflexivity].
  destruct pre; discriminate.
Qed.

Lemma last_char_inv s a : last_char s = Some a -> exists pre, s = (pre ++ String a "")%string.
Proof.
  induction s as [|b s IH]; simpl; [discriminate|].
  destruct s as [|b' s'].
  - intros [= ->]. now exists "".
  - intros H. destruct (IH H) as (pre & ->). now exists (String b pre).
Qed.

Lemma scan_coherent content multiline r text :
  forall pre p pv skip m,
    content = (pre ++ text)%string -> String.length pre = p -> pv = last_char pre ->
    In m (scan multiline r text p pv skip) ->
    exists c, attempt multiline r c = Some m /\ pos c = start m /\ coherent content c.
Proof.
  induction text as [|a t IH]; intros pre p pv skip m Hc Hp Hv H.
  - destruct skip; simpl in H; [|destruct H].
    destruct (attempt multiline r (mkCursor p "" pv [])) as [m'|] eqn:E; [|destruct H].
    destruct H as [<-|[]]. eexists. split; [exact E|]. split.
    + unfold attempt in E. destruct (run _ _ _ _); [|discriminate]. now injection E as <-.
    + now exists pre.
  - assert (Hnext : forall skip', In m (scan multiline r t (S p) (Some a) skip') ->
              exists c, attempt multiline r c = Some m /\ pos c = start m
                        /\ coherent content c).
    { intros skip'. apply (IH (pre ++ String a "")%string).
      - now rewrite append_snoc.
      - now rewrite length_snoc, Hp.
      - now rewrite last_char_snoc. }
    destruct skip; simpl in H; [|eauto].
    destruct (attempt multiline r (mkCursor p (String a t) pv [])) as [m'|] eqn:E;
      [|eauto].
    destruct H as [<-|H]; [|eauto].
    eexists. split; [exact E|]. split.
    + unfold attempt in E. destruct (run _ _ _ _); [|discriminate]. now injection E as <-.
    + now exists pre.
Qed.

Lemma anchored_at_bol multiline r c m :
  anchored r = true -> attempt multiline r c = Some m -> at_bol multiline c = true.
Proof.
  destruct r as [| | | | |r1 r2| | |]; try discriminate.
  destruct r1; try discriminate. intros _. unfold attempt. simpl.
  destruct (at_bol multiline c); [reflexivity | discriminate].
Qed.

Lemma substring_prefix pre s : substring 0 (String.length pre) (pre ++ s) = pre.
Proof.
  induction pre as [|a pre IH]; simpl.
  - now destruct s.
  - now rewrite IH.
Qed.

Lemma rfind_from_snoc c pre : forall i last,
  rfind_from c (pre ++ String c "") i last = (i + Z.of_nat (String.length pre))%Z.
Proof.
  induction pre as [|a pre IH]; simpl; intros i last.
  - rewrite Ascii.eqb_refl. lia.
  - rewrite IH. lia.
Qed.

(** A match of an anchored pattern starts a line: its indent is 0. *)
Lemma anchored_indent content r m :
  anchored r = true -> In m (finditer true r content) ->
  (Z.of_nat (start m) - (rfind newline (substring 0 (start m) content) + 1) =? 0)%Z = true.
Proof.
  intros Ha H. unfold finditer in H.
  apply (scan_coherent content true r content "" 0 None 0 m eq_refl eq_refl eq_refl) in H
    as (c & Hatt & Hpos & pre & Hc & Hlen & Hprev).
  apply (anchored_at_bol true r c m Ha) in Hatt.
  unfold at_bol in Hatt. rewrite <- Hpos, <- Hlen, Hc, substring_prefix.
  apply Z.eqb_eq. rewrite Hprev in Hatt.
  destruct (last_char pre) as [a|] eqn:E.
  - simpl in Hatt. apply Ascii.eqb_eq in Hatt. subst a.
    apply last_char_inv in E as (pre' & ->).
    unfold rfind. rewrite rfind_from_snoc, length_snoc. lia.
  - destruct pre as [|b pre]; [reflexivity|].
    exfalso. clear - E. revert b E. induction pre as [|b' pre IH]; intros b E.
    + discriminate.
    + simpl in E. apply (IH b'). exact E.
Qed.

End AnalyzerFacts.

Module AnalyzerLoops.
Import PyStr Re ReInv ReFacts FileAnalyzer AnalyzerRules AnalyzerInv AnalyzerFacts.

(** Rewrites a required group of a match found by [finditer]. *)
Ltac found_group H n :=
  let s := fresh "s" in
  let E := fresh "E" in
  destruct (finditer_group n _ _ _ _ H eq_refl) as (s & E); rewrite E; simpl.

(** *** Python *)

Lemma py_import_loop lines l :
  nothing_yet l ->
  exists l', for_each lines py_import_step l = Ok l' /\ nothing_yet l'.
Proof.
  intros Hl. apply for_each_invariant; [exact Hl|].
  clear l Hl. intros line l Hl _. unfold py_import_step.
  destruct (match_ py_import line) as [m|] eqn:E1.
  - destruct (match_group 1 _ _ _ E1 eq_refl) as (s1 & ->). simpl.
    destruct (match_ py_from line) as [m2|] eqn:E2; [|eauto].
    destruct (match_group 1 _ _ _ E2 eq_refl) as (s2 & ->).
    destruct (match_group 2 _ _ _ E2 eq_refl) as (s3 & ->). simpl. eauto.
  - simpl. destruct (match_ py_from line) as [m2|] eqn:E2; [|eauto].
    destruct (match_group 1 _ _ _ E2 eq_refl) as (s2 & ->).
    destruct (match_group 2 _ _ _ E2 eq_refl) as (s3 & ->). simpl. eauto.
Qed.

Lemma py_class_loop content l :
  classes_exported l ->
  exists l', for_each (finditer true class_pattern content) (py_class_step content) l = Ok l'
             /\ classes_exported l'.
Proof.
  intros Hl. apply for_each_invariant; [exact Hl|].
  clear l Hl. intros m l [Hf He] Hm. unfold py_class_step.
  found_group Hm 1. eexists. split; [reflexivity|].
  split; simpl; [assumption|]. now rewrite map_app, He.
Qed.

Lemma py_function_loop content l :
  exports_rule [] l ->
  exists l', for_each (finditer true func_pattern content) (py_function_step content) l = Ok l'
             /\ exports_rule (finditer true func_pattern content) l'.
Proof.
  intros Hl.
  apply (for_each_history exports_rule (py_function_step content)
           (finditer true func_pattern content) [] l Hl).
  clear l Hl. intros seen m l [He Hseen] Hm. unfold py_function_step.
  destruct (params_ok (or_empty (group m 2))) as (ps & ->). simpl.
  rewrite (anchored_indent content func_pattern m eq_refl Hm).
  destruct (finditer_group 1 _ _ _ _ Hm eq_refl) as (s & E). rewrite E. simpl.
  assert (Hin : forall fs m' n, In m' (seen ++ [m]) -> group m' 1 = Some n ->
            In n (map FunctionInfo.name (functions l ++ fs)) ->
            In n (map FunctionInfo.name (functions l ++ fs))) by auto.
  destruct (startswith s "_") eqn:Hs; simpl; eexists; (split; [reflexivity|]);
    unfold exports_rule; simpl; rewrite map_app, filter_app; simpl;
    unfold public at 2; rewrite Hs; simpl; (split;
      [ rewrite He; now rewrite ?app_nil_r, ?app_assoc
      | intros m' n Hm' Hn; rewrite in_app_iff;
        apply in_app_or in Hm' as [Hm'|[<-|[]]];
        [left; eauto | right; left; congruence] ]).
Qed.

Lemma py_constant_loop content l :
  exists l', for_each (finditer true const_pattern content) py_constant_step l = Ok l'
             /\ same_code l l'.
Proof.
  apply for_each_invariant; [now repeat split|].
  intros m st Hst Hm. unfold py_constant_step.
  found_group Hm 1. eexists. split; [reflexivity | exact Hst].
Qed.

Lemma analyze_python_ok content lines :
  exists l,
    analyze_python content lines (mkLists [] [] [] [] []) = Ok l
    /\ exports_rule (finditer true func_pattern content) l.
Proof.
  unfold analyze_python.
  destruct (py_import_loop lines (mkLists [] [] [] [] [])) as (l1 & -> & H1 & H2 & H3);
    [now repeat split|]. simpl.
  destruct (py_class_loop content l1) as (l2 & -> & H4 & H5);
    [split; [assumption | now rewrite H1, H3]|]. simpl.
  destruct (py_function_loop content l2) as (l3 & -> & H6 & H7).
  { split; [rewrite H5, H4; simpl; now rewrite app_nil_r | intros ? ? []]. }
  simpl.
  destruct (py_constant_loop content l3) as (l4 & -> & Hi & Hc & Hf & He).
  exists l4. split; [reflexivity|]. unfold exports_rule. now rewrite He, Hc, Hf.
Qed.

(** *** JavaScript and TypeScript *)

Lemma analyze_js_ok content l : exists l', analyze_js content l = Ok l'.
Proof.
  unfold analyze_js.
  destruct (for_each_invariant (fun _ => True) js_import_step
              (finditer false import_pattern content) l I) as (l1 & -> & _).
  { intros m st _ Hm. unfold js_import_step. found_group Hm 3. eauto. }
  cbn [bind].
  destruct (for_each_invariant (fun _ => True) (js_class_step content)
              (finditer false js_class_pattern content) l1 I) as (l2 & -> & _).
  { intros m st _ Hm. unfold js_class_step. found_group Hm 1. eauto. }
  cbn [bind].
  destruct (for_each_invariant (fun _ => True)
              (fun l pattern =>
                 for_each (finditer false pattern content) (js_function_step content) l)
              func_patterns l2 I) as (l3 & -> & _).
  { intros pattern st _ Hp.
    apply for_each_invariant; [exact I|].
    intros m st' _ Hm. unfold js_function_step.
    destruct Hp as [<-|[<-|[]]]; found_group Hm 1; eauto. }
  cbn [bind].
  destruct (for_each_invariant (fun _ => True) js_export_step
              (finditer false export_pattern content) l3 I) as (l4 & -> & _).
  { intros m st _ Hm. unfold js_export_step. found_group Hm 1. eauto. }
  eauto.
Qed.

(** *** The whole function *)

Lemma extract_ok content lines language :
  exists l, extract content lines language (mkLists [] [] [] [] []) = Ok l.
Proof.
  unfold extract. destruct language as [lang|]; [|eauto].
  destruct (String.eqb lang "python").
  - destruct (analyze_python_ok content lines) as (l & H & _). eauto.
  - destruct (String.eqb lang "javascript" || String.eqb lang "typescript");
      [apply analyze_js_ok | eauto].
Qed.

Lemma complexity_is_rule l lines :
  complexity l lines
  = score_rule (List.length (classes l)) (List.length (functions l))
               (List.length (imports l)) (List.length lines).
Proof.
  unfold complexity, score_rule, bump.
  destruct (5 <? List.length (classes l)), (10 <? List.length (functions l)),
    (15 <? List.length (imports l)), (500 <? List.length lines),
    (List.length lines <? 50); reflexivity.
Qed.

Lemma complexity_in_bounds l lines :
  ((1 <=? complexity l lines) && (complexity l lines <=? 10))%Z = true.
Proof.
  unfold complexity. apply andb_true_iff. split; apply Z.leb_le; lia.
Qed.

(** The record returned for the lists that the branch produced. *)
Lemma analyze_file_locally_ok file_path content language :
  exists l h,
    extract content (split newline content) language (mkLists [] [] [] [] []) = Ok l
    /\ analyze_file_locally file_path content language = Ok h
    /\ FA.imports h = imports l /\ FA.exports h = exports l
    /\ FA.classes h = classes l /\ FA.functions h = functions l
    /\ FA.constants h = constants l
    /\ FA.complexity_score h = complexity l (split newline content).
Proof.
  destruct (extract_ok content (split newline content) language) as (l & Hl).
  exists l. unfold analyze_file_locally. rewrite Hl. simpl.
  unfold FA.create. rewrite complexity_in_bounds.
  eexists. split; [reflexivity|]. split; [reflexivity|]. simpl. repeat split.
Qed.

End AnalyzerLoops.

Module AnalyzerClaims.
Import PyStr Re ReInv FileAnalyzer AnalyzerRules AnalyzerInv AnalyzerFacts AnalyzerLoops.

(** C4. For every path, content and language (also no language, an unknown
    one, or empty content) [analyze_file_locally] returns a record, and the
    record's complexity score is the score of the rule: 5, plus 1 for more
    than 5 classes, for more than 10 functions, for more than 15 imports and
    for more than 500 lines, minus 1 for fewer than 50 lines, clamped into
    1..10. *)
Theorem analyze_file_locally_total_and_scored
    (file_path content : string) (language : option string) :
  exists h,
    analyze_file_locally file_path content language = Ok h
    /\ FA.complexity_score h
       = score_rule (List.length (FA.classes h)) (List.length (FA.functions h))
                    (List.length (FA.imports h)) (line_count content)
    /\ (1 <= FA.complexity_score h <= 10)%Z.
Proof.
  destruct (analyze_file_locally_ok file_path content language)
    as (l & h & _ & Hrun & Hi & _ & Hc & Hf & _ & Hs).
  exists h. split; [exact Hrun|].
  rewrite Hs, Hi, Hc, Hf. split; [apply complexity_is_rule|].
  unfold complexity. lia.
Qed.

(** Empty content in no known language: one line, nothing found, score 4. *)
Example empty_content_scores_four :
  exists h, analyze_file_locally "notes.txt" "" (Some "cobol") = Ok h
            /\ FA.complexity_score h = 4%Z /\ FA.purpose h = "Unknown"
            /\ FA.classes h = [] /\ FA.functions h = [].
Proof. eexists. split; [reflexivity|]. repeat split. Qed.

(** C9, as the claim states it, fails: with a class and a private function
    of one name, the private function is in the functions list and its name
    is in the exports list. *)
Lemma private_function_name_exported_by_class :
  exists h,
    analyze_file_locally "x.py" Samples.shadowed (Some "python") = Ok h
    /\ In "_f" (map FunctionInfo.name (FA.functions h))
    /\ startswith "_f" "_" = true
    /\ In "_f" (FA.exports h).
Proof.
  eexists. split; [vm_compute; reflexivity|].
  split; [now left|]. split; [reflexivity | now left].
Qed.

(** C9, amended. For Python input the exports list is the names of all
    extracted classes, underscore or not, followed by the names of the
    top-level functions that do not start with an underscore.  Every
    top-level function header has its record in the functions list, private
    or not; the name of a private one is in the exports list only when a
    class of that name was extracted. *)
Theorem python_exports_rule (file_path content : string) :
  exists h,
    analyze_file_locally file_path content (Some "python") = Ok h
    /\ FA.exports h = map ClassInfo.name (FA.classes h)
                      ++ filter public (map FunctionInfo.name (FA.functions h))
    /\ (forall c, In c (FA.classes h) -> In (ClassInfo.name c) (FA.exports h))
    /\ (forall m n, In m (finditer true func_pattern content) -> group m 1 = Some n ->
                    In n (map FunctionInfo.name (FA.functions h)))
    /\ (forall f, In f (FA.functions h) -> public (FunctionInfo.name f) = true ->
                  In (FunctionInfo.name f) (FA.exports h))
    /\ (forall f, In f (FA.functions h) -> public (FunctionInfo.name f) = false ->
                  (In (FunctionInfo.name f) (FA.exports h)
                   <-> exists c, In c (FA.classes h)
                                 /\ ClassInfo.name c = FunctionInfo.name f)).
Proof.
  destruct (analyze_file_locally_ok file_path content (Some "python"))
    as (l & h & Hl & Hrun & _ & He & Hc & Hf & _ & _).
  unfold extract in Hl. simpl in Hl.
  destruct (analyze_python_ok content (split newline content)) as (l' & Hl' & Hrule & Hall).
  rewrite Hl' in Hl. injection Hl as ->.
  exists h. split; [exact Hrun|].
  assert (Hex : FA.exports h = map ClassInfo.name (FA.classes h)
                               ++ filter public (map FunctionInfo.name (FA.functions h)))
    by now rewrite He, Hc, Hf.
  split; [exact Hex|]. split; [|split; [|split]].
  - intros c Hin. rewrite Hex. apply in_or_app. left. now apply in_map.
  - intros m n Hm Hn. rewrite Hf. eauto.
  - intros f Hin Hp. rewrite Hex. apply in_or_app. right.
    apply filter_In. split; [now apply in_map | exact Hp].
  - intros f Hin Hp. rewrite Hex, in_app_iff. split.
    + intros [H|H].
      * apply in_map_iff in H as (c & Hn & Hc'). eauto.
      * apply filter_In in H as [_ H]. congruence.
    + intros (c & Hc' & Hn). left. rewrite <- Hn. now apply in_map.
Qed.

Lemma python_exports_rule_witness :
  exists h,
    analyze_file_locally "pkg/helpers.py" Samples.helpers (Some "python") = Ok h
    /\ FA.exports h = ["_Cache"; "load"]
    /\ map FunctionInfo.name (FA.functions h) = ["_reset"; "load"].
Proof.
  destruct (python_exports_rule "pkg/helpers.py" Samples.helpers)
    as (h & Hrun & Hex & _).
  exists h. split; [exact Hrun|].
  assert (Hh : exists h0, analyze_file_locally "pkg/helpers.py" Samples.helpers
                            (Some "python") = Ok h0
                          /\ map ClassInfo.name (FA.classes h0) = ["_Cache"]
                          /\ map FunctionInfo.name (FA.functions h0) = ["_reset"; "load"])
    by (eexists; split; [vm_compute; reflexivity | split; reflexivity]).
  destruct Hh as (h0 & Hrun0 & Hc0 & Hf0).
  rewrite Hrun in Hrun0. injection Hrun0 as <-.
  rewrite Hex, Hc0, Hf0. split; reflexivity.
Defined.

(** The score of a file with six classes and nothing else: 5 + 1 - 1. *)
Example score_rule_six_classes : score_rule 6 0 0 12 = 5%Z.
Proof. reflexivity. Qed.

End AnalyzerClaims.

(** ** Directory explorations and their reconciliation *)

Module TextFacts.
Import PyStr PyText.

Lemma prefix_nil s : String.prefix "" s = true.
Proof. now destruct s. Qed.

Lemma count_append c s1 s2 : count c (s1 ++ s2) = count c s1 + count c s2.
Proof. induction s1 as [|a t IH]; simpl; [reflexivity|]. rewrite IH. lia. Qed.

Lemma count_replace_same c new s :
  count c new = 0 -> count c (replace c new s) = 0.
Proof.
  intros Hnew. induction s as [|a t IH]; simpl; [reflexivity|].
  destruct (Ascii.eqb_spec a c) as [->|Hne].
  - rewrite count_append. lia.
  - simpl. destruct (Ascii.eqb_spec a c); [contradiction | assumption].
Qed.

Lemma count_replace_other c old new s :
  c <> old -> count c new = 0 -> count c (replace old new s) = count c s.
Proof.
  intros Hne Hnew. induction s as [|a t IH]; simpl; [reflexivity|].
  destruct (Ascii.eqb_spec a old) as [->|Ha].
  - rewrite count_append, Hnew, IH.
    destruct (Ascii.eqb_spec old c); [congruence | reflexivity].
  - simpl. now rewrite IH.
Qed.

Lemma replace_absent c new s : count c s = 0 -> replace c new s = s.
Proof.
  induction s as [|a t IH]; simpl; [reflexivity|].
  destruct (Ascii.eqb a c); [discriminate|]. simpl. intros H. now rewrite IH.
Qed.

(** Turning every [old] into [new] and back gives the text again when
    [new] did not occur in it. *)
Lemma replace_back old new s :
  old <> new -> count new s = 0 ->
  replace new (String old "") (replace old (String new "") s) = s.
Proof.
  intros Hne. induction s as [|a t IH]; simpl; [reflexivity|].
  destruct (Ascii.eqb_spec a new) as [->|Ha]; [discriminate|]. simpl. intros H.
  destruct (Ascii.eqb_spec a old) as [->|Hb]; simpl.
  - rewrite Ascii.eqb_refl. now rewrite IH.
  - destruct (Ascii.eqb_spec a new); [contradiction|]. now rewrite IH.
Qed.

Lemma replace_from_absent old new s :
  contains old s = false -> replace_from old new s 0 = s.
Proof.
  induction s as [|a t IH]; [reflexivity|].
  cbn [contains replace_from].
  destruct (String.prefix old (String a t)); [discriminate|].
  intros H. now rewrite IH.
Qed.

Lemma replace_from_skip old new s1 s2 :
  replace_from old new (s1 ++ s2) (String.length s1) = replace_from old new s2 0.
Proof.
  induction s1 as [|a t IH]; simpl; [|exact IH].
  destruct s2; reflexivity.
Qed.

Lemma prefix_append p s : String.prefix p (p ++ s) = true.
Proof.
  induction p as [|a t IH]; simpl; [apply prefix_nil|].
  destruct (ascii_dec a a); [assumption | contradiction].
Qed.

(** A leading occurrence is dropped, and the scan goes on after it. *)
Lemma replace_str_leading a old s :
  replace_str (String a old) "" (String a old ++ s)
  = replace_from (String a old) "" s 0.
Proof.
  unfold replace_str. cbn [append replace_from].
  change (String a (old ++ s)) with (String a old ++ s)%string.
  rewrite prefix_append. cbn [append String.length Nat.sub].
  rewrite Nat.sub_0_r. apply replace_from_skip.
Qed.

(** A search for [p] followed by [new] in the replaced text is a search
    for [p] followed by [old] in the text itself. *)
Lemma prefix_replaced old new p s :
  count old p = 0 -> count new p = 0 -> count new s = 0 ->
  String.prefix (p ++ String new "") (replace old (String new "") s)
  = String.prefix (p ++ String old "") s.
Proof.
  revert s. induction p as [|a p IH]; intros s Ho Hn Hs.
  - destruct s as [|c t]; [reflexivity|]. simpl in *.
    destruct (Ascii.eqb_spec c new) as [->|Hc]; [discriminate|].
    destruct (Ascii.eqb_spec c old) as [->|Hd]; simpl.
    + destruct (ascii_dec new new); [|contradiction].
      destruct (ascii_dec old old); [|contradiction].
      now rewrite !prefix_nil.
    + destruct (ascii_dec new c); [congruence|].
      destruct (ascii_dec old c); [congruence | reflexivity].
  - destruct s as [|c t]; [reflexivity|]. simpl in *.
    destruct (Ascii.eqb_spec a old) as [->|Hao]; [discriminate|].
    destruct (Ascii.eqb_spec a new) as [->|Han]; [discriminate|].
    destruct (Ascii.eqb_spec c new) as [->|Hc]; [discriminate|].
    destruct (Ascii.eqb_spec c old) as [->|Hd]; simpl.
    + destruct (ascii_dec a new); [congruence|].
      destruct (ascii_dec a old); [congruence | reflexivity].
    + destruct (ascii_dec a c); [|reflexivity]. now apply IH.
Qed.

Lemma contains_replaced old new p s :
  count old p = 0 -> count new p = 0 -> count new s = 0 ->
  contains (p ++ String new "") (replace old (String new "") s)
  = contains (p ++ String old "") s.
Proof.
  intros Ho Hn. induction s as [|c t IH]; intros Hs.
  - pose proof (prefix_replaced old new p "" Ho Hn Hs) as Hp.
    cbn [replace contains] in *. now rewrite Hp.
  - pose proof (prefix_replaced old new p (String c t) Ho Hn Hs) as Hp.
    simpl in Hs. destruct (Ascii.eqb_spec c new) as [->|Hc]; [discriminate|].
    simpl in Hs. cbn [replace] in *.
    destruct (Ascii.eqb c old); cbn [append contains] in *;
      rewrite Hp; now rewrite IH.
Qed.

End TextFacts.

Module ExplorationFacts.
Import PyStr PyText Coordinator CoordinatorInv CoordinatorFacts.
Import Explorations ExplorationRules TextFacts.

Lemma nth_error_enumerate_from {A} (l : list A) :
  forall k i, nth_error (enumerate_from k l) i
              = option_map (fun x => (k + i, x)) (nth_error l i).
Proof.
  induction l as [|x l IH]; intros k [|i]; simpl; try reflexivity.
  - now rewrite Nat.add_0_r.
  - rewrite IH. now rewrite Nat.add_succ_r.
Qed.

Lemma length_enumerate_from {A} (l : list A) k :
  List.length (enumerate_from k l) = List.length l.
Proof. revert k. induction l; simpl; auto. Qed.

(** Without a progress callback nothing can raise inside a child: the
    batch comes to every task run on its own. *)
Lemma run_parallel_plain provider tasks cap c schedule :
  init cap = Ok c -> (1 <= cap)%Z ->
  run_parallel provider None tasks c schedule = Some (Ok (run_each provider tasks)).
Proof.
  intros Hc Hcap.
  destruct (run_parallel_returns provider None tasks cap c schedule Hc Hcap)
    as (results & -> & Hlen & Hnth).
  do 2 f_equal. apply nth_error_ext. intros i. unfold run_each.
  rewrite nth_error_map, nth_error_enumerate_from.
  destruct (nth_error tasks i) as [task|] eqn:Ht; simpl.
  - destruct (Hnth i task Ht) as (n & ->). reflexivity.
  - apply nth_error_None. apply nth_error_None in Ht. lia.
Qed.

Lemma explore_tasks_map directories repository_path model api_key :
  explore_tasks directories repository_path model api_key
  = map (explore_task repository_path model api_key) directories.
Proof.
  unfold explore_tasks.
  rewrite (fold_left_appends _ (fun d => [explore_task repository_path model api_key d]))
    by reflexivity.
  simpl. induction directories; simpl; congruence.
Qed.

Lemma map_enumerate_from {A B} (f : A -> B) (l : list A) k :
  enumerate_from k (map f l) = map (fun it => (fst it, f (snd it))) (enumerate_from k l).
Proof. revert k. induction l; intros k; simpl; [reflexivity|]. now rewrite IHl. Qed.

(** *** Starvation *)

Section Starved.
Variable provider : nat -> SubagentTask -> Outcome.
Variable progress_callback : option (nat -> nat -> option PyExc).
Variable tasks : list SubagentTask.

Lemma Forall_set_nth {A} (P : A -> Prop) i x l :
  P x -> Forall P l -> Forall P (set_nth i x l).
Proof.
  intros Hx H. revert i. induction H as [|h t Hh Ht IH]; intros [|i]; simpl;
    constructor; auto.
Qed.

Lemma set_nth_not_nil {A} i (x : A) l : l <> [] -> set_nth i x l <> [].
Proof. destruct l, i; simpl; congruence. Qed.

Lemma step_starved s ev :
  starved s -> starved (step provider progress_callback tasks s ev).
Proof.
  intros (Hsem & Hall & Hne). destruct ev as [i|i]; simpl.
  - destruct (nth_error (phases s) i) as [[| | |r]|] eqn:E;
      try (now repeat split); rewrite Hsem; simpl;
      (split; [reflexivity|]; split;
       [apply Forall_set_nth; auto | now apply set_nth_not_nil]).
  - destruct (nth_error (phases s) i) as [p|] eqn:E; [|now repeat split].
    apply nth_error_In in E.
    rewrite Forall_forall in Hall. destruct (Hall p E) as [-> | ->];
      now repeat split; try assumption; apply Forall_forall.
Qed.

Lemma starved_not_done s : starved s -> forallb is_done (phases s) = false.
Proof.
  intros (_ & Hall & Hne). destruct (phases s) as [|p l]; [congruence|].
  inversion Hall as [|? ? [-> | ->] _]; reflexivity.
Qed.

Lemma event_loop_starved turns :
  forall schedule s,
    starved s -> event_loop provider progress_callback tasks turns schedule s = None.
Proof.
  induction turns as [|turns IH]; intros schedule s Hs; cbn [event_loop];
    destruct (enabled s) as [|ev evs];
    try (now rewrite starved_not_done); try reflexivity.
  apply IH. now apply step_starved.
Qed.

End Starved.

(** *** The end of a batch *)

Section BatchEnd.
Variable provider : nat -> SubagentTask -> Outcome.
Variable progress_callback : option (nat -> nat -> option PyExc).
Variable tasks : list SubagentTask.

Lemma step_counted s ev :
  counted s -> counted (step provider progress_callback tasks s ev).
Proof.
  unfold counted. intros H. destruct ev as [i|i]; simpl.
  - destruct (nth_error (phases s) i) as [[| | |r]|] eqn:E; auto;
      destruct (0 <? sem s)%Z; simpl;
      pose proof (count_set_nth finished i _ Running _ E) as HR;
      pose proof (count_set_nth finished i _ Waiting _ E) as HW;
      unfold finished in *; simpl in HR, HW; lia.
  - destruct (nth_error (phases s) i) as [[| | |r]|] eqn:E; auto.
    destruct (nth_error tasks i) as [task|]; auto. simpl.
    pose proof (count_set_nth finished i _
      (Done (after_task progress_callback tasks (S (completed s))
               (run_task_body task (provider i task)))) _ E) as HD.
    unfold finished in *. simpl in HD. lia.
Qed.

Lemma init_counted c : counted (initial tasks c).
Proof.
  unfold counted, initial. simpl. induction tasks as [|t l IH]; simpl; auto.
Qed.

Lemma event_loop_preserves (P : State -> Prop) :
  (forall s ev, P s -> P (step provider progress_callback tasks s ev)) ->
  forall turns schedule s s',
    P s -> event_loop provider progress_callback tasks turns schedule s = Some s' ->
    P s'.
Proof.
  intros Hstep. induction turns as [|turns IH]; intros schedule s s' Hs;
    cbn [event_loop]; destruct (enabled s) as [|ev evs];
    try (destruct (forallb is_done (phases s)); [intros [= <-]; assumption | discriminate]);
    try discriminate.
  apply IH. now apply Hstep.
Qed.

Lemma all_done_none_running ps :
  forallb is_done ps = true -> filter is_running ps = [].
Proof.
  induction ps as [|p ps IH]; simpl; [reflexivity|].
  destruct p; simpl; try discriminate. exact IH.
Qed.

Lemma all_done_finished ps :
  forallb is_done ps = true -> list_sum (map finished ps) = List.length ps.
Proof.
  induction ps as [|p ps IH]; simpl; [reflexivity|].
  destruct p; simpl; try discriminate. intros H. specialize (IH H).
  unfold finished in *. simpl. now rewrite IH.
Qed.

End BatchEnd.

(** *** The reconciliation loop *)

Section Reconcile.
Variable str_of : nat -> string.
Variable bool_of : nat -> bool.

#[local] Abbreviation reconcile_step := (reconcile_step str_of bool_of).
#[local] Abbreviation accepted := (accepted bool_of).
#[local] Abbreviation rejected := (rejected bool_of).
#[local] Abbreviation insight_of := (insight_of str_of).
#[local] Abbreviation mentions := (mentions str_of).

Lemma reconcile_lists results :
  forall acc,
    let final := fold_left reconcile_step results acc in
    insights final = insights acc ++ map insight_of (filter accepted results)
    /\ failed_explorations final
       = failed_explorations acc ++ map failure_of (filter rejected results)
    /\ modules final = modules acc /\ key_files final = key_files acc
    /\ dependencies final = dependencies acc.
Proof.
  induction results as [|r results IH]; intros acc; simpl.
  - now rewrite !app_nil_r.
  - destruct (IH (reconcile_step acc r)) as (Hi & Hf & Hm & Hk & Hd).
    rewrite Hi, Hf, Hm, Hk, Hd. unfold reconcile_step, rejected, accepted, ExplorationRules.accepted.
    destruct (success r && truthy_val bool_of (output r)); simpl;
      rewrite <- ?app_assoc; repeat split; reflexivity.
Qed.

Lemma filter_split_length {A} (f : A -> bool) l :
  List.length (filter f l) + List.length (filter (fun x => negb (f x)) l) = List.length l.
Proof.
  induction l as [|x l IH]; simpl; [reflexivity|].
  destruct (f x); simpl; lia.
Qed.

Lemma set_add_in s x y : In y (set_add s x) <-> In y s \/ y = x.
Proof.
  unfold set_add. destruct (existsb (String.eqb x) s) eqn:E.
  - split; [tauto|]. intros [H| ->]; [assumption|].
    apply existsb_exists in E as (z & Hz & Heq).
    apply String.eqb_eq in Heq. now subst.
  - rewrite in_app_iff. simpl. intuition.
Qed.

Lemma set_add_nodup s x : NoDup s -> NoDup (set_add s x).
Proof.
  intros H. unfold set_add. destruct (existsb (String.eqb x) s) eqn:E; [assumption|].
  apply NoDup_app; [assumption | repeat constructor; tauto |].
  intros y Hy [Hx|[]]. subst y.
  assert (existsb (String.eqb x) s = true).
  { apply existsb_exists. exists x. split; [assumption | apply String.eqb_refl]. }
  congruence.
Qed.

Lemma lower_keywords kw : In kw pattern_keywords -> lower kw = kw.
Proof.
  intros H. repeat (destruct H as [<-|H]; [reflexivity|]). destruct H.
Qed.

Lemma add_patterns_spec output found :
  NoDup found ->
  NoDup (add_patterns output found)
  /\ forall p, In p (add_patterns output found)
               <-> In p found
                   \/ exists kw, In kw pattern_keywords
                                 /\ contains kw (lower output) = true
                                 /\ p = title kw.
Proof.
  unfold add_patterns.
  assert (G : forall kws found,
             (forall kw, In kw kws -> lower kw = kw) ->
             NoDup found ->
             let final := fold_left (fun found keyword =>
                             if contains (lower keyword) (lower output)
                             then set_add found (title keyword) else found) kws found in
             NoDup final
             /\ forall p, In p final
                          <-> In p found
                              \/ exists kw, In kw kws
                                            /\ contains kw (lower output) = true
                                            /\ p = title kw).
  { clear found. induction kws as [|kw kws IH]; intros found Hl Hnd; simpl.
    - split; [assumption|]. intros p. split; [tauto|].
      intros [H|(kw & [] & _)]. assumption.
    - rewrite (Hl kw) by now left.
      destruct (IH (if contains kw (lower output) then set_add found (title kw) else found))
        as (Hn & Hin).
      { intros k Hk. apply Hl. now right. }
      { destruct (contains kw (lower output)); [now apply set_add_nodup | assumption]. }
      split; [exact Hn|]. intros p. rewrite Hin.
      destruct (contains kw (lower output)) eqn:E.
      + rewrite set_add_in. split.
        * intros [[H| ->]|(k & Hk & Hc & ->)]; eauto 6.
        * intros [H|(k & [<-|Hk] & Hc & ->)]; eauto 6.
      + split.
        * intros [H|(k & Hk & Hc & ->)]; eauto 6.
        * intros [H|(k & [<-|Hk] & Hc & ->)]; [tauto | congruence | eauto 6]. }
  intros Hnd. apply G; [apply lower_keywords | assumption].
Qed.

Lemma reconcile_patterns results :
  forall acc,
    NoDup (patterns acc) ->
    let final := fold_left reconcile_step results acc in
    NoDup (patterns final)
    /\ forall p, In p (patterns final)
                 <-> In p (patterns acc)
                     \/ exists kw r, In kw pattern_keywords /\ In r results
                                     /\ accepted r = true /\ mentions kw r = true
                                     /\ p = title kw.
Proof.
  induction results as [|r results IH]; intros acc Hnd; simpl.
  - split; [assumption|]. intros p. split; [tauto|].
    intros [H|(kw & r & _ & [] & _)]. assumption.
  - destruct (IH (reconcile_step acc r)) as (Hn & Hin).
    { unfold reconcile_step.
      destruct (success r && truthy_val bool_of (output r)); simpl; [|assumption].
      now apply add_patterns_spec. }
    split; [exact Hn|]. intros p. rewrite Hin. clear Hin Hn IH.
    unfold reconcile_step, accepted, ExplorationRules.accepted, mentions, ExplorationRules.mentions.
    destruct (success r && truthy_val bool_of (output r)) eqn:E; simpl.
    + destruct (add_patterns_spec (str_val str_of (output r)) (patterns acc) Hnd)
        as (_ & Hadd).
      rewrite Hadd. split.
      * intros [[H|(kw & Hk & Hc & ->)]|(kw & r' & Hk & Hr & Ha & Hc & ->)].
        -- now left.
        -- right. exists kw, r. repeat split; auto.
        -- right. exists kw, r'. repeat split; auto.
      * intros [H|(kw & r' & Hk & [<-|Hr] & Ha & Hc & ->)].
        -- now left; left.
        -- left. right. exists kw. repeat split; auto.
        -- right. exists kw, r'. repeat split; auto.
    + split.
      * intros [H|(kw & r' & Hk & Hr & Ha & Hc & ->)]; [now left|].
        right. exists kw, r'. repeat split; auto.
      * intros [H|(kw & r' & Hk & [<-|Hr] & Ha & Hc & ->)]; [now left| congruence |].
        right. exists kw, r'. repeat split; auto.
Qed.

End Reconcile.

End ExplorationFacts.

Module ExplorationProps.
Import PyStr PyText Coordinator CoordinatorInv CoordinatorFacts.
Import Explorations ExplorationRules TextFacts ExplorationFacts.

(** X1. With a cap of at least 1, [explore_directories] returns, whatever
    the schedule, one result per directory and in the order of the
    directories: the result at [i] is what [run_task] makes of the task
    built for directory [i], whose name is "explore_" followed by the path
    with "/" turned into "_" and "." into "root".  No result stands for a
    converted exception. *)
Theorem explore_directories_one_result_per_directory
    (provider : nat -> SubagentTask -> Outcome) (max_concurrent : Z)
    (c : SubagentCoordinator) (directories : list string)
    (repository_path model api_key : string) (schedule : list nat) :
  init max_concurrent = Ok c ->
  (1 <= max_concurrent)%Z ->
  exists results,
    explore_directories provider c directories repository_path model api_key schedule
    = Some (Ok results)
    /\ map task_name results = map explore_name directories
    /\ forall i d,
         nth_error directories i = Some d ->
         nth_error results i
         = Some (run_task_body (explore_task repository_path model api_key d)
                   (provider i (explore_task repository_path model api_key d))).
Proof.
  intros Hc Hcap. unfold explore_directories.
  rewrite (run_parallel_plain provider _ max_concurrent c schedule Hc Hcap).
  eexists. split; [reflexivity|].
  unfold run_each. rewrite explore_tasks_map, map_enumerate_from. split.
  - rewrite !map_map. generalize 0.
    induction directories as [|d ds IH]; intros k; simpl; [reflexivity|].
    rewrite IH. f_equal. now destruct (provider k _).
  - intros i d Hd.
    rewrite map_map, nth_error_map, nth_error_enumerate_from, Hd. reflexivity.
Qed.

Lemma explore_directories_one_result_per_directory_witness :
  exists results,
    explore_directories Samples2.explorer (mkCoordinator 2 2) Samples2.directories
      "/srv/repo" "gemini/gemini-2.0-flash" "key" [2; 0; 1; 1] = Some (Ok results)
    /\ map task_name results = ["explore_root"; "explore_src"; "explore_src_io"].
Proof.
  destruct (explore_directories_one_result_per_directory Samples2.explorer 2%Z
              (mkCoordinator 2 2) Samples2.directories "/srv/repo"
              "gemini/gemini-2.0-flash" "key" [2; 0; 1; 1] eq_refl ltac:(lia))
    as (results & Hrun & Hnames & _).
  exists results. split; [exact Hrun | exact Hnames].
Defined.

(** X2. A coordinator built with [max_concurrent = 0] never finishes a
    batch that holds a task: every child stays suspended at the semaphore,
    so [run_parallel] does not return, whatever the schedule. *)
Theorem run_parallel_hangs_without_permits
    (provider : nat -> SubagentTask -> Outcome)
    (progress_callback : option (nat -> nat -> option PyExc))
    (tasks : list SubagentTask) (c : SubagentCoordinator) (schedule : list nat) :
  init 0 = Ok c ->
  tasks <> [] ->
  run_parallel provider progress_callback tasks c schedule = None.
Proof.
  intros [= <-] Hne. unfold run_parallel, gather.
  rewrite event_loop_starved; [reflexivity|].
  unfold starved, initial. simpl. split; [reflexivity|]. split.
  - apply Forall_forall. intros p Hp. apply in_map_iff in Hp as (t & <- & _). now left.
  - destruct tasks; [congruence | discriminate].
Qed.

Lemma run_parallel_hangs_without_permits_witness :
  run_parallel Samples.flaky (Some Samples.touchy) Samples.batch
               (mkCoordinator 0 0) [3; 1; 4] = None.
Proof.
  apply (run_parallel_hangs_without_permits Samples.flaky (Some Samples.touchy)
           Samples.batch (mkCoordinator 0 0) [3; 1; 4] eq_refl).
  discriminate.
Defined.

(** X3. With a cap of at least 1 the event loop of a batch comes to an end,
    whatever the schedule, and at that end every permit is back (the
    semaphore holds [max_concurrent] again, nothing is in flight) and the
    completion counter equals the number of tasks. *)
Theorem batch_ends_with_all_permits_back
    (provider : nat -> SubagentTask -> Outcome)
    (progress_callback : option (nat -> nat -> option PyExc))
    (tasks : list SubagentTask) (max_concurrent : Z)
    (c : SubagentCoordinator) (schedule : list nat) :
  init max_concurrent = Ok c ->
  (1 <= max_concurrent)%Z ->
  exists s,
    event_loop provider progress_callback tasks (3 * List.length tasks) schedule
               (initial tasks c) = Some s
    /\ sem s = max_concurrent
    /\ in_flight s = 0
    /\ completed s = List.length tasks.
Proof.
  intros Hc Hcap.
  destruct (event_loop_completes provider progress_callback tasks max_concurrent
              (3 * List.length tasks) Hcap schedule (initial tasks c)
              (init_inv provider progress_callback tasks max_concurrent c Hc))
    as (s & Hrun & (Hlen & [Hsum Hpos] & _) & Hdone).
  { rewrite init_measure. lia. }
  exists s. split; [exact Hrun|].
  assert (Hfly : in_flight s = 0).
  { unfold in_flight. now rewrite all_done_none_running. }
  split; [rewrite Hfly in Hsum; lia|]. split; [exact Hfly|].
  assert (Hcount : counted s).
  { apply (event_loop_preserves provider progress_callback tasks counted
             (step_counted provider progress_callback tasks) _ _ _ _
             (init_counted tasks c) Hrun). }
  unfold counted in Hcount. rewrite Hcount, all_done_finished by assumption.
  exact Hlen.
Qed.

Lemma batch_ends_with_all_permits_back_witness :
  exists s,
    event_loop Samples.flaky (Some Samples.touchy) Samples.batch 15 [4; 3; 7; 1; 0; 2]
               (initial Samples.batch (mkCoordinator 2 2)) = Some s
    /\ sem s = 2%Z /\ in_flight s = 0 /\ completed s = 5.
Proof.
  apply (batch_ends_with_all_permits_back Samples.flaky (Some Samples.touchy)
           Samples.batch 2%Z (mkCoordinator 2 2) [4; 3; 7; 1; 0; 2] eq_refl).
  lia.
Defined.

(** X4. [reconcile_explorations] splits the results in two, keeping their
    order: a result with [success] and a truthy output gives an insight
    (its area and the text of its output), every other result gives a
    failed exploration (its area and its error).  The two lists together
    are as long as the input, and the keys "modules", "key_files" and
    "dependencies" are left empty. *)
Theorem reconcile_explorations_partitions
    (str_of : nat -> string) (bool_of : nat -> bool) (results : list SubagentResult) :
  let reconciled := reconcile_explorations str_of bool_of results in
  insights reconciled = map (insight_of str_of) (filter (accepted bool_of) results)
  /\ failed_explorations reconciled = map failure_of (filter (rejected bool_of) results)
  /\ List.length (insights reconciled) + List.length (failed_explorations reconciled)
     = List.length results
  /\ modules reconciled = [] /\ key_files reconciled = []
  /\ dependencies reconciled = [].
Proof.
  destruct (reconcile_lists str_of bool_of results (mkReconciled [] [] [] [] [] []))
    as (Hi & Hf & Hm & Hk & Hd).
  simpl in *. unfold reconcile_explorations.
  rewrite Hi, Hf, Hm, Hk, Hd, !length_map. repeat split.
  apply (filter_split_length (accepted bool_of)).
Qed.

(** X5. The detected patterns hold no duplicate, and a name is among them
    exactly when it is the title-cased form of one of the seven keywords
    and that keyword occurs, whatever the case, in the text of an accepted
    result.  So at most seven patterns are reported. *)
Theorem reconcile_explorations_patterns
    (str_of : nat -> string) (bool_of : nat -> bool) (results : list SubagentResult) :
  let found := patterns (reconcile_explorations str_of bool_of results) in
  NoDup found
  /\ (forall p, In p found
                <-> exists kw r, In kw pattern_keywords /\ In r results
                                 /\ accepted bool_of r = true
                                 /\ mentions str_of kw r = true
                                 /\ p = title kw)
  /\ incl found pattern_titles
  /\ List.length found <= 7.
Proof.
  destruct (reconcile_patterns str_of bool_of results (mkReconciled [] [] [] [] [] []))
    as (Hnd & Hin); [constructor|].
  simpl in *. unfold reconcile_explorations.
  assert (Hspec : forall p,
             In p (patterns (fold_left (reconcile_step str_of bool_of) results
                               (mkReconciled [] [] [] [] [] [])))
             <-> exists kw r, In kw pattern_keywords /\ In r results
                              /\ accepted bool_of r = true
                              /\ mentions str_of kw r = true /\ p = title kw).
  { intros p. rewrite Hin. split; [intros [[]|H]; exact H | now right]. }
  assert (Hincl : incl (patterns (fold_left (reconcile_step str_of bool_of) results
                                    (mkReconciled [] [] [] [] [] []))) pattern_titles).
  { intros p Hp. apply Hspec in Hp as (kw & r & Hk & _ & _ & _ & ->).
    repeat (destruct Hk as [<-|Hk]; [simpl; tauto|]). destruct Hk. }
  repeat split; try assumption; try (now apply Hspec).
  apply (NoDup_incl_length Hnd Hincl).
Qed.

(** X6. A task whose provider returns no output, or an empty one, is a
    success for [run_task] and a failed exploration for
    [reconcile_explorations], listed there without an error message. *)
Theorem empty_output_counts_as_failed
    (str_of : nat -> string) (bool_of : nat -> bool)
    (results : list SubagentResult) (task : SubagentTask) (final_output : PyVal) :
  truthy_val bool_of final_output = false ->
  In (run_task_body task (Returned final_output)) results ->
  success (run_task_body task (Returned final_output)) = true
  /\ In (mkFailure (area_of (name task)) None)
        (failed_explorations (reconcile_explorations str_of bool_of results)).
Proof.
  intros Hfalsy Hin. split; [reflexivity|].
  destruct (reconcile_lists str_of bool_of results (mkReconciled [] [] [] [] [] []))
    as (_ & Hf & _).
  simpl in Hf. unfold reconcile_explorations. rewrite Hf.
  apply in_map_iff. exists (run_task_body task (Returned final_output)).
  split; [reflexivity|]. apply filter_In. split; [assumption|].
  unfold rejected, accepted. simpl. now rewrite Hfalsy.
Qed.

Lemma empty_output_counts_as_failed_witness :
  In (mkFailure "src" None)
     (failed_explorations
        (reconcile_explorations Samples2.str_of Samples2.bool_of Samples2.explored)).
Proof.
  apply (empty_output_counts_as_failed Samples2.str_of Samples2.bool_of
           Samples2.explored
           (explore_task "/srv/repo" "gemini/gemini-2.0-flash" "key" "src")
           (PyText "") eq_refl).
  right. left. reflexivity.
Defined.

(** X7. The area that reconciliation reads back from a task name is the
    explored directory itself when the path holds no underscore and no
    dot and does not contain "explore/". *)
Theorem area_round_trip (dir_path : string) :
  count "_" dir_path = 0 ->
  count "." dir_path = 0 ->
  contains "explore/" dir_path = false ->
  area_of (explore_name dir_path) = dir_path.
Proof.
  intros Hu Hd He. unfold area_of, explore_name.
  rewrite (replace_absent "." "root").
  2:{ rewrite count_replace_other; [assumption | discriminate | reflexivity]. }
  rewrite (replace_str_leading "e" "xplore_").
  rewrite replace_from_absent.
  - apply (replace_back "/" "_"); [discriminate | assumption].
  - rewrite (contains_replaced "/" "_" "explore"); auto.
Qed.

Lemma area_round_trip_witness : area_of (explore_name "src/io") = "src/io".
Proof. apply area_round_trip; reflexivity. Defined.

(** X8. An area never holds an underscore: a directory whose path holds
    one is reported under another name, with "/" in its place. *)
Theorem underscore_directory_is_misreported (dir_path : string) :
  0 < count "_" dir_path ->
  count "_" (area_of (explore_name dir_path)) = 0
  /\ area_of (explore_name dir_path) <> dir_path.
Proof.
  intros H.
  assert (Hz : count "_" (area_of (explore_name dir_path)) = 0).
  { unfold area_of. now apply count_replace_same. }
  split; [exact Hz|]. intros E. rewrite E in Hz. lia.
Qed.

Lemma underscore_directory_is_misreported_witness :
  area_of (explore_name "doc_agents") <> "doc_agents".
Proof.
  apply (underscore_directory_is_misreported "doc_agents"). simpl. lia.
Defined.

End ExplorationProps.

(** ** More about the pipeline *)

Module OrchestratorProps.
Import Orchestrator.

#[local] Ltac run_cases :=
  unfold run, phase_discovery, phase_file_analysis, phase_module_analysis,
    phase_synthesis, phase_examples, phase_faq, run_doc_synthesis, attr,
    try_except, bindM, call, get, put, ret, raise; cbn.

(** X9. [run] returns normally exactly when discovery, file analysis,
    module analysis, synthesis and the writing of the documentation files
    all succeed: their success is enough, whatever becomes of the example
    and FAQ phases, and the failure of any of them makes [run] raise.  A
    value that [run] returns is the output directory.  The documentation
    files are written from the document as synthesis left it, with no
    example. *)
Theorem run_returns_iff_load_bearing_phases_succeed
    (env : Collaborators) (self : DocumentationOrchestrator) :
  ((exists out self', run env self = (Ok out, self'))
   <-> (exists d fa ma draft,
          run_discovery env (repository_path self) = Ok d
          /\ run_file_analysis env d = Ok fa
          /\ run_module_analysis env d fa = Ok ma
          /\ synthesize env d fa ma = Ok draft
          /\ write_documentation_files env (set_examples draft []) = Ok tt))
  /\ (forall out self', run env self = (Ok out, self') -> out = OUTPUT_DIR env).
Proof.
  split; [split|].
  - intros (out & self' & Hrun). revert Hrun. run_cases.
    destruct (run_discovery env (repository_path self)) as [d|e] eqn:E1; cbn;
      [|discriminate].
    destruct (run_file_analysis env d) as [fa|e] eqn:E2; cbn; [|discriminate].
    destruct (run_module_analysis env d fa) as [ma|e] eqn:E3; cbn; [|discriminate].
    destruct (synthesize env d fa ma) as [draft|e] eqn:E4; cbn; [|discriminate].
    destruct (write_documentation_files env (set_examples draft [])) as [[]|e] eqn:E5;
      cbn; [|discriminate].
    intros _. exists d, fa, ma, draft.
    repeat (split; [first [assumption | reflexivity]|]). assumption.
  - intros (d & fa & ma & draft & Hd & Hfa & Hma & Hsyn & Hw).
    exists (OUTPUT_DIR env). run_cases.
    rewrite Hd. cbn. rewrite Hfa. cbn. rewrite Hma. cbn. rewrite Hsyn. cbn.
    rewrite Hw. cbn.
    destruct (generate_examples env ma fa (primary_language d)) as [exs|e]; cbn.
    + destruct (write_examples_file env exs) as [[]|e]; cbn;
        destruct (generate_faqs env d fa ma); cbn; eexists; reflexivity.
    + destruct (generate_faqs env d fa ma); cbn; eexists; reflexivity.
  - intros out self'. run_cases.
    destruct (run_discovery env (repository_path self)) as [d|e]; cbn;
      [|discriminate].
    destruct (run_file_analysis env d) as [fa|e]; cbn; [|discriminate].
    destruct (run_module_analysis env d fa) as [ma|e]; cbn; [|discriminate].
    destruct (synthesize env d fa ma) as [draft|e]; cbn; [|discriminate].
    destruct (write_documentation_files env (set_examples draft [])) as [[]|e];
      cbn; [|discriminate].
    destruct (generate_examples env ma fa (primary_language d)) as [exs|e]; cbn.
    + destruct (write_examples_file env exs) as [[]|e]; cbn;
        destruct (generate_faqs env d fa ma); cbn; intros [= <- _]; reflexivity.
    + destruct (generate_faqs env d fa ma); cbn; intros [= <- _]; reflexivity.
Qed.

(** The five steps of the sample succeed: its run returns. *)
Lemma run_returns_iff_load_bearing_phases_succeed_witness :
  exists out self', run Samples2.healthy (init "/srv/repo") = (Ok out, self').
Proof.
  apply (proj2 (proj1 (run_returns_iff_load_bearing_phases_succeed Samples2.healthy
                         (init "/srv/repo")))).
  exists Samples.found, Samples.repo, Samples.analysed, Samples.draft.
  repeat split.
Defined.

(** X10. When [run] raises, the exception is the one of the first
    load-bearing step that failed (discovery, file analysis, module
    analysis, synthesis or the writing of the documentation files), never
    one of the example or FAQ phase; the orchestrator holds the handoffs of
    the steps before it and, beyond them, what it held before the run. *)
Theorem run_failure_is_first_failed_step
    (env : Collaborators) (self self' : DocumentationOrchestrator) (e : PyExc) :
  run env self = (Raise e, self') ->
  (run_discovery env (repository_path self) = Raise e /\ self' = self)
  \/ exists d,
       run_discovery env (repository_path self) = Ok d
       /\ ((run_file_analysis env d = Raise e
            /\ self' = mkOrchestrator (repository_path self) (Some d)
                         (file_analyses self) (module_analysis self)
                         (documentation self))
           \/ exists fa,
                run_file_analysis env d = Ok fa
                /\ ((run_module_analysis env d fa = Raise e
                     /\ self' = mkOrchestrator (repository_path self) (Some d)
                                  (Some fa) (module_analysis self)
                                  (documentation self))
                    \/ exists ma,
                         run_module_analysis env d fa = Ok ma
                         /\ ((synthesize env d fa ma = Raise e
                              /\ self' = mkOrchestrator (repository_path self)
                                           (Some d) (Some fa) (Some ma)
                                           (documentation self))
                             \/ exists draft,
                                  synthesize env d fa ma = Ok draft
                                  /\ write_documentation_files env
                                       (set_examples draft []) = Raise e
                                  /\ self' = mkOrchestrator (repository_path self)
                                               (Some d) (Some fa) (Some ma)
                                               (Some (set_examples draft []))))).
Proof.
  run_cases.
  destruct (run_discovery env (repository_path self)) as [d|e1]; cbn.
  2:{ intros [= <- <-]. left. split; [reflexivity | now destruct self]. }
  intros H. right. exists d. split; [reflexivity|]. revert H.
  destruct (run_file_analysis env d) as [fa|e2] eqn:E2; cbn.
  2:{ intros [= <- <-]. now left. }
  intros H. right. exists fa. split; [reflexivity|]. revert H.
  destruct (run_module_analysis env d fa) as [ma|e3] eqn:E3; cbn.
  2:{ intros [= <- <-]. now left. }
  intros H. right. exists ma. split; [reflexivity|]. revert H.
  destruct (synthesize env d fa ma) as [draft|e4] eqn:E4; cbn.
  2:{ intros [= <- <-]. now left. }
  intros H. right. exists draft. split; [reflexivity|]. revert H.
  destruct (write_documentation_files env (set_examples draft [])) as [[]|e5] eqn:E5;
    cbn.
  2:{ intros [= <- <-]. now split. }
  destruct (generate_examples env ma fa (primary_language d)) as [exs|e6]; cbn.
  - destruct (write_examples_file env exs) as [[]|e7]; cbn;
      destruct (generate_faqs env d fa ma); cbn; discriminate.
  - destruct (generate_faqs env d fa ma); cbn; discriminate.
Qed.

Lemma run_failure_is_first_failed_step_witness :
  exists d, run_discovery Samples2.unreadable "/srv/repo" = Ok d
            /\ run_file_analysis Samples2.unreadable d
               = Raise (RuntimeError "[Errno 13] Permission denied").
Proof.
  destruct (run_failure_is_first_failed_step Samples2.unreadable (init "/srv/repo")
              (mkOrchestrator "/srv/repo" (Some Samples.found) None None None)
              (RuntimeError "[Errno 13] Permission denied") eq_refl)
    as [[H _]|(d & Hd & [[H _]|(fa & H & _)])].
  - discriminate H.
  - exists d. split; assumption.
  - discriminate H.
Defined.

(** X11. What the FAQ phase comes to, a list of questions or an exception,
    changes neither the value that [run] returns nor the state it leaves:
    the questions are not kept in the orchestrator. *)
Theorem faq_outcome_is_invisible
    (env : Collaborators) (self : DocumentationOrchestrator)
    (faqs : DiscoveryHandoff -> list FA.t -> ModuleAnalysisHandoff -> Res (list string)) :
  run (mkCollaborators (OUTPUT_DIR env) (run_discovery env) (run_file_analysis env)
         (run_module_analysis env) (synthesize env) (write_documentation_files env)
         (generate_examples env) (write_examples_file env) faqs) self
  = run env self.
Proof.
  run_cases.
  destruct (run_discovery env (repository_path self)) as [d|e]; cbn; [|reflexivity].
  destruct (run_file_analysis env d) as [fa|e]; cbn; [|reflexivity].
  destruct (run_module_analysis env d fa) as [ma|e]; cbn; [|reflexivity].
  destruct (synthesize env d fa ma) as [draft|e]; cbn; [|reflexivity].
  destruct (write_documentation_files env (set_examples draft [])) as [[]|e]; cbn;
    [|reflexivity].
  destruct (generate_examples env ma fa (primary_language d)) as [exs|e]; cbn.
  - destruct (write_examples_file env exs) as [[]|e]; cbn;
      destruct (faqs d fa ma), (generate_faqs env d fa ma); reflexivity.
  - destruct (faqs d fa ma), (generate_faqs env d fa ma); reflexivity.
Qed.

End OrchestratorProps.

(** ** More about module identification *)

Module ModuleFacts.
Import PyStr ModuleAnalyzer EdgeRules GroupInv DictFacts GroupFacts ModuleRules.

(** *** The export loops *)

Lemma collect_exports_inner f (exports : list string) :
  forall pub int,
    fold_left (fun acc export =>
      let '(public_api, internal_components) := acc in
      if negb (startswith export "_")
      then (public_api ++ [FA.path f ++ ":" ++ export]%string, internal_components)
      else (public_api, internal_components ++ [FA.path f ++ ":" ++ export]%string))
      exports (pub, int)
    = (pub ++ map (qualified f) (filter is_public exports),
       int ++ map (qualified f) (filter is_private exports)).
Proof.
  induction exports as [|e exports IH]; intros pub int; simpl.
  - now rewrite !app_nil_r.
  - unfold is_public at 1, is_private at 1.
    destruct (startswith e "_"); simpl; rewrite IH, <- app_assoc; reflexivity.
Qed.

Lemma collect_exports_outer files :
  forall pub int,
    fold_left (fun acc f =>
      fold_left (fun acc export =>
        let '(public_api, internal_components) := acc in
        if negb (startswith export "_")
        then (public_api ++ [FA.path f ++ ":" ++ export]%string, internal_components)
        else (public_api, internal_components ++ [FA.path f ++ ":" ++ export]%string))
        (FA.exports f) acc) files (pub, int)
    = (pub ++ public_rule files, int ++ internal_rule files).
Proof.
  induction files as [|f files IH]; intros pub int; simpl.
  - now rewrite !app_nil_r.
  - rewrite collect_exports_inner, IH, <- !app_assoc. reflexivity.
Qed.

Lemma collect_exports_rule files :
  collect_exports files = (public_rule files, internal_rule files).
Proof. unfold collect_exports. now rewrite collect_exports_outer. Qed.

(** *** Counting purposes *)

Lemma Counter_fold_get xs :
  forall d x,
    Dict.get x (fold_left (fun d x => match Dict.get x d with
                                      | Some n => Dict.set x (S n) d
                                      | None => Dict.set x 1 d
                                      end) xs d)
    = match Dict.get x d with
      | Some n => Some (n + count_occ string_dec xs x)
      | None => if count_occ string_dec xs x =? 0 then None
                else Some (count_occ string_dec xs x)
      end.
Proof.
  induction xs as [|y xs IH]; intros d x; simpl.
  - destruct (Dict.get x d); [now rewrite Nat.add_0_r | reflexivity].
  - rewrite IH. destruct (string_dec y x) as [->|Hne].
    + destruct (Dict.get x d) as [n|] eqn:E; rewrite get_set_same.
      * f_equal. lia.
      * reflexivity.
    + destruct (Dict.get y d) as [n|] eqn:E;
        rewrite get_set_other by assumption; reflexivity.
Qed.

Lemma Counter_get xs x :
  Dict.get x (Counter xs)
  = if count_occ string_dec xs x =? 0 then None else Some (count_occ string_dec xs x).
Proof. unfold Counter. now rewrite Counter_fold_get. Qed.

Lemma Counter_nodup xs : NoDup (Dict.keys (Counter xs)).
Proof.
  unfold Counter. apply fold_left_invariant; [|constructor].
  intros d x _ H. destruct (Dict.get x d); now apply keys_set_nodup.
Qed.

Lemma in_get_nodup {V} k (v : V) d :
  NoDup (Dict.keys d) -> In (k, v) d -> Dict.get k d = Some v.
Proof.
  induction d as [|[k' v'] d IH]; simpl; [tauto|].
  intros Hnd [[= -> ->]|Hin].
  - now rewrite String.eqb_refl.
  - inversion Hnd as [|? ? Hnot Hnd']; subst.
    destruct (String.eqb_spec k' k) as [->|Hne]; [|now apply IH].
    exfalso. apply Hnot. apply in_map_iff. now exists (k, v).
Qed.

Lemma max_item_spec items :
  forall best,
    let top := max_item best items in
    In top (best :: items)
    /\ forall it, In it (best :: items) -> snd it <= snd top.
Proof.
  induction items as [|it items IH]; intros best; simpl.
  - split; [now left|]. intros it [<-|[]]. lia.
  - destruct (IH (if snd best <? snd it then it else best)) as [Hin Hmax].
    split.
    + destruct Hin as [Hin|Hin]; [|now right; right].
      rewrite <- Hin. destruct (snd best <? snd it); [right|]; now left.
    + intros it' Hit'.
      assert (Hb : snd best <= snd (max_item (if snd best <? snd it then it else best) items)
                   /\ snd it <= snd (max_item (if snd best <? snd it then it else best) items)).
      { pose proof (Hmax _ (or_introl eq_refl)) as H0.
        destruct (Nat.ltb_spec (snd best) (snd it)); lia. }
      destruct Hit' as [<-|[<-|Hit']]; [lia | lia |].
      apply Hmax. now right.
Qed.

(** The most common purpose is one of the purposes, and none occurs more
    often. *)
Lemma most_common_spec p ps :
  exists top,
    most_common_1 (Counter (p :: ps)) = [top]
    /\ In (fst top) (p :: ps)
    /\ forall q, count_occ string_dec (p :: ps) q
                 <= count_occ string_dec (p :: ps) (fst top).
Proof.
  pose proof (Counter_not_nil p ps) as Hne.
  pose proof (Counter_nodup (p :: ps)) as Hnd.
  pose proof (Counter_get (p :: ps)) as Hget.
  destruct (Counter (p :: ps)) as [|it its] eqn:E; [congruence|].
  unfold most_common_1. destruct (max_item_spec its it) as [Hin Hmax].
  set (top := max_item it its) in *. exists top. split; [reflexivity|].
  assert (Htop : Dict.get (fst top) (it :: its) = Some (snd top)).
  { apply in_get_nodup; [assumption|]. now destruct top. }
  rewrite Hget in Htop.
  destruct (Nat.eqb_spec (count_occ string_dec (p :: ps) (fst top)) 0) as [|Hpos];
    [discriminate|].
  injection Htop as Htop. split.
  - apply (count_occ_In string_dec). lia.
  - intros q. specialize (Hget q).
    destruct (Nat.eqb_spec (count_occ string_dec (p :: ps) q) 0) as [Hz|Hq]; [lia|].
    apply get_some_in in Hget. specialize (Hmax _ Hget). simpl in *. lia.
Qed.

(** *** One iteration, and the loop *)

Lemma module_step_rule modules d files :
  exists purpose,
    module_step modules (d, files)
    = Ok (if skipped d files then modules
          else modules ++ [ModuleInfo.mk (name_rule d) d (map FA.path files) purpose
                             (firstn 20 (public_rule files))
                             (firstn 10 (internal_rule files))])
    /\ match purposes_of files with
       | [] => purpose = default_purpose files
       | ps => In purpose ps
               /\ forall q, count_occ string_dec ps q <= count_occ string_dec ps purpose
       end.
Proof.
  unfold module_step, skipped.
  destruct (String.eqb d "." && (List.length files <? 3)) eqn:Hs.
  - destruct (purposes_of files) as [|p ps] eqn:E.
    + exists (default_purpose files). split; reflexivity.
    + destruct (most_common_spec p ps) as (top & _ & Hin & Hmax).
      exists (fst top). split; [reflexivity | split; assumption].
  - rewrite collect_exports_rule.
    fold (stated). change (map FA.purpose (filter _ files)) with (purposes_of files).
    destruct (purposes_of files) as [|p ps] eqn:E.
    + exists (default_purpose files). split; reflexivity.
    + destruct (most_common_spec p ps) as (top & Htop & Hin & Hmax).
      exists (fst top). rewrite Htop. split; [reflexivity | split; assumption].
Qed.

Lemma for_each_describes items :
  forall acc, exists ms,
    for_each items module_step acc = Ok (acc ++ ms)
    /\ Forall2 describes (filter taken items) ms.
Proof.
  induction items as [|[d files] items IH]; intros acc.
  - exists []. split; [simpl; now rewrite app_nil_r | constructor].
  - cbn [for_each filter].
    destruct (module_step_rule acc d files) as (purpose & -> & Hp). cbn [bind].
    unfold taken at 1. cbn [fst snd].
    destruct (skipped d files); cbn [negb].
    + apply IH.
    + destruct (IH (acc ++ [ModuleInfo.mk (name_rule d) d (map FA.path files) purpose
                              (firstn 20 (public_rule files))
                              (firstn 10 (internal_rule files))]))
        as (ms & -> & HF).
      eexists. split; [now rewrite <- app_assoc|].
      constructor; [|exact HF]. simpl. repeat (split; [reflexivity|]).
      destruct (purposes_of files); assumption.
Qed.

Lemma identify_modules_described files repository_path :
  exists modules,
    identify_modules files repository_path = Ok modules
    /\ Forall2 describes (filter taken (group_by_dir files)) modules.
Proof.
  unfold identify_modules.
  destruct (for_each_describes (group_by_dir files) []) as (ms & -> & HF).
  now exists ms.
Qed.

(** The groups are the directories that hold a file, each with its files
    in input order. *)
Lemma group_items files d fs :
  In (d, fs) (group_by_dir files) <-> fs = members files d /\ fs <> [].
Proof.
  destruct (group_by_dir_spec files) as [Hnd Hget]. split.
  - intros Hin. apply (in_get_nodup _ _ _ Hnd) in Hin. rewrite Hget in Hin.
    destruct (members files d); [discriminate|]. injection Hin as <-.
    split; [reflexivity | discriminate].
  - intros [-> Hne]. apply get_some_in. rewrite Hget.
    destruct (members files d); [congruence | reflexivity].
Qed.

Lemma in_firstn {A} n (l : list A) x : In x (firstn n l) -> In x l.
Proof.
  revert l. induction n as [|n IH]; intros [|y l]; simpl; try tauto.
  intros [->|H]; [now left | right; now apply IH].
Qed.

Lemma Forall2_in_right {A B} (R : A -> B -> Prop) l1 l2 :
  Forall2 R l1 l2 -> forall y, In y l2 -> exists x, In x l1 /\ R x y.
Proof.
  induction 1 as [|x y l1 l2 HR HF IH]; intros z; simpl; [tauto|].
  intros [<-|Hz]; [eauto|]. destruct (IH z Hz) as (x' & Hx & Hr). eauto.
Qed.

Lemma Forall2_in_left {A B} (R : A -> B -> Prop) l1 l2 :
  Forall2 R l1 l2 -> forall x, In x l1 -> exists y, In y l2 /\ R x y.
Proof.
  induction 1 as [|x y l1 l2 HR HF IH]; intros z; simpl; [tauto|].
  intros [<-|Hz]; [eauto|]. destruct (IH z Hz) as (y' & Hy & Hr). eauto.
Qed.

Lemma nodup_filter_keys {V} (f : string * V -> bool) (l : Dict.t V) :
  NoDup (Dict.keys l) -> NoDup (Dict.keys (filter f l)).
Proof.
  unfold Dict.keys. induction l as [|[k v] l IH]; simpl; [constructor|].
  intros Hnd. inversion Hnd as [|? ? Hnot Hnd']; subst.
  destruct (f (k, v)); simpl; [|now apply IH]. constructor; [|now apply IH].
  intros Hin. apply Hnot. apply in_map_iff in Hin as ([k' v'] & <- & Hin).
  apply filter_In in Hin as [Hin _]. apply in_map_iff. now exists (k', v').
Qed.

Lemma described_paths items ms :
  Forall2 describes items ms -> map ModuleInfo.path ms = Dict.keys items.
Proof.
  induction 1 as [|[d fs] m items ms (_ & Hp & _) HF IH]; simpl; [reflexivity|].
  now rewrite Hp, IH.
Qed.

(** Every module of the result is the record of a directory that holds a
    file and is not the small root group. *)
Lemma module_origin files modules m :
  Forall2 describes (filter taken (group_by_dir files)) modules ->
  In m modules ->
  describes (ModuleInfo.path m, members files (ModuleInfo.path m)) m
  /\ members files (ModuleInfo.path m) <> []
  /\ skipped (ModuleInfo.path m) (members files (ModuleInfo.path m)) = false.
Proof.
  intros HF Hin. destruct (Forall2_in_right _ _ _ HF m Hin) as ([d fs] & Hit & Hd).
  apply filter_In in Hit as [Hit Htaken].
  apply group_items in Hit as [-> Hne].
  assert (Hp : ModuleInfo.path m = d) by (simpl in Hd; tauto). rewrite Hp.
  split; [exact Hd|]. split; [exact Hne|].
  unfold taken in Htaken. simpl in Htaken. now destruct (skipped d (members files d)).
Qed.

End ModuleFacts.

Module ModuleProps.
Import PyStr ModuleAnalyzer EdgeRules GroupInv GroupFacts ModuleRules ModuleFacts.

(** X12. [identify_modules] returns, and no two modules of its result have
    the same path.  A module lists exactly the files of its directory, in
    input order, and at least one; its name is "root" for the directory
    "." and otherwise the path with "/" and "\" turned into ".".  Every
    input file belongs to the module of its directory, except the files of
    a root group of fewer than 3 files, which belong to no module. *)
Theorem identify_modules_one_module_per_directory
    (files : list FA.t) (repository_path : string) :
  exists modules,
    identify_modules files repository_path = Ok modules
    /\ NoDup (map ModuleInfo.path modules)
    /\ (forall m, In m modules ->
          ModuleInfo.files m = map FA.path (members files (ModuleInfo.path m))
          /\ ModuleInfo.files m <> []
          /\ ModuleInfo.name m = name_rule (ModuleInfo.path m))
    /\ (forall f, In f files ->
          (dir_of f <> "." \/ 3 <= List.length (members files ".")) ->
          exists m, In m modules /\ ModuleInfo.path m = dir_of f
                    /\ In (FA.path f) (ModuleInfo.files m))
    /\ (List.length (members files ".") < 3 ->
        forall m, In m modules -> ModuleInfo.path m <> ".").
Proof.
  destruct (identify_modules_described files repository_path) as (modules & Hrun & HF).
  exists modules. split; [exact Hrun|]. split; [|split; [|split]].
  - rewrite (described_paths _ _ HF). apply nodup_filter_keys.
    apply group_by_dir_spec.
  - intros m Hm. destruct (module_origin files modules m HF Hm)
      as ((Hn & _ & Hfiles & _) & Hne & _).
    rewrite Hfiles. repeat split; [|exact Hn].
    destruct (members files (ModuleInfo.path m)); [congruence | discriminate].
  - intros f Hf Hkept.
    assert (Hmem : In f (members files (dir_of f))).
    { apply filter_In. split; [assumption | apply String.eqb_refl]. }
    assert (Hit : In (dir_of f, members files (dir_of f))
                     (filter taken (group_by_dir files))).
    { apply filter_In. split.
      - apply group_items. split; [reflexivity|].
        destruct (members files (dir_of f)); [destruct Hmem | discriminate].
      - unfold taken, skipped. simpl.
        destruct (String.eqb_spec (dir_of f) ".") as [E|E]; [|reflexivity].
        destruct Hkept as [Hd|Hlen]; [contradiction|].
        rewrite E. simpl. apply negb_true_iff, Nat.ltb_ge. exact Hlen. }
    destruct (Forall2_in_left _ _ _ HF _ Hit) as (m & Hm & _ & Hp & Hfiles & _).
    exists m. split; [exact Hm|]. split; [exact Hp|].
    rewrite Hfiles. now apply in_map.
  - intros Hlt m Hm Hp.
    destruct (module_origin files modules m HF Hm) as (_ & _ & Hs).
    rewrite Hp in Hs. unfold skipped in Hs. simpl in Hs.
    apply Nat.ltb_lt in Hlt. rewrite Hlt in Hs. discriminate.
Qed.

Lemma identify_modules_one_module_per_directory_witness :
  exists modules,
    identify_modules Samples.repo "/srv/repo" = Ok modules
    /\ (exists m, In m modules /\ ModuleInfo.path m = "a"
                  /\ In "a/d.py" (ModuleInfo.files m))
    /\ forall m, In m modules -> ModuleInfo.path m <> ".".
Proof.
  destruct (identify_modules_one_module_per_directory Samples.repo "/srv/repo")
    as (modules & Hrun & _ & _ & Hcover & Hroot).
  exists modules. split; [exact Hrun|]. split.
  - apply (Hcover (Samples.record "a/d.py" "Unknown"
                     [ImportInfo.mk "zzz" [] false false] [] [])).
    + simpl. tauto.
    + left. discriminate.
  - apply Hroot. vm_compute. lia.
Defined.

(** X13. In every module of the result, [public_api] is the first 20 and
    [internal_components] the first 10 of the module's exports written
    path:name, taken file by file in input order: the names that do not
    start with an underscore on one side, those that do on the other. *)
Theorem module_api_lists (files : list FA.t) (repository_path : string)
    (modules : list ModuleInfo.t) (m : ModuleInfo.t) :
  identify_modules files repository_path = Ok modules ->
  In m modules ->
  let members := members files (ModuleInfo.path m) in
  ModuleInfo.public_api m = firstn 20 (public_rule members)
  /\ ModuleInfo.internal_components m = firstn 10 (internal_rule members)
  /\ List.length (ModuleInfo.public_api m) <= 20
  /\ List.length (ModuleInfo.internal_components m) <= 10
  /\ (forall entry, In entry (ModuleInfo.public_api m) ->
        exists f export, In f files /\ dir_of f = ModuleInfo.path m
                         /\ In export (FA.exports f)
                         /\ startswith export "_" = false
                         /\ entry = (FA.path f ++ ":" ++ export)%string)
  /\ (forall entry, In entry (ModuleInfo.internal_components m) ->
        exists f export, In f files /\ dir_of f = ModuleInfo.path m
                         /\ In export (FA.exports f)
                         /\ startswith export "_" = true
                         /\ entry = (FA.path f ++ ":" ++ export)%string).
Proof.
  intros Hrun Hm.
  destruct (identify_modules_described files repository_path) as (modules' & Hrun' & HF).
  rewrite Hrun in Hrun'. injection Hrun' as <-.
  destruct (module_origin files modules m HF Hm)
    as ((_ & _ & _ & Hpub & Hint & _) & _ & _).
  cbv zeta. rewrite Hpub, Hint.
  split; [reflexivity|]. split; [reflexivity|].
  split; [apply firstn_le_length|]. split; [apply firstn_le_length|].
  split; intros entry Hin; apply in_firstn in Hin;
    apply in_flat_map in Hin as (f & Hf & Hin);
    apply in_map_iff in Hin as (export & <- & Hin);
    apply filter_In in Hin as [Hin Hp];
    apply filter_In in Hf as [Hf Hd]; apply String.eqb_eq in Hd;
    exists f, export; repeat split; auto.
  unfold is_public in Hp. now apply negb_true_iff in Hp.
Qed.

Lemma module_api_lists_witness :
  exists m,
    identify_modules Samples.repo "/srv/repo" = Ok [m]
    /\ ModuleInfo.public_api m = ["a/b.py:B"; "a/c.py:A"]
    /\ ModuleInfo.internal_components m = ["a/b.py:_p"].
Proof.
  eexists. split; [reflexivity|].
  destruct (module_api_lists Samples.repo "/srv/repo" _ _ eq_refl (or_introl eq_refl))
    as (Hpub & Hint & _).
  split; [exact Hpub | exact Hint].
Defined.

(** X14. The purpose of a module is the purpose stated most often among
    its files, a purpose that is empty or "Unknown" not being counted;
    when no file states one it is "Module containing N files".  So the
    purpose of a module is never "Unknown". *)
Theorem module_purpose_is_most_frequent (files : list FA.t) (repository_path : string)
    (modules : list ModuleInfo.t) (m : ModuleInfo.t) :
  identify_modules files repository_path = Ok modules ->
  In m modules ->
  let members := members files (ModuleInfo.path m) in
  (purposes_of members = [] ->
   ModuleInfo.purpose m
   = ("Module containing " ++ of_nat (List.length (ModuleInfo.files m)) ++ " files")%string)
  /\ (purposes_of members <> [] ->
      In (ModuleInfo.purpose m) (purposes_of members)
      /\ forall q, count_occ string_dec (purposes_of members) q
                   <= count_occ string_dec (purposes_of members) (ModuleInfo.purpose m))
  /\ ModuleInfo.purpose m <> "Unknown".
Proof.
  intros Hrun Hm.
  destruct (identify_modules_described files repository_path) as (modules' & Hrun' & HF).
  rewrite Hrun in Hrun'. injection Hrun' as <-.
  destruct (module_origin files modules m HF Hm)
    as ((_ & _ & Hfiles & _ & _ & Hp) & _ & _).
  cbv zeta.
  destruct (purposes_of (members files (ModuleInfo.path m))) as [|p ps] eqn:E.
  - split; [|split].
    + intros _. rewrite Hp, Hfiles, length_map. reflexivity.
    + congruence.
    + rewrite Hp. unfold default_purpose. discriminate.
  - destruct Hp as [Hin Hmax]. split; [discriminate|]. split; [now split|].
    rewrite <- E in Hin. unfold purposes_of in Hin.
    apply in_map_iff in Hin as (f & Hf & Hin). apply filter_In in Hin as [_ Hs].
    unfold stated in Hs. apply andb_true_iff in Hs as [_ Hs].
    rewrite <- Hf. intros Heq. rewrite Heq in Hs. discriminate.
Qed.

Lemma module_purpose_is_most_frequent_witness :
  exists m,
    identify_modules Samples.repo "/srv/repo" = Ok [m]
    /\ ModuleInfo.purpose m <> "Unknown".
Proof.
  eexists. split; [reflexivity|].
  apply (module_purpose_is_most_frequent Samples.repo "/srv/repo" _ _ eq_refl
           (or_introl eq_refl)).
Defined.

End ModuleProps.

(** ** More about the local analyzer *)

Module RecordFacts.
Import PyStr Re ReInv ReFacts FileAnalyzer AnalyzerRules AnalyzerInv.
Import AnalyzerFacts AnalyzerLoops RecordRules.

Lemma length_split c s : List.length (split c s) = count c s + 1.
Proof.
  induction s as [|a t IH]; simpl; [reflexivity|].
  destruct (Ascii.eqb a c); simpl; [now rewrite IH|].
  destruct (split c t) as [|w ws]; simpl in *; lia.
Qed.

Lemma count_substring_le c s : forall n, count c (substring 0 n s) <= count c s.
Proof.
  induction s as [|a t IH]; intros [|n]; simpl; try lia.
  specialize (IH n). lia.
Qed.

(** A line number computed from a position is a line of the file. *)
Lemma line_of_in_file content start : in_file content (line_of content start).
Proof.
  unfold in_file, line_of, line_count. rewrite length_split.
  pose proof (count_substring_le newline content start). lia.
Qed.

Lemma Forall_snoc {A} (P : A -> Prop) l x : Forall P l -> P x -> Forall P (l ++ [x]).
Proof. intros Hl Hx. apply Forall_app. split; [assumption | now constructor]. Qed.

Lemma from_import_ok module names :
  import_ok (ImportInfo.mk module names (startswith module ".")
                           (negb (startswith module "."))).
Proof.
  unfold import_ok. simpl. destruct (startswith module "."); simpl; tauto.
Qed.

Lemma startswith_contains s p : startswith s p = true -> contains p s = true.
Proof. unfold startswith. intros H. destruct s; cbn [contains]; now rewrite H. Qed.

Lemma plain_import_ok module :
  import_ok (ImportInfo.mk module [] false (negb (contains "." module))).
Proof.
  unfold import_ok. simpl. destruct (contains "." module) eqn:E; simpl; [tauto|].
  right. left. repeat split.
  destruct (startswith module ".") eqn:S; [|reflexivity].
  apply startswith_contains in S. congruence.
Qed.

(** *** Python *)

Lemma py_import_shape content lines l :
  shaped content l ->
  exists l', for_each lines py_import_step l = Ok l' /\ shaped content l'.
Proof.
  intros Hl. apply for_each_invariant; [exact Hl|].
  clear l Hl. intros line l (Hi & Hc & Hf) _. unfold py_import_step.
  destruct (match_ py_import line) as [m|] eqn:E1.
  - destruct (match_group 1 _ _ _ E1 eq_refl) as (s1 & ->). simpl.
    destruct (match_ py_from line) as [m2|] eqn:E2.
    + destruct (match_group 1 _ _ _ E2 eq_refl) as (s2 & ->).
      destruct (match_group 2 _ _ _ E2 eq_refl) as (s3 & ->). simpl.
      eexists. split; [reflexivity|]. repeat split; simpl; try assumption.
      apply Forall_snoc; [apply Forall_snoc|];
        auto using plain_import_ok, from_import_ok.
    + eexists. split; [reflexivity|]. repeat split; simpl; try assumption.
      apply Forall_snoc; auto using plain_import_ok.
  - simpl. destruct (match_ py_from line) as [m2|] eqn:E2.
    + destruct (match_group 1 _ _ _ E2 eq_refl) as (s2 & ->).
      destruct (match_group 2 _ _ _ E2 eq_refl) as (s3 & ->). simpl.
      eexists. split; [reflexivity|]. repeat split; simpl; try assumption.
      apply Forall_snoc; auto using from_import_ok.
    + exists l. split; [reflexivity | now repeat split].
Qed.

Lemma py_class_shape content l :
  shaped content l ->
  exists l', for_each (finditer true class_pattern content) (py_class_step content) l = Ok l'
             /\ shaped content l'.
Proof.
  intros Hl. apply for_each_invariant; [exact Hl|].
  clear l Hl. intros m l (Hi & Hc & Hf) Hm. unfold py_class_step.
  found_group Hm 1. eexists. split; [reflexivity|].
  repeat split; simpl; try assumption.
  apply Forall_snoc; [assumption|].
  repeat split; simpl; apply line_of_in_file.
Qed.

Lemma py_function_shape content l :
  shaped content l ->
  exists l', for_each (finditer true func_pattern content) (py_function_step content) l = Ok l'
             /\ shaped content l'.
Proof.
  intros Hl. apply for_each_invariant; [exact Hl|].
  clear l Hl. intros m l (Hi & Hc & Hf) Hm. unfold py_function_step.
  destruct (params_ok (or_empty (group m 2))) as (ps & ->). simpl.
  rewrite (anchored_indent content func_pattern m eq_refl Hm).
  found_group Hm 1.
  assert (Hnew : Forall (function_ok content)
                   (functions l ++ [FunctionInfo.mk s (line_of content (start m)) ps
                                      (group m 3) None ("Function " ++ s) "low" []])).
  { apply Forall_snoc; [assumption|]. repeat split; simpl; apply line_of_in_file. }
  destruct (startswith s "_"); simpl; eexists; (split; [reflexivity|]);
    repeat split; simpl; assumption.
Qed.

Lemma py_constant_shape content l :
  shaped content l ->
  exists l', for_each (finditer true const_pattern content) py_constant_step l = Ok l'
             /\ shaped content l'.
Proof.
  intros Hl. apply for_each_invariant; [exact Hl|].
  clear l Hl. intros m l Hl Hm. unfold py_constant_step.
  found_group Hm 1. eexists. split; [reflexivity | exact Hl].
Qed.

Lemma analyze_python_shaped content lines l :
  shaped content l ->
  exists l', analyze_python content lines l = Ok l' /\ shaped content l'.
Proof.
  intros Hl. unfold analyze_python.
  destruct (py_import_shape content lines l Hl) as (l1 & -> & H1). cbn [bind].
  destruct (py_class_shape content l1 H1) as (l2 & -> & H2). cbn [bind].
  destruct (py_function_shape content l2 H2) as (l3 & -> & H3). cbn [bind].
  apply (py_constant_shape content l3 H3).
Qed.

(** *** JavaScript and TypeScript *)

Lemma analyze_js_shaped content l :
  js_shaped content l ->
  exists l', analyze_js content l = Ok l' /\ js_shaped content l'.
Proof.
  intros Hl. unfold analyze_js.
  destruct (for_each_invariant (js_shaped content) js_import_step
              (finditer false import_pattern content) l Hl) as (l1 & -> & H1).
  { intros m st ((Hi & Hc & Hf) & Hb) Hm. unfold js_import_step. found_group Hm 3.
    eexists. split; [reflexivity|]. repeat split; simpl; try assumption.
    apply Forall_snoc; auto using from_import_ok. }
  cbn [bind].
  destruct (for_each_invariant (js_shaped content) (js_class_step content)
              (finditer false js_class_pattern content) l1 H1) as (l2 & -> & H2).
  { intros m st ((Hi & Hc & Hf) & Hb) Hm. unfold js_class_step. found_group Hm 1.
    eexists. split; [reflexivity|]. repeat split; simpl; try assumption.
    apply Forall_snoc; [assumption|].
    repeat split; simpl; apply line_of_in_file. }
  cbn [bind].
  destruct (for_each_invariant (js_shaped content)
              (fun l pattern =>
                 for_each (finditer false pattern content) (js_function_step content) l)
              func_patterns l2 H2) as (l3 & -> & H3).
  { intros pattern st Hst Hp.
    apply for_each_invariant; [exact Hst|].
    intros m st' ((Hi & Hc & Hf) & Hb) Hm. unfold js_function_step.
    destruct Hp as [<-|[<-|[]]]; found_group Hm 1;
      (eexists; split; [reflexivity|]; repeat split; simpl; try assumption;
       apply Forall_snoc; try assumption; repeat split; simpl; apply line_of_in_file). }
  cbn [bind].
  apply (for_each_invariant (js_shaped content) js_export_step
           (finditer false export_pattern content) l3 H3).
  intros m st Hst Hm. unfold js_export_step. found_group Hm 1.
  eexists. split; [reflexivity | exact Hst].
Qed.

(** *** Every language *)

Lemma extract_shaped content language :
  exists l,
    extract content (split newline content) language (mkLists [] [] [] [] []) = Ok l
    /\ shaped content l
    /\ (is_js language = true -> Forall bare (functions l)).
Proof.
  assert (H0 : shaped content (mkLists [] [] [] [] [])) by (repeat split; constructor).
  unfold extract, is_js. destruct language as [lang|].
  - destruct (String.eqb lang "python"); simpl.
    + destruct (analyze_python_shaped content (split newline content) _ H0)
        as (l & Hl & Hs).
      exists l. split; [exact Hl|]. split; [exact Hs | discriminate].
    + destruct (String.eqb lang "javascript" || String.eqb lang "typescript").
      * destruct (analyze_js_shaped content (mkLists [] [] [] [] [])) as (l & Hl & Hs & Hb).
        { split; [exact H0 | constructor]. }
        exists l. split; [exact Hl|]. split; [exact Hs | intros _; exact Hb].
      * eexists. split; [reflexivity|]. split; [exact H0 | discriminate].
  - eexists. split; [reflexivity|]. split; [exact H0 | discriminate].
Qed.

End RecordFacts.

Module RecordProps.
Import PyStr Re FileAnalyzer AnalyzerRules AnalyzerLoops RecordRules RecordFacts.

(** The record and the lists it was made from. *)
Lemma analyzed file_path content language :
  exists l h,
    analyze_file_locally file_path content language = Ok h
    /\ shaped content l
    /\ (is_js language = true -> Forall bare (functions l))
    /\ FA.imports h = imports l /\ FA.classes h = classes l
    /\ FA.functions h = functions l
    /\ FA.dependencies h = map ImportInfo.module (filter ImportInfo.is_external (imports l))
    /\ FA.key_insights h = [].
Proof.
  destruct (extract_shaped content language) as (l & Hl & Hs & Hb).
  exists l. unfold analyze_file_locally. rewrite Hl. simpl.
  unfold FA.create. rewrite complexity_in_bounds.
  eexists. split; [reflexivity|]. simpl.
  split; [exact Hs|]. split; [exact Hb|]. repeat split.
Qed.

(** X15. Whatever the content and the language, every class and every
    function that [analyze_file_locally] records carries a line number
    between 1 and the number of lines of the content. *)
Theorem line_numbers_are_lines_of_the_file
    (file_path content : string) (language : option string) :
  exists h,
    analyze_file_locally file_path content language = Ok h
    /\ Forall (fun c => 1 <= ClassInfo.line_number c <= line_count content) (FA.classes h)
    /\ Forall (fun f => 1 <= FunctionInfo.line_number f <= line_count content)
              (FA.functions h).
Proof.
  destruct (analyzed file_path content language)
    as (l & h & Hrun & (_ & Hc & Hf) & _ & _ & Ec & Ef & _).
  exists h. split; [exact Hrun|]. rewrite Ec, Ef. split.
  - eapply Forall_impl; [|exact Hc]. intros c Hok. apply Hok.
  - eapply Forall_impl; [|exact Hf]. intros f Hok. apply Hok.
Qed.

(** X16. Every import that [analyze_file_locally] records is of one of
    three kinds: relative and not external, its module starting with a
    dot; external and not relative, its module not starting with a dot; or
    neither, its module holding a dot (a dotted module named by a plain
    [import] statement).  The dependencies are the modules of the external
    imports, so none of them starts with a dot. *)
Theorem imports_are_relative_external_or_dotted
    (file_path content : string) (language : option string) :
  exists h,
    analyze_file_locally file_path content language = Ok h
    /\ Forall import_ok (FA.imports h)
    /\ FA.dependencies h
       = map ImportInfo.module (filter ImportInfo.is_external (FA.imports h))
    /\ Forall (fun d => startswith d "." = false) (FA.dependencies h).
Proof.
  destruct (analyzed file_path content language)
    as (l & h & Hrun & (Hi & _ & _) & _ & Ei & _ & _ & Ed & _).
  exists h. split; [exact Hrun|]. rewrite Ed, Ei.
  split; [exact Hi|]. split; [reflexivity|].
  apply Forall_forall. intros d Hd.
  apply in_map_iff in Hd as (imp & <- & Hin). apply filter_In in Hin as [Hin Hext].
  rewrite Forall_forall in Hi.
  destruct (Hi imp Hin) as [(_ & H & _)|[(_ & _ & H)|(_ & H & _)]]; congruence.
Qed.

(** X17. [analyze_file_locally] records nothing of the body of a class or
    of a function: no docstring, no method, no attribute, no call, the
    complexity "low" and a description made of the name alone; it gives no
    key insight.  For JavaScript and TypeScript a function record has in
    addition no parameter and no return type. *)
Theorem records_hold_headers_only
    (file_path content : string) (language : option string) :
  exists h,
    analyze_file_locally file_path content language = Ok h
    /\ Forall (fun c => ClassInfo.docstring c = None
                        /\ ClassInfo.methods c = []
                        /\ ClassInfo.attributes c = []
                        /\ ClassInfo.description c = ("Class " ++ ClassInfo.name c)%string)
              (FA.classes h)
    /\ Forall (fun f => FunctionInfo.docstring f = None
                        /\ FunctionInfo.calls f = []
                        /\ FunctionInfo.complexity f = "low"
                        /\ FunctionInfo.description f
                           = ("Function " ++ FunctionInfo.name f)%string)
              (FA.functions h)
    /\ FA.key_insights h = []
    /\ (language = Some "javascript" \/ language = Some "typescript" ->
        Forall (fun f => FunctionInfo.parameters f = []
                         /\ FunctionInfo.return_type f = None) (FA.functions h)).
Proof.
  destruct (analyzed file_path content language)
    as (l & h & Hrun & (_ & Hc & Hf) & Hb & _ & Ec & Ef & _ & Ek).
  exists h. split; [exact Hrun|]. rewrite Ec, Ef.
  split; [|split; [|split; [exact Ek |]]].
  3:{ intros [-> | ->]; now apply Hb. }
  - eapply Forall_impl; [|exact Hc]. intros c (_ & Hd & Hs & Hm & Ha). auto.
  - eapply Forall_impl; [|exact Hf]. intros f (_ & Hd & Hs & Hx & Hcalls). auto.
Qed.

Lemma records_hold_headers_only_witness :
  exists h,
    analyze_file_locally "app.js" "export function load(path, mode) {}"
                         (Some "javascript") = Ok h
    /\ map FunctionInfo.name (FA.functions h) = ["load"]
    /\ Forall (fun f => FunctionInfo.parameters f = []
                        /\ FunctionInfo.return_type f = None) (FA.functions h).
Proof.
  destruct (records_hold_headers_only "app.js" "export function load(path, mode) {}"
              (Some "javascript")) as (h & Hrun & _ & _ & _ & Hjs).
  exists h. split; [exact Hrun|].
  split; [|apply Hjs; now left].
  vm_compute in Hrun. injection Hrun as <-. reflexivity.
Defined.

End RecordProps.

(** ** Reading files and analysing them in a batch *)

Module FileFacts.
Import PyStr PyText FileTools.

Lemma join_all_cons l ls : join_all (l :: ls) = (l ++ join_all ls)%string.
Proof.
  unfold join_all. destruct ls as [|l' ls]; simpl; [|reflexivity].
  induction l; simpl; congruence.
Qed.

Lemma join_all_app l1 l2 : join_all (l1 ++ l2) = (join_all l1 ++ join_all l2)%string.
Proof.
  induction l1 as [|l l1 IH]; [reflexivity|].
  change ((l :: l1) ++ l2) with (l :: (l1 ++ l2)).
  rewrite !join_all_cons, IH. induction l; simpl; congruence.
Qed.

(** Cutting a text into its lines and joining them gives the text. *)
Lemma join_lines s : join_all (lines_keepends s) = s.
Proof.
  induction s as [|c t IH]; [reflexivity|]. cbn [lines_keepends].
  destruct (Ascii.eqb c newline).
  - rewrite join_all_cons, IH. reflexivity.
  - destruct (lines_keepends t) as [|l ls].
    + cbn in IH. subst t. reflexivity.
    + rewrite join_all_cons in *. simpl. now rewrite IH.
Qed.

Lemma lines_have_one_newline s :
  Forall (fun l => count newline l <= 1) (lines_keepends s).
Proof.
  induction s as [|c t IH]; [constructor|]. cbn [lines_keepends].
  destruct (Ascii.eqb c newline) eqn:E.
  - constructor; [|exact IH]. simpl. rewrite E. lia.
  - destruct (lines_keepends t) as [|l ls].
    + constructor; [|constructor]. simpl. rewrite E. lia.
    + inversion IH; subst. constructor; [|assumption]. simpl. rewrite E. lia.
Qed.

Lemma length_lines s : List.length (lines_keepends s) <= count newline s + 1.
Proof.
  induction s as [|c t IH]; simpl; [lia|].
  destruct (Ascii.eqb c newline); simpl; [lia|].
  destruct (lines_keepends t); simpl in *; lia.
Qed.

Lemma count_join_firstn k ls :
  Forall (fun l => count newline l <= 1) ls ->
  count newline (join_all (firstn k ls)) <= k.
Proof.
  intros H. revert k. induction H as [|l ls Hl Hls IH]; intros [|k]; simpl; try lia.
  rewrite join_all_cons, TextFacts.count_append. specialize (IH k). lia.
Qed.

(** The loop with its counter and its [break] keeps the first lines. *)
Lemma take_lines_firstn max_lines f :
  forall i lines,
    take_lines i max_lines f lines = lines ++ firstn (Z.to_nat (max_lines - i)) f.
Proof.
  induction f as [|line rest IH]; intros i lines; simpl.
  - now rewrite firstn_nil, app_nil_r.
  - destruct (Z.leb_spec max_lines i) as [Hle|Hlt].
    + replace (Z.to_nat (max_lines - i)) with 0 by lia. simpl. now rewrite app_nil_r.
    + rewrite IH. replace (Z.to_nat (max_lines - i))
        with (S (Z.to_nat (max_lines - (i + 1)))) by lia.
      simpl. now rewrite <- app_assoc.
Qed.

Lemma prefix_append_true p s : startswith (p ++ s) p = true.
Proof. apply TextFacts.prefix_append. Qed.

(** The three refusals of [read_file] (no such path, not a file, too
    large) start with "Error:", the mark that its callers test.  The
    message for a file that could not be opened or read starts with
    "Error reading file" and does not carry that mark. *)
Lemma read_file_error_mark
    (fs : string -> Node) (path : string) (max_lines : option Z) :
  match fs path with
  | Missing | NotAFile => startswith (read_file fs path max_lines) "Error:" = true
  | File size text =>
      if (MAX_FILE_SIZE_KB * 1024 <? size)%N
      then startswith (read_file fs path max_lines) "Error:" = true
      else match text with
           | Raise e =>
               read_file fs path max_lines
               = ("Error reading file " ++ path ++ ": " ++ str_exc e)%string
               /\ startswith (read_file fs path max_lines) "Error:" = false
           | Ok _ => True
           end
  end.
Proof.
  unfold read_file. destruct (fs path) as [| |size [text|e]]; try reflexivity;
    destruct (MAX_FILE_SIZE_KB * 1024 <? size)%N; try reflexivity; auto.
Qed.

End FileFacts.

Module FileProps.
Import PyStr PyText FileTools FileFacts.

(** X18. For a file that exists, is within the size limit and can be read:
    without [max_lines], and also with [max_lines = 0], [read_file]
    returns the whole text; with a negative [max_lines] it returns the
    empty string; with [max_lines = n > 0] it returns the first [n] lines,
    a prefix of the text that holds at most [n] line ends, and the whole
    text when the text has fewer than [n] line ends. *)
Theorem read_file_max_lines
    (fs : string -> Node) (path : string) (size : N) (text : string) :
  fs path = File size (Ok text) ->
  (size <= MAX_FILE_SIZE_KB * 1024)%N ->
  read_file fs path None = text
  /\ read_file fs path (Some 0%Z) = text
  /\ (forall n, (n < 0)%Z -> read_file fs path (Some n) = "")
  /\ (forall n, (0 < n)%Z ->
        read_file fs path (Some n)
        = join_all (firstn (Z.to_nat n) (lines_keepends text))
        /\ (exists rest, text = (read_file fs path (Some n) ++ rest)%string)
        /\ count newline (read_file fs path (Some n)) <= Z.to_nat n
        /\ (count newline text < Z.to_nat n -> read_file fs path (Some n) = text)).
Proof.
  intros Hfs Hsize. unfold read_file. rewrite Hfs.
  destruct (N.ltb_spec (MAX_FILE_SIZE_KB * 1024) size) as [Hbig|_]; [lia|].
  split; [reflexivity|]. split; [reflexivity|]. split.
  - intros n Hn. destruct (Z.eqb_spec n 0) as [->|_]; [lia|].
    rewrite take_lines_firstn. replace (Z.to_nat (n - 0)) with 0 by lia. reflexivity.
  - intros n Hn. destruct (Z.eqb_spec n 0) as [->|_]; [lia|].
    rewrite take_lines_firstn, Z.sub_0_r. simpl app.
    split; [reflexivity|]. split; [|split].
    + exists (join_all (skipn (Z.to_nat n) (lines_keepends text))).
      now rewrite <- join_all_app, firstn_skipn, join_lines.
    + apply count_join_firstn, lines_have_one_newline.
    + intros Hfew. rewrite firstn_all2; [apply join_lines|].
      pose proof (length_lines text). lia.
Qed.

Lemma read_file_max_lines_witness :
  read_file (fun _ => File 9 (Ok "a
b
c")) "x.py" (Some 0%Z) = "a
b
c"
  /\ read_file (fun _ => File 9 (Ok "a
b
c")) "x.py" (Some (-1)%Z) = "".
Proof.
  destruct (read_file_max_lines (fun _ => File 9 (Ok "a
b
c")) "x.py" 9 "a
b
c" eq_refl) as (_ & H0 & Hneg & _).
  - vm_compute. discriminate.
  - split; [exact H0 | apply Hneg; lia].
Defined.

End FileProps.

Module BatchFacts.
Import PyStr PyText FileTools FileAnalyzer BatchAnalyzer BatchRules.
Import AnalyzerLoops Coordinator.

(** The local analysis returns a record for the path it was given. *)
Lemma analyze_returns file_path content language :
  exists h,
    analyze_file_locally file_path content language = Ok h
    /\ FA.path h = file_path /\ FA.key_insights h = [].
Proof.
  destruct (extract_ok content (split newline content) language) as (l & Hl).
  unfold analyze_file_locally. rewrite Hl. simpl.
  unfold FA.create. rewrite complexity_in_bounds.
  eexists. split; [reflexivity|]. split; reflexivity.
Qed.

Lemma batch_step_plain fs repository_path total results i f :
  exists r,
    batch_step fs None repository_path total results (i, f) = Ok (results ++ [r])
    /\ recorded fs repository_path f r.
Proof.
  unfold batch_step, recorded. cbv zeta.
  destruct (startswith (read_file fs (path_join repository_path (FC.path f)) None) "Error:").
  - eexists. split; [reflexivity|]. simpl. repeat split.
  - destruct (analyze_returns (FC.path f)
                (read_file fs (path_join repository_path (FC.path f)) None)
                (FC.language f)) as (h & Hh & Hp & Hk).
    exists h. rewrite Hh. simpl. repeat split; assumption.
Qed.

Lemma batch_loop_plain fs repository_path total fcs :
  forall k results,
    exists rs,
      for_each (enumerate_from k fcs) (batch_step fs None repository_path total) results
      = Ok (results ++ rs)
      /\ Forall2 (recorded fs repository_path) fcs rs.
Proof.
  induction fcs as [|f fcs IH]; intros k results; cbn [for_each enumerate_from].
  - exists []. split; [now rewrite app_nil_r | constructor].
  - destruct (batch_step_plain fs repository_path total results k f) as (r & Hr & Hrec).
    rewrite Hr. cbn [bind].
    destruct (IH (S k) (results ++ [r])) as (rs & -> & HF).
    exists (r :: rs). split; [now rewrite <- app_assoc | now constructor].
Qed.

Lemma batch_records fs files repository_path :
  exists results,
    analyze_files_batch fs None files repository_path = Ok results
    /\ Forall2 (recorded fs repository_path) (filter is_analyzable files) results.
Proof.
  unfold analyze_files_batch.
  destruct (batch_loop_plain fs repository_path
              (List.length (filter is_analyzable files))
              (filter is_analyzable files) 0 []) as (rs & Hrun & HF).
  now exists rs.
Qed.

Lemma for_each_ext {A S} (body1 body2 : S -> A -> Res S) xs :
  (forall st x, In x xs -> body1 st x = body2 st x) ->
  forall st, for_each xs body1 st = for_each xs body2 st.
Proof.
  induction xs as [|x xs IH]; intros H st; simpl; [reflexivity|].
  rewrite (H st x) by now left.
  destruct (body2 st x) as [st'|e]; simpl; [|reflexivity].
  apply IH. intros st0 y Hy. apply H. now right.
Qed.

Lemma in_enumerate_from {A} (l : list A) :
  forall k i x, In (i, x) (enumerate_from k l) -> k <= i < k + List.length l.
Proof.
  induction l as [|y l IH]; intros k i x; simpl; [tauto|].
  intros [[= <- <-]|H]; [lia|]. apply IH in H. lia.
Qed.

End BatchFacts.

Module BatchProps.
Import PyStr PyText FileTools FileFacts FileAnalyzer BatchAnalyzer BatchRules BatchFacts.
Import Coordinator.

(** X19. Without a progress callback [analyze_files_batch] returns one
    record per analyzable file (source code or configuration, with a
    language), in the order of the input and under the file's path.  The
    record of a file whose text starts with "Error:" is the read-error
    record: score 1, the message as purpose and only insight, every list
    empty; the record of any other file is its local analysis. *)
Theorem analyze_files_batch_one_record_per_file
    (fs : string -> Node) (files : list FC.t) (repository_path : string) :
  exists results,
    analyze_files_batch fs None files repository_path = Ok results
    /\ map FA.path results = map FC.path (filter is_analyzable files)
    /\ Forall2 (recorded fs repository_path) (filter is_analyzable files) results.
Proof.
  destruct (batch_records fs files repository_path) as (rs & Hrun & HF).
  exists rs. split; [exact Hrun|]. split; [|exact HF].
  clear Hrun. induction HF as [|f r fcs rs (Hp & _) _ IH]; simpl; [reflexivity|].
  now rewrite Hp, IH.
Qed.

(** X20. With fewer than 10 analyzable files the progress callback has no
    part in [analyze_files_batch]: the call returns what it returns
    without a callback, even when the callback would raise. *)
Theorem progress_callback_unused_below_ten
    (fs : string -> Node) (callback : nat -> nat -> option PyExc)
    (files : list FC.t) (repository_path : string) :
  List.length (filter is_analyzable files) < 10 ->
  analyze_files_batch fs (Some callback) files repository_path
  = analyze_files_batch fs None files repository_path.
Proof.
  intros Hlen. unfold analyze_files_batch. apply for_each_ext.
  intros st [i f] Hin. apply in_enumerate_from in Hin.
  unfold batch_step.
  destruct (startswith _ "Error:"); [reflexivity|].
  destruct (analyze_file_locally _ _ _); cbn [bind]; [|reflexivity].
  destruct (Nat.eqb_spec ((i + 1) mod 10) 0) as [E|_]; [|reflexivity].
  rewrite Nat.mod_small in E by lia. lia.
Qed.

Lemma progress_callback_unused_below_ten_witness :
  analyze_files_batch (fun _ => Missing)
    (Some (fun _ _ => Some (RuntimeError "callback")))
    [FC.mk "a.py" FileType.SOURCE_CODE (Some "python") 5 ""] "/srv/repo"
  = analyze_files_batch (fun _ => Missing) None
      [FC.mk "a.py" FileType.SOURCE_CODE (Some "python") 5 ""] "/srv/repo".
Proof.
  apply progress_callback_unused_below_ten. simpl. lia.
Defined.

(** X21. A file that exists and is small enough but cannot be opened is not
    recorded as a read error: the message of [read_file] for it starts with
    "Error reading file", not with "Error:", so the batch analyses the
    message as if it were the content of the file. *)
Theorem unopenable_file_is_analysed_as_text
    (fs : string -> Node) (files : list FC.t) (repository_path : string)
    (f : FC.t) (size : N) (e : PyExc) :
  In f files -> is_analyzable f = true ->
  fs (path_join repository_path (FC.path f)) = File size (Raise e) ->
  (size <= MAX_FILE_SIZE_KB * 1024)%N ->
  exists results r,
    analyze_files_batch fs None files repository_path = Ok results
    /\ In r results
    /\ FA.path r = FC.path f
    /\ analyze_file_locally (FC.path f)
         ("Error reading file " ++ path_join repository_path (FC.path f)
          ++ ": " ++ str_exc e) (FC.language f) = Ok r
    /\ FA.key_insights r = []
    /\ FA.raw_summary r <> "File read error".
Proof.
  intros Hin Han Hfs Hsize.
  destruct (batch_records fs files repository_path) as (results & Hrun & HF).
  assert (Hf : In f (filter is_analyzable files)) by (apply filter_In; now split).
  destruct (ModuleFacts.Forall2_in_left _ _ _ HF f Hf) as (r & Hr & Hp & Hrec).
  exists results, r. split; [exact Hrun|]. split; [exact Hr|]. split; [exact Hp|].
  pose proof (read_file_error_mark fs (path_join repository_path (FC.path f)) None) as Hmark.
  rewrite Hfs in Hmark.
  destruct (N.ltb_spec (MAX_FILE_SIZE_KB * 1024) size) as [Hbig|_]; [lia|].
  destruct Hmark as [Htext Hno]. rewrite Hno in Hrec. rewrite Htext in Hrec.
  destruct Hrec as [Hrun' Hk]. split; [exact Hrun'|]. split; [exact Hk|].
  unfold analyze_file_locally in Hrun'.
  destruct (extract _ _ _ _) as [l|]; [|discriminate]. simpl in Hrun'.
  unfold FA.create in Hrun'. destruct (_ && _)%bool; [|discriminate].
  injection Hrun' as <-. simpl. discriminate.
Qed.

Lemma unopenable_file_is_analysed_as_text_witness :
  exists results r,
    analyze_files_batch
      (fun _ => File 12 (Raise (RuntimeError "[Errno 13] Permission denied")))
      None [FC.mk "a.py" FileType.SOURCE_CODE (Some "python") 5 ""] "/srv/repo"
    = Ok results
    /\ In r results
    /\ FA.key_insights r = [] /\ FA.raw_summary r <> "File read error".
Proof.
  destruct (unopenable_file_is_analysed_as_text
              (fun _ => File 12 (Raise (RuntimeError "[Errno 13] Permission denied")))
              [FC.mk "a.py" FileType.SOURCE_CODE (Some "python") 5 ""] "/srv/repo"
              (FC.mk "a.py" FileType.SOURCE_CODE (Some "python") 5 "") 12
              (RuntimeError "[Errno 13] Permission denied")
              (or_introl eq_refl) eq_refl eq_refl)
    as (results & r & Hrun & Hin & _ & _ & Hk & Hs).
  - vm_compute. discriminate.
  - exists results, r. repeat split; assumption.
Defined.

End BatchProps.

(** ** The classification of files *)

Module DiscoveryFacts.
Import PyStr PyText Config Discovery WalkRules BatchAnalyzer.

Lemma member_in x s : member x s = true <-> In x s.
Proof.
  unfold member. rewrite existsb_exists. split.
  - intros (y & Hy & E). apply String.eqb_eq in E. now subst.
  - intros H. exists x. split; [assumption | apply String.eqb_refl].
Qed.

Lemma importance_in_range ext name file_type :
  (3 <= importance_of ext name file_type <= 9)%Z.
Proof.
  unfold importance_of.
  repeat match goal with |- context [if ?b then _ else _] => destruct b end; lia.
Qed.

Lemma classify_file_ok rel_path file :
  classify_file rel_path file
  = Ok (FC.mk rel_path
          (file_type_of (lower (snd (OsPath.splitext file))) (lower file))
          (Dict.get (lower (snd (OsPath.splitext file))) lang_map)
          (importance_of (lower (snd (OsPath.splitext file))) (lower file)
             (file_type_of (lower (snd (OsPath.splitext file))) (lower file)))
          "").
Proof.
  unfold classify_file, FC.create.
  pose proof (importance_in_range (lower (snd (OsPath.splitext file))) (lower file)
                (file_type_of (lower (snd (OsPath.splitext file))) (lower file))) as H.
  destruct (Z.leb_spec 1 (importance_of (lower (snd (OsPath.splitext file)))
                            (lower file)
                            (file_type_of (lower (snd (OsPath.splitext file)))
                               (lower file)))); [|lia].
  destruct (Z.leb_spec (importance_of (lower (snd (OsPath.splitext file)))
                          (lower file)
                          (file_type_of (lower (snd (OsPath.splitext file)))
                             (lower file))) 10); [reflexivity | lia].
Qed.

Lemma source_type ext name :
  file_type_of ext name = FileType.SOURCE_CODE <-> member ext source_extensions = true.
Proof.
  unfold file_type_of. destruct (member ext source_extensions); [tauto|].
  split; [|discriminate].
  repeat match goal with |- context [if ?b then _ else _] => destruct b end;
    discriminate.
Qed.

Lemma config_type ext name :
  file_type_of ext name = FileType.CONFIG ->
  member ext source_extensions = false /\ member ext config_extensions = true.
Proof.
  unfold file_type_of. destruct (member ext source_extensions); [discriminate|].
  destruct (member ext config_extensions); [tauto|].
  repeat match goal with |- context [if ?b then _ else _] => destruct b end;
    discriminate.
Qed.

Lemma source_has_language ext :
  member ext source_extensions = true -> Dict.get ext lang_map <> None.
Proof.
  intros H. apply member_in in H.
  repeat (destruct H as [<-|H]; [discriminate|]). destruct H.
Qed.

Lemma config_has_no_language ext :
  member ext config_extensions = true -> Dict.get ext lang_map = None.
Proof.
  intros H. apply member_in in H.
  repeat (destruct H as [<-|H]; [reflexivity|]). destruct H.
Qed.

(** *** The walk *)

Lemma Entry_induction (P : Entry -> Prop) :
  (forall name, P (FileEntry name)) ->
  (forall d sub, Forall P sub -> P (DirEntry d sub)) ->
  forall e, P e.
Proof.
  intros Hf Hd. fix IH 1. intros [name|d sub]; [apply Hf|].
  apply Hd. induction sub as [|e sub IHs]; constructor; [apply IH | exact IHs].
Qed.

Lemma files_of_spec rel_root entries rel file :
  In (rel, file) (files_of rel_root entries)
  <-> In (FileEntry file) entries /\ rel = rel_join rel_root file.
Proof.
  unfold files_of. rewrite in_flat_map. split.
  - intros ([name|d sub] & He & Hin); simpl in Hin; [|tauto].
    destruct Hin as [[= <- <-]|[]]. now split.
  - intros [He ->]. exists (FileEntry file). split; [assumption | now left].
Qed.

Lemma walk_below_spec e :
  forall rel_root rel file,
    In (rel, file) (walk_below rel_root e)
    <-> exists d sub dirs,
          e = DirEntry d sub /\ entered d = true
          /\ Located sub dirs file /\ all_entered dirs
          /\ rel = rel_path_from (rel_join rel_root d) dirs file.
Proof.
  induction e as [name|d sub IH] using Entry_induction; intros rel_root rel file.
  - simpl. split; [tauto|]. intros (d & sub & dirs & [=] & _).
  - cbn [walk_below]. destruct (entered d) eqn:E.
    + rewrite in_app_iff, files_of_spec, in_flat_map. split.
      * intros [[Hin ->]|(e & He & Hin)].
        -- exists d, sub, []. repeat split; try assumption; try constructor.
           assumption.
        -- rewrite Forall_forall in IH. apply (IH e He) in Hin
             as (d' & sub' & dirs & -> & Ed' & Hloc & Hall & ->).
           exists d, sub, (d' :: dirs). repeat split; try assumption.
           ++ econstructor; eassumption.
           ++ now constructor.
      * intros (d0 & sub0 & dirs & [= <- <-] & _ & Hloc & Hall & ->).
        inversion Hloc as [? ? Hin|? d' sub' dirs' ? Hin Hloc']; subst.
        -- left. now split.
        -- right. exists (DirEntry d' sub'). split; [assumption|].
           rewrite Forall_forall in IH. apply (IH _ Hin).
           inversion Hall; subst.
           exists d', sub', dirs'. repeat split; assumption.
    + split; [intros []|]. intros (d0 & sub0 & dirs & [= <- <-] & E' & _). congruence.
Qed.

(** The walk visits the files that lie below entered directories only. *)
Lemma walk_spec entries rel file :
  In (rel, file) (walk "" entries)
  <-> exists dirs, Located entries dirs file /\ all_entered dirs
                   /\ rel = rel_path_from "" dirs file.
Proof.
  unfold walk. rewrite in_app_iff, files_of_spec, in_flat_map. split.
  - intros [[Hin ->]|(e & He & Hin)].
    + exists []. repeat split; [now constructor | constructor].
    + apply walk_below_spec in Hin as (d & sub & dirs & -> & E & Hloc & Hall & ->).
      exists (d :: dirs). repeat split.
      * econstructor; eassumption.
      * now constructor.
  - intros (dirs & Hloc & Hall & ->).
    inversion Hloc as [? ? Hin|? d sub dirs' ? Hin Hloc']; subst.
    + left. now split.
    + right. exists (DirEntry d sub). split; [assumption|].
      apply walk_below_spec. inversion Hall; subst.
      exists d, sub, dirs'. repeat split; assumption.
Qed.

Lemma classify_loop items :
  forall acc, exists cs,
    for_each items classify_step acc = Ok (acc ++ cs)
    /\ forall c, In c cs <-> exists item, In item items /\ visible item = true
                                          /\ classify_file (fst item) (snd item) = Ok c.
Proof.
  induction items as [|[rel file] items IH]; intros acc.
  - exists []. split; [simpl; now rewrite app_nil_r|].
    intros c. split; [intros [] | intros (item & [] & _)].
  - cbn [for_each]. unfold classify_step at 1. unfold visible.
    destruct (startswith file ".") eqn:E; cbn [bind].
    + destruct (IH acc) as (cs & -> & Hcs). exists cs. split; [reflexivity|].
      intros c. rewrite Hcs. split.
      * intros (item & Hin & Hv & Hc). exists item. split; [now right | now split].
      * intros (item & [<-|Hin] & Hv & Hc); [simpl in Hv; rewrite E in Hv; discriminate|].
        exists item. now split.
    + rewrite classify_file_ok. cbn [bind].
      destruct (IH (acc ++ [FC.mk rel
          (file_type_of (lower (snd (OsPath.splitext file))) (lower file))
          (Dict.get (lower (snd (OsPath.splitext file))) lang_map)
          (importance_of (lower (snd (OsPath.splitext file))) (lower file)
             (file_type_of (lower (snd (OsPath.splitext file))) (lower file)))
          ""])) as (cs & -> & Hcs).
      eexists. split; [now rewrite <- app_assoc|].
      intros c. simpl. rewrite Hcs. split.
      * intros [<-|(item & Hin & Hv & Hc)].
        -- exists (rel, file). split; [now left|]. simpl. rewrite E.
           split; [reflexivity | apply classify_file_ok].
        -- exists item. split; [now right | now split].
      * intros (item & [<-|Hin] & Hv & Hc).
        -- left. simpl in Hc. rewrite classify_file_ok in Hc. now injection Hc.
        -- right. exists item. now split.
Qed.

End DiscoveryFacts.

Module DiscoveryProps.
Import PyStr PyText Config Discovery WalkRules BatchAnalyzer DiscoveryFacts.

(** X22. [classify_file] never fails: the importance it computes lies
    between 3 and 9.  A file typed as source code always has a language
    and a file typed as configuration never has one, so the files that
    the file analysis keeps (source code or configuration, with a
    language) are exactly the source-code files: a configuration file is
    never analysed. *)
Theorem classification_decides_analysis (rel_path file : string) :
  exists c,
    classify_file rel_path file = Ok c
    /\ FC.path c = rel_path
    /\ (3 <= FC.importance c <= 9)%Z
    /\ (FC.file_type c = FileType.SOURCE_CODE -> FC.language c <> None)
    /\ (FC.file_type c = FileType.CONFIG -> FC.language c = None)
    /\ (is_analyzable c = true <-> FC.file_type c = FileType.SOURCE_CODE).
Proof.
  eexists. split; [apply classify_file_ok|].
  cbn [FC.path FC.importance FC.file_type FC.language].
  set (ext := lower (snd (OsPath.splitext file))). set (name := lower file).
  split; [reflexivity|]. split; [apply importance_in_range|].
  assert (Hs : file_type_of ext name = FileType.SOURCE_CODE -> Dict.get ext lang_map <> None).
  { intros H. apply source_has_language. now apply source_type in H. }
  assert (Hc : file_type_of ext name = FileType.CONFIG -> Dict.get ext lang_map = None).
  { intros H. apply config_has_no_language. now apply config_type in H. }
  split; [exact Hs|]. split; [exact Hc|].
  unfold is_analyzable. cbn [FC.file_type FC.language]. split.
  - intros H. apply andb_true_iff in H as [Ht Hl].
    destruct (file_type_of ext name) eqn:E; try discriminate; [reflexivity|].
    rewrite Hc in Hl by reflexivity. discriminate.
  - intros H. specialize (Hs H). rewrite H. cbn [FileType.eqb orb andb].
    destruct (Dict.get ext lang_map); [reflexivity | congruence].
Qed.

(** X23. [classify_files_locally] returns, and it classifies exactly the
    files that are not hidden (their name does not start with a dot) and
    that lie, in the tree, below directories that the walk enters only:
    directories that are neither hidden nor in SKIP_DIRECTORIES.  Each is
    classified under its path relative to the repository. *)
Theorem classify_files_locally_covers_entered_directories (listing : list Entry) :
  exists classifications,
    classify_files_locally listing = Ok classifications
    /\ forall c,
         In c classifications
         <-> exists dirs file,
               Located listing dirs file
               /\ all_entered dirs
               /\ startswith file "." = false
               /\ classify_file (rel_path_from "" dirs file) file = Ok c.
Proof.
  unfold classify_files_locally.
  destruct (classify_loop (walk "" listing) []) as (cs & Hrun & Hcs).
  exists cs. split; [exact Hrun|]. intros c. rewrite Hcs. split.
  - intros ([rel file] & Hin & Hv & Hc). apply walk_spec in Hin as (dirs & Hloc & Hall & ->).
    exists dirs, file. unfold visible in Hv. simpl in Hv, Hc.
    repeat split; try assumption. now apply negb_true_iff in Hv.
  - intros (dirs & file & Hloc & Hall & Hv & Hc).
    exists (rel_path_from "" dirs file, file). split; [|split].
    + apply walk_spec. now exists dirs.
    + unfold visible. simpl. now rewrite Hv.
    + exact Hc.
Qed.

End DiscoveryProps.

(** ** Key findings *)

Module EventLoggerProps.
Import PyStr PyText EventLogger.

Lemma keyword_lines_bounded max_findings lines :
  forall findings,
    (Z.of_nat (List.length findings) < Z.max max_findings 1)%Z ->
    Forall (fun f => 15 < String.length f) findings ->
    (Z.of_nat (List.length (keyword_lines max_findings lines findings))
     <= Z.max max_findings 1)%Z
    /\ Forall (fun f => 15 < String.length f) (keyword_lines max_findings lines findings).
Proof.
  induction lines as [|line lines IH]; intros findings Hlen Hall; cbn [keyword_lines].
  - split; [lia | assumption].
  - destruct (negb (truthy (strip line)) || (String.length (strip line) <? 10));
      [now apply IH|].
    set (found := if existsb _ keywords then _ else findings).
    assert (Hfound : (Z.of_nat (List.length found) <= Z.max max_findings 1)%Z
                     /\ Forall (fun f => 15 < String.length f) found).
    { subst found. destruct (existsb _ keywords); [|split; [lia | assumption]].
      destruct (truthy _ && (15 <? _)) eqn:E; [|split; [lia | assumption]].
      apply andb_true_iff in E as [_ E]. apply Nat.ltb_lt in E. split.
      - rewrite length_app. simpl. lia.
      - apply Forall_app. split; [assumption | now constructor]. }
    destruct Hfound as [Hl Hf]. unfold full.
    destruct (Z.leb_spec max_findings (Z.of_nat (List.length found))).
    + now split.
    + apply IH; [lia | assumption].
Qed.

Lemma substantive_lines_bounded max_findings lines :
  forall findings,
    (Z.of_nat (List.length findings) < Z.max max_findings 1)%Z ->
    Forall (fun f => 15 < String.length f) findings ->
    (Z.of_nat (List.length (substantive_lines max_findings lines findings))
     <= Z.max max_findings 1)%Z
    /\ Forall (fun f => 15 < String.length f) (substantive_lines max_findings lines findings).
Proof.
  induction lines as [|line lines IH]; intros findings Hlen Hall;
    cbn [substantive_lines].
  - split; [lia | assumption].
  - destruct (truthy _ && (20 <? _) && negb _) eqn:E; [|now apply IH].
    apply andb_true_iff in E as [E _]. apply andb_true_iff in E as [_ E].
    apply Nat.ltb_lt in E.
    assert (Hf : Forall (fun f => 15 < String.length f)
                   (findings ++ [strip (lstrip_chars bullets (strip line))])).
    { apply Forall_app. split; [assumption|]. constructor; [lia | constructor]. }
    unfold full. rewrite length_app. simpl.
    destruct (Z.leb_spec max_findings (Z.of_nat (List.length findings + 1))).
    + split; [rewrite length_app; simpl; lia | assumption].
    + apply IH; [rewrite length_app; simpl; lia | assumption].
Qed.

(** X24. [extract_key_findings] returns at most [max_findings] findings, or
    one when [max_findings] is below 1; every finding is longer than 15
    characters; an empty output gives none. *)
Theorem extract_key_findings_bounded (output : string) (max_findings : Z) :
  let findings := extract_key_findings output max_findings in
  (Z.of_nat (List.length findings) <= Z.max max_findings 1)%Z
  /\ Forall (fun f => 15 < String.length f) findings
  /\ (output = "" -> findings = []).
Proof.
  cbv zeta. unfold extract_key_findings. split; [|split].
  - destruct (negb (truthy output)); [simpl; lia|].
    destruct (negb (nonempty _)) eqn:E.
    + destruct (keyword_lines max_findings (split newline output) []) eqn:K;
        [|discriminate].
      apply substantive_lines_bounded; [simpl; lia | constructor].
    + apply keyword_lines_bounded; [simpl; lia | constructor].
  - destruct (negb (truthy output)); [constructor|].
    destruct (negb (nonempty _)) eqn:E.
    + destruct (keyword_lines max_findings (split newline output) []) eqn:K;
        [|discriminate].
      apply substantive_lines_bounded; [simpl; lia | constructor].
    + apply keyword_lines_bounded; [simpl; lia | constructor].
  - intros ->. reflexivity.
Qed.

End EventLoggerProps.

(** ** The file analysis phase *)

Module RunFacts.
Import PyStr PyText FileTools FileAnalyzer BatchAnalyzer Coordinator Explorations.
Import RunFileAnalysis ExplorationRules RunRules AnalyzerLoops ExplorationFacts.

Lemma for_each_app {A S} (body : S -> A -> Res S) l1 l2 st :
  for_each (l1 ++ l2) body st = bind (for_each l1 body st) (for_each l2 body).
Proof.
  revert st. induction l1 as [|x l1 IH]; intros st; simpl; [reflexivity|].
  destruct (body st x); simpl; [apply IH | reflexivity].
Qed.

Lemma skipn_cons_nth {A} (l : list A) : forall n x,
  nth_error l n = Some x -> skipn n l = x :: skipn (S n) l.
Proof.
  induction l as [|y l IH]; intros [|n] x; simpl; try discriminate.
  - now intros [= ->].
  - intros H. now rewrite (IH n x H).
Qed.

Lemma combine_app_left {A B} (xs1 xs2 : list B) : forall l : list A,
  List.length xs1 <= List.length l ->
  combine l (xs1 ++ xs2) = combine l xs1 ++ combine (skipn (List.length xs1) l) xs2.
Proof.
  induction xs1 as [|x xs1 IH]; intros l Hlen; simpl.
  - now destruct l.
  - destruct l as [|y l]; simpl in *; [lia|]. rewrite IH by lia. reflexivity.
Qed.

Lemma firstn_plus {A} (l : list A) : forall n m,
  firstn (n + m) l = firstn n l ++ firstn m (skipn n l).
Proof.
  induction l as [|x l IH]; intros [|n] m; simpl; try reflexivity.
  - now rewrite firstn_nil.
  - now rewrite IH.
Qed.

Lemma length_run_each provider tasks :
  List.length (run_each provider tasks) = List.length tasks.
Proof. unfold run_each. now rewrite length_map, length_enumerate_from. Qed.

Lemma names_run_each provider tasks :
  map task_name (run_each provider tasks) = map name tasks.
Proof.
  unfold run_each. rewrite map_map. generalize 0.
  induction tasks as [|t ts IH]; intros k; simpl; [reflexivity|].
  rewrite IH. f_equal. now destruct (provider k t).
Qed.

Section Run.
Variable fs : string -> Node.
Variable model : string.
Variable api_key : string.
Variable provider : nat -> nat -> SubagentTask -> Outcome.
Variable schedule : nat -> list nat.
Variable str_of : nat -> string.
Variable bool_of : nat -> bool.
Variable purpose_in : string -> option string.
Variable complexity_in : string -> option Z.
Variable insights_in : string -> list string.
Variable save : list FA.t -> Res unit.
Variable repository_path : string.

#[local] Abbreviation task_step := (task_step fs model api_key repository_path).
#[local] Abbreviation task_of := (task_of fs model api_key repository_path).
#[local] Abbreviation is_readable := (is_readable fs repository_path).
#[local] Abbreviation text_of := (text_of fs repository_path).
#[local] Abbreviation parse_llm_analysis :=
  (parse_llm_analysis purpose_in complexity_in insights_in).
#[local] Abbreviation record_step :=
  (record_step str_of bool_of purpose_in complexity_in insights_in).
#[local] Abbreviation collect_results :=
  (collect_results str_of bool_of purpose_in complexity_in insights_in).
#[local] Abbreviation batch_body :=
  (batch_body provider schedule str_of bool_of purpose_in complexity_in insights_in).

(** *** The tasks *)

Lemma tasks_built fcs :
  forall tasks file_contents,
    fold_left task_step fcs (tasks, file_contents)
    = (tasks ++ map task_of (filter is_readable fcs),
       fold_left (fun d f => Dict.set (FC.path f) (text_of f) d)
                 (filter is_readable fcs) file_contents).
Proof.
  induction fcs as [|f fcs IH]; intros tasks file_contents; simpl.
  - now rewrite app_nil_r.
  - unfold is_readable, RunRules.is_readable, text_of, RunRules.text_of.
    destruct (startswith (read_file fs (path_join repository_path (FC.path f)) None)
                         "Error:"); simpl.
    + apply IH.
    + rewrite IH, <- app_assoc. reflexivity.
Qed.

(** *** One batch *)

Lemma collect_zip analyzable file_contents i rs :
  forall j results,
    i + j + List.length rs <= List.length analyzable ->
    collect_results analyzable file_contents i (enumerate_from j rs) results
    = for_each (combine (skipn (i + j) analyzable) rs)
               (fun acc p => record_step file_contents acc (fst p) (snd p)) results.
Proof.
  induction rs as [|r rs IH]; intros j results Hlen; simpl.
  - now destruct (skipn (i + j) analyzable).
  - simpl in Hlen. destruct (Nat.leb_spec (List.length analyzable) (i + j)); [lia|].
    destruct (nth_error analyzable (i + j)) as [f|] eqn:E.
    2:{ apply nth_error_None in E. lia. }
    unfold index. rewrite E, (skipn_cons_nth _ _ _ E). cbn [bind combine for_each fst snd].
    destruct (record_step file_contents results f r) as [results'|e]; cbn [bind];
      [|reflexivity].
    rewrite IH by lia. now rewrite Nat.add_succ_r.
Qed.

Lemma batch_returns c analyzable tasks file_contents results i :
  init 10 = Ok c ->
  i + List.length (firstn 15 (skipn i tasks)) <= List.length analyzable ->
  batch_body c analyzable tasks file_contents results i
  = Some (for_each (combine (skipn i analyzable)
                      (run_each (provider i) (firstn 15 (skipn i tasks))))
                   (fun acc p => record_step file_contents acc (fst p) (snd p)) results).
Proof.
  intros Hc Hlen. unfold batch_body.
  rewrite (run_parallel_plain (provider i) _ 10 c (schedule i) Hc) by lia.
  f_equal. rewrite collect_zip.
  - now rewrite Nat.add_0_r.
  - rewrite length_run_each. lia.
Qed.

(** *** The batches, one after the other *)

Lemma batches_return c analyzable tasks file_contents starts :
  init 10 = Ok c ->
  (forall i, In i starts ->
             i + List.length (firstn 15 (skipn i tasks)) <= List.length analyzable) ->
  forall results,
    for_each_or starts (batch_body c analyzable tasks file_contents) results
    = Some (for_each
              (flat_map (fun i => combine (skipn i analyzable)
                                    (run_each (provider i) (firstn 15 (skipn i tasks))))
                        starts)
              (fun acc p => record_step file_contents acc (fst p) (snd p)) results).
Proof.
  intros Hc. induction starts as [|i starts IH]; intros Hlen results; simpl.
  - reflexivity.
  - rewrite (batch_returns c analyzable tasks file_contents results i Hc)
      by (apply Hlen; now left).
    rewrite for_each_app.
    destruct (for_each (combine _ _) _ results) as [results'|e]; cbn [bind].
    + apply IH. intros i' Hi'. apply Hlen. now right.
    + reflexivity.
Qed.

(** The chunks of 15 answers, each paired with the files from its start,
    are the answers paired with the files. *)
Lemma chunks_zip {A B} (l : list A) (ans : nat -> list B) (n : nat) :
  n <= List.length l ->
  (forall k, List.length (ans (k * 15)) = Nat.min 15 (n - k * 15)) ->
  forall m k0,
    k0 * 15 + (m * 15 - 14) <= n ->
    flat_map (fun i => combine (skipn i l) (ans i)) (map (fun k => k * 15) (seq k0 m))
    = combine (skipn (k0 * 15) l)
              (flat_map ans (map (fun k => k * 15) (seq k0 m))).
Proof.
  intros Hn Hans. induction m as [|m IH]; intros k0 Hk; simpl.
  - now destruct (skipn (k0 * 15) l).
  - rewrite combine_app_left.
    2:{ rewrite Hans, length_skipn. lia. }
    f_equal. destruct m as [|m].
    + simpl. now destruct (skipn _ (skipn _ l)).
    + rewrite IH by lia. rewrite Hans, skipn_skipn.
      replace (Nat.min 15 (n - k0 * 15) + k0 * 15) with (S k0 * 15) by lia.
      reflexivity.
Qed.

Lemma range_step_in n i :
  In i (range_step n 15) -> i < n.
Proof.
  unfold range_step. intros H. apply in_map_iff in H as (k & <- & Hk).
  apply in_seq in Hk.
  pose proof (Nat.Div0.mul_div_le (n + 15 - 1) 15). lia.
Qed.

(** *** What one answer leaves in the results *)

Lemma parse_returns llm_output path language content :
  exists r,
    parse_llm_analysis llm_output path (Some language) content = Ok r
    /\ FA.path r = path /\ FA.language r = language
    /\ FA.raw_summary r = take 2000 llm_output
    /\ exists local,
         analyze_file_locally path content (Some language) = Ok local
         /\ FA.classes r = FA.classes local /\ FA.functions r = FA.functions local
         /\ FA.imports r = FA.imports local /\ FA.exports r = FA.exports local.
Proof.
  destruct (analyze_file_locally_ok path content (Some language))
    as (l & local & _ & Hlocal & _ & _ & _ & _ & _ & Hscore).
  unfold RunFileAnalysis.parse_llm_analysis. rewrite Hlocal. cbn [bind].
  unfold FA.create.
  assert (Hin : ((1 <=? match complexity_in llm_output with
                        | Some complexity => Z.max 1 (Z.min 10 complexity)
                        | None => FA.complexity_score local
                        end)
                 && (match complexity_in llm_output with
                     | Some complexity => Z.max 1 (Z.min 10 complexity)
                     | None => FA.complexity_score local
                     end <=? 10))%Z = true).
  { destruct (complexity_in llm_output).
    - apply andb_true_iff. split; apply Z.leb_le; lia.
    - rewrite Hscore. apply complexity_in_bounds. }
  rewrite Hin. eexists. split; [reflexivity|]. simpl.
  repeat split. exists local. repeat split.
Qed.

Lemma record_step_returns file_contents results f a :
  FC.language f <> None ->
  exists rs,
    record_step file_contents results f a = Ok (results ++ rs)
    /\ (success a && truthy_val bool_of (output a) = true ->
        exists r, rs = [r]
                  /\ parse_llm_analysis (str_val str_of (output a)) (FC.path f)
                       (FC.language f) (get_or_empty (FC.path f) file_contents) = Ok r
                  /\ FA.path r = FC.path f
                  /\ FA.raw_summary r = take 2000 (str_val str_of (output a))).
Proof.
  intros Hlang. destruct (FC.language f) as [language|] eqn:El; [|congruence].
  unfold RunFileAnalysis.record_step. rewrite El.
  destruct (success a && truthy_val bool_of (output a)).
  - destruct (parse_returns (str_val str_of (output a)) (FC.path f) language
                (get_or_empty (FC.path f) file_contents)) as (r & Hr & Hp & _ & Hs & _).
    rewrite Hr. cbn [bind]. exists [r]. split; [reflexivity|].
    intros _. exists r. repeat split; assumption.
  - destruct (truthy (get_or_empty (FC.path f) file_contents)).
    + destruct (analyze_file_locally_ok (FC.path f)
                  (get_or_empty (FC.path f) file_contents) (Some language))
        as (l & local & _ & -> & _).
      cbn [bind]. eexists. split; [reflexivity | discriminate].
    + exists []. split; [now rewrite app_nil_r | discriminate].
Qed.

Lemma record_loop file_contents items :
  (forall f a, In (f, a) items -> FC.language f <> None) ->
  forall results,
    exists rs,
      for_each items (fun acc p => record_step file_contents acc (fst p) (snd p)) results
      = Ok (results ++ rs)
      /\ forall f a,
           In (f, a) items ->
           success a && truthy_val bool_of (output a) = true ->
           exists r, In r rs
                     /\ parse_llm_analysis (str_val str_of (output a)) (FC.path f)
                          (FC.language f) (get_or_empty (FC.path f) file_contents) = Ok r
                     /\ FA.path r = FC.path f
                     /\ FA.raw_summary r = take 2000 (str_val str_of (output a)).
Proof.
  induction items as [|[f a] items IH]; intros Hlang results.
  - exists []. split; [simpl; now rewrite app_nil_r | intros f a []].
  - cbn [for_each fst snd].
    destruct (record_step_returns file_contents results f a) as (rs & -> & Hrs).
    { apply (Hlang f a). now left. }
    cbn [bind].
    destruct (IH (fun f' a' H => Hlang f' a' (or_intror H)) (results ++ rs))
      as (rs' & -> & Hrs').
    exists (rs ++ rs'). split; [now rewrite app_assoc|].
    intros f' a' [[= <- <-]|Hin] Hok.
    + destruct (Hrs Hok) as (r & -> & Hr). exists r. split; [now left | exact Hr].
    + destruct (Hrs' f' a' Hin Hok) as (r & Hr & Hrest).
      exists r. split; [apply in_or_app; now right | exact Hrest].
Qed.

(** *** The whole phase *)

Lemma run_file_analysis_zip files :
  let analyzable := filter is_analyzable files in
  let readable := filter is_readable analyzable in
  let tasks := map task_of readable in
  RunFileAnalysis.run_file_analysis fs model api_key provider schedule str_of bool_of
    purpose_in complexity_in insights_in save files repository_path
  = Some (results <- for_each (combine analyzable (answers provider tasks))
                       (fun acc p =>
                          record_step (contents_of fs repository_path readable)
                                      acc (fst p) (snd p)) [] ;;
          _ <- save results ;; Ok results).
Proof.
  cbv zeta. unfold RunFileAnalysis.run_file_analysis.
  change (init 10) with (Ok (mkCoordinator 10 10)). cbv iota.
  rewrite tasks_built. cbn [app].
  set (analyzable := filter is_analyzable files).
  set (readable := filter is_readable analyzable).
  set (tasks := map task_of readable).
  assert (Hlen : List.length tasks <= List.length analyzable).
  { subst tasks readable. rewrite length_map. apply filter_length_le. }
  rewrite (batches_return (mkCoordinator 10 10) analyzable tasks _ _ eq_refl).
  2:{ intros i Hi. apply range_step_in in Hi.
      rewrite length_firstn, length_skipn. lia. }
  unfold range_step at 1.
  rewrite (chunks_zip analyzable
             (fun i => run_each (provider i) (firstn 15 (skipn i tasks)))
             (List.length tasks) Hlen).
  - cbn [Nat.mul skipn]. unfold answers, range_step, contents_of.
    destruct (for_each _ _ []); reflexivity.
  - intros k. rewrite length_run_each, length_firstn, length_skipn. reflexivity.
  - pose proof (Nat.Div0.mul_div_le (List.length tasks + 15 - 1) 15). lia.
Qed.

Lemma names_answers tasks :
  map task_name (answers provider tasks) = map name tasks.
Proof.
  unfold answers.
  assert (G : forall m k0,
             k0 * 15 + (m * 15 - 14) <= List.length tasks ->
             map task_name
               (flat_map (fun i => run_each (provider i) (firstn 15 (skipn i tasks)))
                         (map (fun k => k * 15) (seq k0 m)))
             = map name (firstn (m * 15) (skipn (k0 * 15) tasks))).
  { induction m as [|m IH]; intros k0 Hk; [reflexivity|].
    cbn [seq map flat_map]. rewrite map_app, names_run_each.
    destruct m as [|m].
    - cbn [seq map flat_map]. rewrite app_nil_r. reflexivity.
    - rewrite IH by lia. rewrite <- map_app. f_equal.
      replace (S k0 * 15) with (15 + k0 * 15) by lia.
      rewrite <- skipn_skipn.
      replace (S (S m) * 15) with (15 + S m * 15) by lia.
      rewrite firstn_plus. reflexivity. }
  unfold range_step. rewrite G.
  - cbn [Nat.mul skipn]. rewrite firstn_all2; [reflexivity|].
    pose proof (Nat.div_mod_eq (List.length tasks + 15 - 1) 15).
    pose proof (Nat.mod_upper_bound (List.length tasks + 15 - 1) 15). lia.
  - pose proof (Nat.Div0.mul_div_le (List.length tasks + 15 - 1) 15). lia.
Qed.

End Run.

End RunFacts.

Module RunProps.
Import PyStr PyText FileTools FileAnalyzer BatchAnalyzer Coordinator Explorations.
Import RunFileAnalysis ExplorationRules RunRules RunFacts.

Lemma in_combine_nth {A B} (l : list A) : forall (l' : list B) k x y,
  nth_error l k = Some x -> nth_error l' k = Some y -> In (x, y) (combine l l').
Proof.
  induction l as [|a l IH]; intros [|b l'] [|k] x y; simpl; try discriminate.
  - intros [= ->] [= ->]. now left.
  - intros Hx Hy. right. now apply (IH l' k).
Qed.

(** X25. [run_file_analysis] never hangs, and raises only when the
    combined handoff file cannot be written.  A task is built for every
    analyzable file whose text does not start with "Error:", and the
    answers come back in the order of the tasks; but the answer at
    position k is recorded with the k-th analyzable file, readable or
    not: the results are what the recording step makes of the analyzable
    files paired, position by position, with the answers. *)
Theorem run_file_analysis_pairs_by_position
    (fs : string -> Node) (model api_key : string)
    (provider : nat -> nat -> SubagentTask -> Outcome) (schedule : nat -> list nat)
    (str_of : nat -> string) (bool_of : nat -> bool)
    (purpose_in : string -> option string) (complexity_in : string -> option Z)
    (insights_in : string -> list string) (save : list FA.t -> Res unit)
    (files : list FC.t) (repository_path : string) :
  let analyzable := filter is_analyzable files in
  let readable := filter (is_readable fs repository_path) analyzable in
  let tasks := map (task_of fs model api_key repository_path) readable in
  exists results,
    for_each (combine analyzable (answers provider tasks))
      (fun acc p =>
         record_step str_of bool_of purpose_in complexity_in insights_in
           (contents_of fs repository_path readable) acc (fst p) (snd p)) []
    = Ok results
    /\ run_file_analysis fs model api_key provider schedule str_of bool_of
         purpose_in complexity_in insights_in save files repository_path
       = Some (_ <- save results ;; Ok results)
    /\ map task_name (answers provider tasks) = map task_name_of readable
    /\ List.length results <= List.length readable.
Proof.
  cbv zeta.
  set (analyzable := filter is_analyzable files).
  set (readable := filter (is_readable fs repository_path) analyzable).
  set (tasks := map (task_of fs model api_key repository_path) readable).
  pose proof (run_file_analysis_zip fs model api_key provider schedule str_of bool_of
                purpose_in complexity_in insights_in save repository_path files) as Hrun.
  cbv zeta in Hrun. fold analyzable readable tasks in Hrun.
  assert (Hnames : map task_name (answers provider tasks) = map task_name_of readable).
  { rewrite names_answers. subst tasks. rewrite map_map. reflexivity. }
  assert (Hlang : forall f a, In (f, a) (combine analyzable (answers provider tasks)) ->
                              FC.language f <> None).
  { intros f a Hin. apply in_combine_l in Hin. apply filter_In in Hin as [_ Hin].
    unfold is_analyzable in Hin. apply andb_true_iff in Hin as [_ Hin].
    destruct (FC.language f); [discriminate | discriminate]. }
  assert (Hbound : forall pairs acc rs,
             for_each pairs
               (fun acc p =>
                  record_step str_of bool_of purpose_in complexity_in insights_in
                    (contents_of fs repository_path readable) acc (fst p) (snd p)) acc
             = Ok rs ->
             List.length rs <= List.length acc + List.length pairs).
  { induction pairs as [|[f a] pairs IH]; intros acc rs; cbn [for_each].
    - intros [= <-]. simpl. lia.
    - cbn [fst snd]. unfold record_step at 1.
      destruct (success a && truthy_val bool_of (output a)).
      + destruct (parse_llm_analysis _ _ _ _ _ _ _); cbn [bind]; [|discriminate].
        intros H. apply IH in H. rewrite length_app in H. simpl in *. lia.
      + destruct (truthy _).
        * destruct (analyze_file_locally _ _ _); cbn [bind]; [|discriminate].
          intros H. apply IH in H. rewrite length_app in H. simpl in *. lia.
        * intros H. apply IH in H. simpl. lia. }
  destruct (record_loop str_of bool_of purpose_in complexity_in insights_in
              (contents_of fs repository_path readable)
              (combine analyzable (answers provider tasks)) Hlang [])
    as (results & Hloop & _).
  simpl in Hloop. exists results. split; [exact Hloop|]. split; [|split].
  - rewrite Hrun, Hloop. reflexivity.
  - exact Hnames.
  - apply Hbound in Hloop. rewrite length_combine in Hloop.
    assert (List.length (answers provider tasks) = List.length readable).
    { rewrite <- (length_map task_name), Hnames, length_map. reflexivity. }
    simpl in Hloop. lia.
Qed.

(** X26. When the answer at position k is a success with an output, and
    the handoff file can be written, the results hold a record that bears
    the path of the k-th analyzable file and the text of that answer,
    while the answer was asked for the k-th readable file.  The two files
    differ as soon as an unreadable analyzable file comes before. *)
Theorem answer_is_recorded_under_the_file_at_its_position
    (fs : string -> Node) (model api_key : string)
    (provider : nat -> nat -> SubagentTask -> Outcome) (schedule : nat -> list nat)
    (str_of : nat -> string) (bool_of : nat -> bool)
    (purpose_in : string -> option string) (complexity_in : string -> option Z)
    (insights_in : string -> list string) (save : list FA.t -> Res unit)
    (files : list FC.t) (repository_path : string)
    (k : nat) (f : FC.t) (a : SubagentResult) :
  let analyzable := filter is_analyzable files in
  let readable := filter (is_readable fs repository_path) analyzable in
  let tasks := map (task_of fs model api_key repository_path) readable in
  nth_error analyzable k = Some f ->
  nth_error (answers provider tasks) k = Some a ->
  success a = true ->
  truthy_val bool_of (output a) = true ->
  (forall results, save results = Ok tt) ->
  exists g results r,
    nth_error readable k = Some g
    /\ task_name a = task_name_of g
    /\ run_file_analysis fs model api_key provider schedule str_of bool_of
         purpose_in complexity_in insights_in save files repository_path
       = Some (Ok results)
    /\ In r results
    /\ FA.path r = FC.path f
    /\ FA.raw_summary r = take 2000 (str_val str_of (output a)).
Proof.
  cbv zeta.
  set (analyzable := filter is_analyzable files).
  set (readable := filter (is_readable fs repository_path) analyzable).
  set (tasks := map (task_of fs model api_key repository_path) readable).
  intros Hf Ha Hs Ht Hsave.
  pose proof (run_file_analysis_zip fs model api_key provider schedule str_of bool_of
                purpose_in complexity_in insights_in save repository_path files) as Hrun.
  cbv zeta in Hrun. fold analyzable readable tasks in Hrun.
  assert (Hnames : map task_name (answers provider tasks) = map task_name_of readable).
  { rewrite names_answers. subst tasks. rewrite map_map. reflexivity. }
  assert (Hg : exists g, nth_error readable k = Some g /\ task_name a = task_name_of g).
  { assert (H : nth_error (map task_name (answers provider tasks)) k = Some (task_name a))
      by (rewrite nth_error_map, Ha; reflexivity).
    rewrite Hnames, nth_error_map in H.
    destruct (nth_error readable k) as [g|]; [|discriminate].
    exists g. split; [reflexivity|]. simpl in H. congruence. }
  destruct Hg as (g & Hg & Hname).
  assert (Hlang : forall f a, In (f, a) (combine analyzable (answers provider tasks)) ->
                              FC.language f <> None).
  { intros f' a' Hin. apply in_combine_l in Hin. apply filter_In in Hin as [_ Hin].
    unfold is_analyzable in Hin. apply andb_true_iff in Hin as [_ Hin].
    destruct (FC.language f'); discriminate. }
  destruct (record_loop str_of bool_of purpose_in complexity_in insights_in
              (contents_of fs repository_path readable)
              (combine analyzable (answers provider tasks)) Hlang [])
    as (results & Hloop & Hin).
  simpl in Hloop.
  destruct (Hin f a (in_combine_nth _ _ k f a Hf Ha)) as (r & Hr & _ & Hp & Hsum).
  { now rewrite Hs, Ht. }
  exists g, results, r. split; [exact Hg|]. split; [exact Hname|].
  split; [|split; [exact Hr | split; [exact Hp | exact Hsum]]].
  rewrite Hrun, Hloop. cbn [bind]. now rewrite Hsave.
Qed.

Lemma answer_is_recorded_under_the_file_at_its_position_witness :
  exists results r,
    run_file_analysis Samples2.disk "gemini/gemini-2.5-flash" "key" Samples2.echo
      (fun _ => []) Samples2.str_of Samples2.bool_of
      (fun _ => None) (fun _ => None) (fun _ => []) (fun _ => Ok tt)
      Samples2.sources "/srv/repo" = Some (Ok results)
    /\ In r results
    /\ FA.path r = "a.py"
    /\ FA.raw_summary r = "answer for analyze_b.py".
Proof.
  destruct (answer_is_recorded_under_the_file_at_its_position
              Samples2.disk "gemini/gemini-2.5-flash" "key" Samples2.echo
              (fun _ => []) Samples2.str_of Samples2.bool_of
              (fun _ => None) (fun _ => None) (fun _ => []) (fun _ => Ok tt)
              Samples2.sources "/srv/repo" 0
              (FileClassification.mk "a.py" FileType.SOURCE_CODE (Some "python") 5 "")
              (mkResult "analyze_b.py" true (PyText "answer for analyze_b.py") None)
              eq_refl eq_refl eq_refl eq_refl (fun _ => eq_refl))
    as (g & results & r & _ & _ & Hrun & Hin & Hp & Hs).
  exists results, r. repeat split; assumption.
Defined.

Lemma filter_all {A} (p : A -> bool) l :
  (forall x, In x l -> p x = true) -> filter p l = l.
Proof.
  induction l as [|x l IH]; simpl; intros H; [reflexivity|].
  rewrite (H x) by now left. rewrite IH; [reflexivity|].
  intros y Hy. apply H. now right.
Qed.

Lemma combine_names {A B C} (g : B -> C) (h : A -> C) (l : list A) :
  forall l' : list B,
    map g l' = map h l ->
    forall x y, In (x, y) (combine l l') -> g y = h x.
Proof.
  induction l as [|a l IH]; intros [|b l'] Hmap x y; simpl; try tauto.
  simpl in Hmap. injection Hmap as Hhead Htail.
  intros [[= <- <-]|Hin]; [assumption | now apply (IH l')].
Qed.

(** X28. When every analyzable file is readable, [run_file_analysis]
    records each answer with the file it was asked for.  A task is then
    built for every analyzable file, the k-th task for the k-th file, and
    there is one answer per file; the phase returns what the recording
    step makes of the files paired with the answers, saved to the handoff
    file; the answer paired with a file bears the task name of that file,
    and when it is a success with an output the results hold a record with
    the path of that file and the text of that answer. *)
Theorem readable_files_get_their_own_answers
    (fs : string -> Node) (model api_key : string)
    (provider : nat -> nat -> SubagentTask -> Outcome) (schedule : nat -> list nat)
    (str_of : nat -> string) (bool_of : nat -> bool)
    (purpose_in : string -> option string) (complexity_in : string -> option Z)
    (insights_in : string -> list string) (save : list FA.t -> Res unit)
    (files : list FC.t) (repository_path : string) :
  let analyzable := filter is_analyzable files in
  let readable := filter (is_readable fs repository_path) analyzable in
  let tasks := map (task_of fs model api_key repository_path) readable in
  (forall f, In f analyzable -> is_readable fs repository_path f = true) ->
  exists results,
    run_file_analysis fs model api_key provider schedule str_of bool_of
      purpose_in complexity_in insights_in save files repository_path
    = Some (_ <- save results ;; Ok results)
    /\ for_each (combine analyzable (answers provider tasks))
         (fun acc p =>
            record_step str_of bool_of purpose_in complexity_in insights_in
              (contents_of fs repository_path analyzable) acc (fst p) (snd p)) []
       = Ok results
    /\ tasks = map (task_of fs model api_key repository_path) analyzable
    /\ List.length (answers provider tasks) = List.length analyzable
    /\ (forall f a,
          In (f, a) (combine analyzable (answers provider tasks)) ->
          task_name a = task_name_of f)
    /\ (forall f a,
          In (f, a) (combine analyzable (answers provider tasks)) ->
          success a = true ->
          truthy_val bool_of (output a) = true ->
          exists r, In r results
                    /\ FA.path r = FC.path f
                    /\ FA.raw_summary r = take 2000 (str_val str_of (output a))).
Proof.
  cbv zeta. intros Hall.
  pose proof (run_file_analysis_zip fs model api_key provider schedule str_of bool_of
                purpose_in complexity_in insights_in save repository_path files) as Hrun.
  cbv zeta in Hrun. rewrite (filter_all _ _ Hall) in *.
  set (analyzable := filter is_analyzable files) in *.
  set (tasks := map (task_of fs model api_key repository_path) analyzable) in *.
  assert (Hnames : map task_name (answers provider tasks) = map task_name_of analyzable).
  { rewrite names_answers. subst tasks. rewrite map_map. reflexivity. }
  assert (Hlang : forall f a, In (f, a) (combine analyzable (answers provider tasks)) ->
                              FC.language f <> None).
  { intros f a Hin. apply in_combine_l in Hin. apply filter_In in Hin as [_ Hin].
    unfold is_analyzable in Hin. apply andb_true_iff in Hin as [_ Hin].
    destruct (FC.language f); discriminate. }
  destruct (record_loop str_of bool_of purpose_in complexity_in insights_in
              (contents_of fs repository_path analyzable)
              (combine analyzable (answers provider tasks)) Hlang [])
    as (results & Hloop & Hin).
  simpl in Hloop. exists results.
  split; [rewrite Hrun, Hloop; reflexivity|].
  split; [exact Hloop|]. split; [reflexivity|]. split; [|split].
  - rewrite <- (length_map task_name), Hnames, length_map. reflexivity.
  - apply (combine_names task_name task_name_of analyzable _ Hnames).
  - intros f a Hfa Hs Ht.
    destruct (Hin f a Hfa) as (r & Hr & _ & Hp & Hsum); [now rewrite Hs, Ht|].
    exists r. split; [exact Hr | split; [exact Hp | exact Hsum]].
Qed.

(** Two readable files: the phase returns one record per file, each with
    the answer that names the task of that file. *)
Lemma readable_files_get_their_own_answers_witness :
  exists results,
    run_file_analysis Samples2.disk "gemini/gemini-2.5-flash" "key" Samples2.echo
      (fun _ => []) Samples2.str_of Samples2.bool_of
      (fun _ => None) (fun _ => None) (fun _ => []) (fun _ => Ok tt)
      (tl Samples2.sources) "/srv/repo" = Some (Ok results)
    /\ map FA.path results = ["b.py"; "c.py"]
    /\ map FA.raw_summary results
       = ["answer for analyze_b.py"; "answer for analyze_c.py"].
Proof.
  destruct (readable_files_get_their_own_answers
              Samples2.disk "gemini/gemini-2.5-flash" "key" Samples2.echo
              (fun _ => []) Samples2.str_of Samples2.bool_of
              (fun _ => None) (fun _ => None) (fun _ => []) (fun _ => Ok tt)
              (tl Samples2.sources) "/srv/repo")
    as (results & Hrun & Hloop & _).
  { intros f [E|[E|[]]]; rewrite <- E; reflexivity. }
  exists results. split; [exact Hrun|].
  vm_compute in Hloop. injection Hloop as <-. split; reflexivity.
Defined.

End RunProps.

(** ** More about the dependency graph *)

Module GraphProps.
Import PyStr ModuleAnalyzer EdgeRules GraphFacts.

Lemma prefix_refl s : String.prefix s s = true.
Proof.
  induction s as [|a t IH]; simpl; [reflexivity|].
  destruct (ascii_dec a a); [assumption | contradiction].
Qed.

Lemma endswith_contains s suf : endswith s suf = true -> contains suf s = true.
Proof.
  induction s as [|a t IH]; cbn [endswith contains].
  - destruct (String.eqb_spec "" suf) as [<-|_]; [reflexivity | discriminate].
  - destruct (String.eqb_spec (String a t) suf) as [<-|_].
    + intros _. now rewrite prefix_refl.
    + intros H. rewrite (IH H). now destruct (String.prefix suf (String a t)).
Qed.

(** The test of line 199 is the substring test alone. *)
Lemma resolves_is_contains target_module other_path :
  resolves target_module other_path
  = contains target_module (fst (OsPath.splitext other_path)).
Proof.
  unfold resolves.
  destruct (endswith _ _) eqn:E; [|reflexivity].
  now rewrite (endswith_contains _ _ E).
Qed.

Lemma find_ext {A} (p q : A -> bool) l :
  (forall x, p x = q x) -> find p l = find q l.
Proof.
  intros H. induction l as [|x l IH]; simpl; [reflexivity|].
  rewrite H, IH. reflexivity.
Qed.

Lemma find_exists {A} (p : A -> bool) l x :
  In x l -> p x = true -> exists y, find p l = Some y.
Proof.
  induction l as [|z l IH]; simpl; [tauto|].
  intros [->|Hin] Hp.
  - rewrite Hp. eauto.
  - destruct (p z); eauto.
Qed.

(** X27. A local import is resolved by a substring test alone: the suffix
    test of the loop adds nothing.  So whenever the module of a local
    import, with its dots turned into slashes, occurs anywhere in the
    extension-stripped path of some input file, the graph holds an
    imports edge from the importing file to the first such file of the
    input. *)
Theorem local_import_resolves_by_substring
    (files : list FA.t) (a : FA.t) (imp : ImportInfo.t) (p : string) :
  In a files ->
  In imp (FA.imports a) ->
  is_local imp = true ->
  In p (map FA.path files) ->
  contains (normalized imp) (fst (OsPath.splitext p)) = true ->
  (forall target_module other_path,
     endswith (fst (OsPath.splitext other_path)) target_module
     || contains target_module (fst (OsPath.splitext other_path))
     = contains target_module (fst (OsPath.splitext other_path)))
  /\ exists q,
       find (fun path => contains (normalized imp) (fst (OsPath.splitext path)))
            (map FA.path files) = Some q
       /\ In (imports_edge (FA.path a) q) (build_dependency_graph files).
Proof.
  intros Ha Himp Hlocal Hp Hsub. split; [exact resolves_is_contains|].
  destruct (find_exists
              (fun path => contains (normalized imp) (fst (OsPath.splitext path)))
              _ p Hp Hsub) as (q & Hq).
  exists q. split; [exact Hq|].
  rewrite graph_is_rules. unfold edges. apply in_flat_map. exists a.
  split; [assumption|]. unfold file_edges. apply in_or_app. left.
  apply in_flat_map. exists imp. split; [assumption|].
  unfold import_edges. rewrite Hlocal.
  rewrite (find_ext _ _ _ (resolves_is_contains (normalized imp))), Hq. now left.
Qed.

Lemma local_import_resolves_by_substring_witness :
  In (imports_edge "a/b.py" "a/c.py") (build_dependency_graph Samples.repo).
Proof.
  destruct (local_import_resolves_by_substring Samples.repo
              (Samples.record "a/b.py" "Data models"
                 [ImportInfo.mk "a.b" [] false false;
                  ImportInfo.mk "os" [] false true;
                  ImportInfo.mk ".c" ["A"] true false]
                 ["B"; "_p"] [Samples.class_ "B" ["A"; "B"]])
              (ImportInfo.mk ".c" ["A"] true false) "a/c.py")
    as (_ & q & Hq & Hin).
  - now left.
  - right. right. now left.
  - reflexivity.
  - right. now left.
  - reflexivity.
  - vm_compute in Hq. injection Hq as <-. exact Hin.
Defined.

End GraphProps.
